(** * TrueChain: the streaming query pipeline

    A shallow embedding of the backend's core:
    - [app/services/search_service.py]  (SearchService),
    - [app/websocket/stream_manager.py] (ConnectionManager, StreamManager),
    - [app/services/graph_service.py]   (GraphService),
    - [app/routes/query_routes.py]      (startup_event, websocket_stream_endpoint),
    followed by the properties of the pipeline.

    Python text is modelled by [string]: a sequence of code points below 256
    (Latin-1).  [asyncio] tasks are run one at a time, so every coroutine is a
    function from the state of the process to an outcome and a new state.
    Calls to [logger] leave no trace in the model. *)

From Stdlib Require Import String Ascii List ZArith Bool Arith Lia DecimalString.
From Stdlib Require Import Permutation Sorted.
Import ListNotations.
Open Scope string_scope.

(* ===================================================================== *)
(** ** Python built-ins used by the code *)
(* ===================================================================== *)

Module Py.

(** [str.lower] on one code point below 256: A-Z and the Latin-1 capitals
    (U+00C0..U+00DE without the multiplication sign U+00D7) move up by 32. *)
Definition lower_char (c : ascii) : ascii :=
  let n := nat_of_ascii c in
  if (((65 <=? n) && (n <=? 90)) ||
      ((192 <=? n) && (n <=? 222) && negb (n =? 215)))%nat
  then ascii_of_nat (n + 32)
  else c.

(** [s.lower()] *)
Fixpoint lower (s : string) : string :=
  match s with
  | EmptyString => EmptyString
  | String c rest => String (lower_char c) (lower rest)
  end.

(** The code points below 256 that [str.strip] removes. *)
Definition isspace (c : ascii) : bool :=
  let n := nat_of_ascii c in
  (((9 <=? n) && (n <=? 13)) || ((28 <=? n) && (n <=? 32)) ||
   (n =? 133) || (n =? 160))%nat.

Fixpoint lstrip (s : string) : string :=
  match s with
  | EmptyString => EmptyString
  | String c rest => if isspace c then lstrip rest else s
  end.

(** [rstrip] drops the trailing run of whitespace. *)
Fixpoint rstrip (s : string) : string :=
  match s with
  | EmptyString => EmptyString
  | String c rest =>
      match rstrip rest with
      | EmptyString => if isspace c then EmptyString else String c EmptyString
      | r => String c r
      end
  end.

(** [s.strip()] *)
Definition strip (s : string) : string := rstrip (lstrip s).

(** Truth value of a [str]: only the empty string is false. *)
Definition truthy (s : string) : bool :=
  match s with EmptyString => false | _ => true end.

(** [str(n)] for an [int]. *)
Definition str_of_int (z : Z) : string := NilZero.string_of_int (Z.to_int z).

End Py.

(* ===================================================================== *)
(** ** Exceptions and coroutines *)
(* ===================================================================== *)

(** The exception classes the code tells apart.  All of them derive from
    [Exception]; [OtherError] stands for any further subclass (an [httpx]
    transport error, a Neo4j driver error, a JSON decoding error). *)
Inductive exn_class : Type :=
  | WebSocketDisconnect
  | RuntimeError
  | PlainException
  | OtherError.

(** An exception object: its class and [str(e)]. *)
Record exn : Type := mk_exn { exn_cls : exn_class; exn_str : string }.

Definition is_WebSocketDisconnect (e : exn) : bool :=
  match exn_cls e with WebSocketDisconnect => true | _ => false end.

(** [Exception(msg)] *)
Definition Exception (msg : string) : exn := mk_exn PlainException msg.

Inductive outcome (A : Type) : Type :=
  | Ret (a : A)
  | Raise (e : exn).
Arguments Ret {A} a.
Arguments Raise {A} e.

(** A coroutine over a state [St]: it returns or raises, and leaves a state. *)
Definition M (St A : Type) : Type := St -> outcome A * St.

Definition ret {St A} (a : A) : M St A := fun s => (Ret a, s).
Definition raise {St A} (e : exn) : M St A := fun s => (Raise e, s).

Definition bind {St A B} (c : M St A) (k : A -> M St B) : M St B :=
  fun s =>
    match c s with
    | (Ret a, s') => k a s'
    | (Raise e, s') => (Raise e, s')
    end.

(** [try: c  except Exception as e: h e] *)
Definition try_except {St A} (c : M St A) (h : exn -> M St A) : M St A :=
  fun s =>
    match c s with
    | (Ret a, s') => (Ret a, s')
    | (Raise e, s') => h e s'
    end.

(** A call whose result does not depend on the state. *)
Definition lift_outcome {St A} (o : outcome A) : M St A := fun s => (o, s).

Declare Scope coro_scope.
Delimit Scope coro_scope with coro.
Notation "x <- c ;; k" := (bind c (fun x => k))
  (at level 100, c at next level, right associativity) : coro_scope.
Notation "c ;;; k" := (bind c (fun _ => k))
  (at level 100, right associativity) : coro_scope.
Open Scope coro_scope.

(* ===================================================================== *)
(** ** app/models/query.py *)
(* ===================================================================== *)

(** [class SearchResult(BaseModel)] *)
Record SearchResult : Type := mk_SearchResult {
  title : string;
  url : string;
  content : string;
  source : string
}.

(* ===================================================================== *)
(** ** The search providers, as seen through [httpx] *)
(* ===================================================================== *)

(** One entry of Tavily's ["results"]; [None] is a key the entry lacks. *)
Record TavilyItem : Type := mk_TavilyItem {
  ti_title : option string;
  ti_url : option string;
  ti_content : option string
}.

(** Tavily's response document.  [tv_answer = None] covers both a missing
    ["answer"] key and a null one: the code treats them alike. *)
Record TavilyJson : Type := mk_TavilyJson {
  tv_answer : option string;
  tv_results : option (list TavilyItem)
}.

(** One entry of Serper's ["organic"]. *)
Record SerperOrganic : Type := mk_SerperOrganic {
  so_title : option string;
  so_link : option string;
  so_snippet : option string
}.

(** One entry of Serper's ["relatedSearches"]. *)
Record SerperRelated : Type := mk_SerperRelated {
  sr_query : option string
}.

Record SerperJson : Type := mk_SerperJson {
  sp_organic : option (list SerperOrganic);
  sp_relatedSearches : option (list SerperRelated)
}.

(** An [httpx.Response]: [response.json()] is a call and may raise. *)
Record Response (J : Type) : Type := mk_Response {
  status_code : Z;
  text : string;
  json : outcome J
}.
Arguments mk_Response {J}.
Arguments status_code {J}.
Arguments text {J}.
Arguments json {J}.

(** [await client.post(...)] within the 30 s budget: a response, or an
    exception from the transport. *)
Definition http_outcome (J : Type) : Type := outcome (Response J).

(** What lies outside the process and is fixed during a run: the import-time
    flag of graph_service.py, [Config], the two providers (what each answers
    to an API key and a query) and the successive values of [uuid.uuid4()]. *)
Record Env : Type := mk_Env {
  NEO4J_AVAILABLE : bool;
  TAVILY_API_KEY : string;
  SERPER_API_KEY : string;
  post_tavily : string -> string -> http_outcome TavilyJson;
  post_serper : string -> string -> http_outcome SerperJson;
  uuid4 : nat -> string
}.

(** [d.get(key, "")] on an optional field. *)
Definition get_str (o : option string) (default : string) : string :=
  match o with Some s => s | None => default end.

(** [d.get(key, [])] *)
Definition get_list {A} (o : option (list A)) : list A :=
  match o with Some l => l | None => [] end.

(** The types of the values that [json.loads] returns and that are not
    [str]: [null], a boolean, a number, an array, an object. *)
Inductive py_type : Type :=
  | NoneType
  | PyBool
  | PyInt
  | PyFloat
  | PyList
  | PyDict.

(** [type(v).__name__] *)
Definition type_name (ty : py_type) : string :=
  match ty with
  | NoneType => "NoneType"
  | PyBool => "bool"
  | PyInt => "int"
  | PyFloat => "float"
  | PyList => "list"
  | PyDict => "dict"
  end.

(** A value read from JSON, as far as the code that takes a [search_type]
    tells values apart: a [str], or an object of another type. *)
Inductive pyval : Type :=
  | PyStr (s : string)
  | PyOther (ty : py_type).

(** [d.get(key, default)] on a field of any type. *)
Definition get_val (o : option pyval) (default : pyval) : pyval :=
  match o with Some v => v | None => default end.

(** The [AttributeError] of [v.attr] on an object [v] that has no such
    attribute. *)
Definition AttributeError (ty : py_type) (attr : string) : exn :=
  mk_exn OtherError
         ("'" ++ type_name ty ++ "' object has no attribute '" ++ attr ++ "'").

Section SearchProviders.
Variable E : Env.

(** [SearchService.search_tavily] *)
Definition search_tavily (query : string) : outcome (list SearchResult) :=
  match post_tavily E (TAVILY_API_KEY E) query with
  | Raise e => Raise e
  | Ret response =>
      if negb (status_code response =? 200)%Z then
        Raise (Exception ("Tavily API error: " ++ Py.str_of_int (status_code response)
                          ++ " - " ++ text response))
      else
        match json response with
        | Raise e => Raise e
        | Ret result =>
            let results := [] in
            (* Add the main answer if available *)
            let results :=
              match tv_answer result with
              | Some answer =>
                  if Py.truthy answer
                  then (results ++ [mk_SearchResult "Summary Answer" "" answer "tavily"])%list
                  else results
              | None => results
              end in
            (* Add search results *)
            Ret (results ++
                 map (fun item =>
                        mk_SearchResult (get_str (ti_title item) "")
                                        (get_str (ti_url item) "")
                                        (get_str (ti_content item) "")
                                        "tavily")
                     (get_list (tv_results result)))%list
        end
  end.

(** [SearchService.search_serper] *)
Definition search_serper (query : string) : outcome (list SearchResult) :=
  match post_serper E (SERPER_API_KEY E) query with
  | Raise e => Raise e
  | Ret response =>
      if negb (status_code response =? 200)%Z then
        Raise (Exception ("Serper API error: " ++ Py.str_of_int (status_code response)
                          ++ " - " ++ text response))
      else
        match json response with
        | Raise e => Raise e
        | Ret result =>
            (* Add organic search results *)
            let results :=
              map (fun item =>
                     mk_SearchResult (get_str (so_title item) "")
                                     (get_str (so_link item) "")
                                     (get_str (so_snippet item) "")
                                     "serper")
                  (get_list (sp_organic result)) in
            (* Add related searches if available *)
            Ret (results ++
                 map (fun item =>
                        mk_SearchResult ("Related: " ++ get_str (sr_query item) "")
                                        ""
                                        (get_str (sr_query item) "")
                                        "serper")
                     (get_list (sp_relatedSearches result)))%list
        end
  end.

(** [SearchService.search] *)
Definition search (query : string) (search_type : string)
  : outcome (list SearchResult) :=
  if Py.lower search_type =? "serper"
  then search_serper query
  else search_tavily query.

(** [SearchService.search] called with a [search_type] of any type, as the
    routes can: on an object that is not a [str], [search_type.lower()]
    raises. *)
Definition search_any (query : string) (search_type : pyval)
  : outcome (list SearchResult) :=
  match search_type with
  | PyStr t => search query t
  | PyOther ty => Raise (AttributeError ty "lower")
  end.

End SearchProviders.

(* ===================================================================== *)
(** ** app/services/graph_service.py *)
(* ===================================================================== *)

(** A [:Query] node of the graph store. *)
Record QueryNode : Type := mk_QueryNode {
  q_id : nat;
  q_text : string;
  q_timestamp : nat;
  q_session_id : option string
}.

(** A [:Source] node of the graph store. *)
Record SourceNode : Type := mk_SourceNode {
  s_id : nat;
  s_url : string;
  s_title : string;
  s_snippet : string;
  s_source : string;
  s_fetch_time : nat
}.

(** The Neo4j database: its nodes, its [:REFERENCES] relationships (start
    node, end node), the identifier of the next node, the value [datetime()]
    has at the next statement, and what happens to the statements still to
    come: [Some e] is a statement the server fails with [e], [None] and an
    exhausted list are statements it executes. *)
Record Neo4j : Type := mk_Neo4j {
  db_queries : list QueryNode;
  db_sources : list SourceNode;
  db_refs : list (nat * nat);
  db_next_id : nat;
  db_clock : nat;
  db_faults : list (option exn)
}.

(** The statements the service sends. *)
Inductive cypher : Type :=
  (* RETURN 1 *)
  | ReturnOne
  (* MERGE (q:Query {text: $query_text})
     SET q.timestamp = datetime(), q.session_id = $session_id  RETURN q *)
  | MergeQuerySession (query_text session_id : string)
  (* MERGE (q:Query {text: $query_text})
     SET q.timestamp = datetime()  RETURN q *)
  | MergeQuery (query_text : string)
  (* MERGE (s:Source {url: $url})
     SET s.title = $title, s.snippet = $snippet, s.source = $source,
         s.fetch_time = datetime()  RETURN s *)
  | MergeSource (url title snippet source : string)
  (* MATCH (q:Query {text: $query_text})  MATCH (s:Source {url: $url})
     MERGE (q)-[:REFERENCES]->(s) *)
  | MergeReferences (query_text url : string)
  (* MATCH (q:Query)  RETURN q.text AS query, q.timestamp AS timestamp
     ORDER BY q.timestamp DESC  LIMIT $limit *)
  | RecentQueries (limit : nat).

Module Cypher.

(** [MERGE (q:Query {text: t}) SET ...]: every node matching the pattern is
    bound and updated; one is created when none matches. *)
Definition merge_query (t : string) (sid : option string) (d : Neo4j) : Neo4j :=
  let set_props q :=
    mk_QueryNode (q_id q) (q_text q) (db_clock d)
                 (match sid with Some s => Some s | None => q_session_id q end) in
  if existsb (fun q => q_text q =? t) (db_queries d) then
    mk_Neo4j (map (fun q => if q_text q =? t then set_props q else q) (db_queries d))
             (db_sources d) (db_refs d) (db_next_id d) (db_clock d) (db_faults d)
  else
    mk_Neo4j (db_queries d ++ [mk_QueryNode (db_next_id d) t (db_clock d) sid])
             (db_sources d) (db_refs d) (S (db_next_id d)) (db_clock d) (db_faults d).

(** [MERGE (s:Source {url: u}) SET ...] *)
Definition merge_source (u ti sn so : string) (d : Neo4j) : Neo4j :=
  if existsb (fun s => s_url s =? u) (db_sources d) then
    mk_Neo4j (db_queries d)
             (map (fun s => if s_url s =? u
                            then mk_SourceNode (s_id s) (s_url s) ti sn so (db_clock d)
                            else s)
                  (db_sources d))
             (db_refs d) (db_next_id d) (db_clock d) (db_faults d)
  else
    mk_Neo4j (db_queries d)
             (db_sources d ++ [mk_SourceNode (db_next_id d) u ti sn so (db_clock d)])
             (db_refs d) (S (db_next_id d)) (db_clock d) (db_faults d).

Definition has_ref (r : nat * nat) (refs : list (nat * nat)) : bool :=
  existsb (fun x => (fst x =? fst r)%nat && (snd x =? snd r)%nat) refs.

(** [MERGE (q)-[:REFERENCES]->(s)] for one bound pair. *)
Definition merge_ref (refs : list (nat * nat)) (r : nat * nat) : list (nat * nat) :=
  if has_ref r refs then refs else refs ++ [r].

(** [MATCH (q:Query {text: t}) MATCH (s:Source {url: u}) MERGE (q)-[..]->(s)]:
    the merge runs for every pair of matches. *)
Definition merge_references (t u : string) (d : Neo4j) : Neo4j :=
  let qs := map q_id (filter (fun q => q_text q =? t) (db_queries d)) in
  let ss := map s_id (filter (fun s => s_url s =? u) (db_sources d)) in
  mk_Neo4j (db_queries d) (db_sources d)
           (fold_left merge_ref (list_prod qs ss) (db_refs d))
           (db_next_id d) (db_clock d) (db_faults d).

(** [ORDER BY q.timestamp DESC]: insertion keeps equal timestamps in the
    order of the store. *)
Fixpoint insert_desc (q : QueryNode) (l : list QueryNode) : list QueryNode :=
  match l with
  | [] => [q]
  | x :: rest =>
      if (q_timestamp x <? q_timestamp q)%nat then q :: l
      else x :: insert_desc q rest
  end.

Definition order_desc (l : list QueryNode) : list QueryNode :=
  fold_right insert_desc [] l.

(** The effect of a statement on the store. *)
Definition exec (stmt : cypher) (d : Neo4j) : Neo4j :=
  match stmt with
  | ReturnOne => d
  | MergeQuerySession t sid => merge_query t (Some sid) d
  | MergeQuery t => merge_query t None d
  | MergeSource u ti sn so => merge_source u ti sn so d
  | MergeReferences t u => merge_references t u d
  | RecentQueries _ => d
  end.

(** The records a statement returns; only those of [RecentQueries] are read. *)
Definition rows (stmt : cypher) (d : Neo4j) : list (string * nat) :=
  match stmt with
  | RecentQueries limit =>
      map (fun q => (q_text q, q_timestamp q)) (firstn limit (order_desc (db_queries d)))
  | _ => []
  end.

(** Time passes and the script of faults moves on. *)
Definition advance (d : Neo4j) : Neo4j :=
  mk_Neo4j (db_queries d) (db_sources d) (db_refs d) (db_next_id d)
           (S (db_clock d)) (tl (db_faults d)).

End Cypher.

(** The [GraphService] object ([driver] is [true] once a driver object is
    stored in [self.driver]) together with the database it talks to. *)
Record GraphState : Type := mk_GraphState {
  driver : bool;
  db : Neo4j
}.

(** [await session.run(stmt, ...)]: the statement runs in a transaction of
    its own, or the server fails it and the store stays as it is. *)
Definition session_run (stmt : cypher) : M GraphState (list (string * nat)) :=
  fun g =>
    match db_faults (db g) with
    | Some e :: _ => (Raise e, mk_GraphState (driver g) (Cypher.advance (db g)))
    | _ => (Ret (Cypher.rows stmt (db g)),
            mk_GraphState (driver g) (Cypher.advance (Cypher.exec stmt (db g))))
    end.

Section GraphService.
Variable E : Env.

(** [GraphService.connect] *)
Definition connect : M GraphState unit :=
  if negb (NEO4J_AVAILABLE E) then ret tt
  else
    try_except
      ((fun g => (Ret tt, mk_GraphState true (db g))) ;;;
       (* Test the connection *)
       _ <- session_run ReturnOne ;;
       ret tt)
      (fun e => raise e).

(** The loop of [save_query_and_sources] over [search_results]. *)
Fixpoint save_sources (query_text : string) (search_results : list SearchResult)
  : M GraphState unit :=
  match search_results with
  | [] => ret tt
  | result :: rest =>
      (* Skip if URL is empty *)
      if negb (Py.truthy (Py.strip (url result))) then save_sources query_text rest
      else
        _ <- session_run (MergeSource (url result) (title result)
                                      (content result) (source result)) ;;
        _ <- session_run (MergeReferences query_text (url result)) ;;
        save_sources query_text rest
  end.

(** [GraphService.save_query_and_sources]; [session_id = None] is the default
    argument. *)
Definition save_query_and_sources (query_text : string)
    (search_results : list SearchResult) (session_id : option string)
  : M GraphState unit :=
  if negb (NEO4J_AVAILABLE E) then ret tt
  else fun g =>
    if negb (driver g) then
      raise (Exception "Neo4j driver not initialized. Call connect() first.") g
    else
      try_except
        (_ <- (match session_id with
               | Some sid =>
                   if Py.truthy sid then session_run (MergeQuerySession query_text sid)
                   else session_run (MergeQuery query_text)
               | None => session_run (MergeQuery query_text)
               end) ;;
         save_sources query_text search_results)
        (fun e => raise e) g.

(** [GraphService.get_query_history] *)
Definition get_query_history (limit : nat) : M GraphState (list (string * nat)) :=
  if negb (NEO4J_AVAILABLE E) then ret []
  else fun g =>
    if negb (driver g) then
      raise (Exception "Neo4j driver not initialized. Call connect() first.") g
    else
      try_except (session_run (RecentQueries limit)) (fun e => raise e) g.

End GraphService.

(* ===================================================================== *)
(** ** WebSocket objects and the state of the process *)
(* ===================================================================== *)

(** A JSON value of an outbound message. *)
Inductive jval : Type :=
  | JStr (s : string)
  | JInt (n : Z).

(** An outbound message: a [dict] in the order its keys are written.  The
    text frame is [json.dumps] of it; the model keeps the dict. *)
Definition message : Type := list (string * jval).

(** The initial payload of a session, [{query, search_type?}]; [None] is an
    absent key.  The query is a string when present; the [search_type] is
    any JSON value, [null] included. *)
Record Payload : Type := mk_Payload {
  p_query : option string;
  p_search_type : option pyval
}.

(** A [WebSocket] object and its peer: whether the handshake was accepted,
    what [receive_json] will return call after call, what will happen to the
    writes still to come ([Some e]: [send_text] raises [e]; [None] and an
    exhausted list: the frame is delivered), and the frames delivered. *)
Record Socket : Type := mk_Socket {
  sk_accepted : bool;
  sk_inbox : list (outcome Payload);
  sk_faults : list (option exn);
  sk_wire : list message
}.

(** What the process did besides writing to sockets and to the store. *)
Inductive call : Type :=
  (* graph_service.save_query_and_sources(query_text, results, session_id) *)
  | SaveCall (query_text : string) (results : list SearchResult)
             (session_id : option string)
  (* asyncio.sleep(0.1 + i * 0.05) *)
  | Sleep (i : nat).

(** Replace the element at index [i]; a list too short stays as it is. *)
Fixpoint list_set {A} (l : list A) (i : nat) (x : A) : list A :=
  match l, i with
  | [], _ => []
  | _ :: rest, O => x :: rest
  | y :: rest, S i' => y :: list_set rest i' x
  end.

(** The state of the process.  Sockets are objects on a heap and are named
    by their address (an index of [sockets]), so that the registry and a
    handler share one object. *)
Record World : Type := mk_World {
  active_connections : list (string * nat);   (* ConnectionManager's dict *)
  sockets : list Socket;
  graph_service : GraphState;
  uuid_calls : nat;
  calls : list call
}.

(** What an address off the heap reads as. *)
Definition no_socket : Socket := mk_Socket false [] [] [].

(** The object at address [ws]. *)
Definition socket_at (w : World) (ws : nat) : Socket := nth ws (sockets w) no_socket.

Definition set_active_connections (w : World) (c : list (string * nat)) : World :=
  mk_World c (sockets w) (graph_service w) (uuid_calls w) (calls w).

Definition set_socket (w : World) (ws : nat) (s : Socket) : World :=
  mk_World (active_connections w) (list_set (sockets w) ws s)
           (graph_service w) (uuid_calls w) (calls w).

Definition set_graph_service (w : World) (g : GraphState) : World :=
  mk_World (active_connections w) (sockets w) g (uuid_calls w) (calls w).

Definition record_call (c : call) : M World unit :=
  fun w => (Ret tt, mk_World (active_connections w) (sockets w) (graph_service w)
                             (uuid_calls w) (calls w ++ [c])).

(** A method of the [graph_service] singleton, run within the process. *)
Definition on_graph_service {A} (c : M GraphState A) : M World A :=
  fun w => let (r, g) := c (graph_service w) in (r, set_graph_service w g).

(** [str(uuid.uuid4())] *)
Definition new_uuid (E : Env) : M World string :=
  fun w => (Ret (uuid4 E (uuid_calls w)),
            mk_World (active_connections w) (sockets w) (graph_service w)
                     (S (uuid_calls w)) (calls w)).

(** [await asyncio.sleep(0.1 + i * 0.05)] *)
Definition sleep (i : nat) : M World unit := record_call (Sleep i).

(** [await websocket.accept()] *)
Definition accept (ws : nat) : M World unit :=
  fun w =>
    let s := socket_at w ws in
    (Ret tt, set_socket w ws (mk_Socket true (sk_inbox s) (sk_faults s) (sk_wire s))).

(** [await websocket.receive_json()]; a peer with nothing more to say has
    closed the connection. *)
Definition receive_json (ws : nat) : M World Payload :=
  fun w =>
    let s := socket_at w ws in
    match sk_inbox s with
    | [] => (Raise (mk_exn WebSocketDisconnect "1000"), w)
    | r :: rest =>
        (r, set_socket w ws (mk_Socket (sk_accepted s) rest (sk_faults s) (sk_wire s)))
    end.

(** [await websocket.send_text(json.dumps(m))] *)
Definition send_text (ws : nat) (m : message) : M World unit :=
  fun w =>
    let s := socket_at w ws in
    match sk_faults s with
    | Some e :: rest =>
        (Raise e, set_socket w ws (mk_Socket (sk_accepted s) (sk_inbox s) rest (sk_wire s)))
    | _ =>
        (Ret tt, set_socket w ws (mk_Socket (sk_accepted s) (sk_inbox s)
                                            (tl (sk_faults s)) (sk_wire s ++ [m])))
    end.

(* ===================================================================== *)
(** ** app/websocket/stream_manager.py *)
(* ===================================================================== *)

(** A Python [dict] with [str] keys, in insertion order. *)
Module Dict.
Section Dict.
Context {V : Type}.

(** [d.get(k)] *)
Fixpoint get (d : list (string * V)) (k : string) : option V :=
  match d with
  | [] => None
  | (k', v) :: rest => if k' =? k then Some v else get rest k
  end.

(** [d[k] = v]: a present key keeps its place. *)
Fixpoint set (d : list (string * V)) (k : string) (v : V) : list (string * V) :=
  match d with
  | [] => [(k, v)]
  | (k', v') :: rest => if k' =? k then (k', v) :: rest else (k', v') :: set rest k v
  end.

(** [del d[k]] for a present key: the entry under [k] goes. *)
Definition del (d : list (string * V)) (k : string) : list (string * V) :=
  filter (fun kv => negb (fst kv =? k)) d.

(** [k in d] *)
Definition mem (d : list (string * V)) (k : string) : bool :=
  match get d k with Some _ => true | None => false end.

End Dict.
End Dict.

Module ConnectionManager.

(** [ConnectionManager.connect] *)
Definition connect (websocket : nat) (client_id : string) : M World unit :=
  accept websocket ;;;
  fun w => (Ret tt, set_active_connections w
                      (Dict.set (active_connections w) client_id websocket)).

(** [ConnectionManager.disconnect] *)
Definition disconnect (client_id : string) : M World unit :=
  fun w =>
    if Dict.mem (active_connections w) client_id
    then (Ret tt, set_active_connections w (Dict.del (active_connections w) client_id))
    else (Ret tt, w).

(** [ConnectionManager.send_personal_message]; a [message] holds no
    [datetime], so [convert_datetime] returns it as it is. *)
Definition send_personal_message (m : message) (client_id : string) : M World unit :=
  fun w =>
    match Dict.get (active_connections w) client_id with
    | Some websocket => send_text websocket m w
    | None => (Ret tt, w)
    end.

(** [ConnectionManager.send_message] *)
Definition send_message (websocket : nat) (m : message) : M World unit :=
  send_text websocket m.

(** The [for] loop of [broadcast].  [used] is the size the dict had when
    [items()] started and [pending] the entries not yet visited.  Each turn
    first asks the iterator for its next entry, and the iterator raises
    [RuntimeError] when the dict no longer has [used] entries, also when no
    entry is left to visit. *)
Fixpoint broadcast_loop (used : nat) (pending : list (string * nat)) (m : message)
  : M World unit :=
  fun w =>
    if negb (length (active_connections w) =? used)%nat then
      (Raise (mk_exn RuntimeError "dictionary changed size during iteration"), w)
    else
      match pending with
      | [] => (Ret tt, w)
      | (client_id, websocket) :: rest =>
          (try_except (send_text websocket m)
             (fun e =>
                if is_WebSocketDisconnect e
                then (* Remove disconnected clients *) disconnect client_id
                else raise e) ;;;
           broadcast_loop used rest m) w
      end.

(** [ConnectionManager.broadcast] *)
Definition broadcast (m : message) : M World unit :=
  fun w =>
    broadcast_loop (length (active_connections w)) (active_connections w) m w.

End ConnectionManager.

Module StreamManager.

(** [StreamManager.send_message] *)
Definition send_message (websocket : nat) (m : message) : M World unit :=
  ConnectionManager.send_message websocket m.

End StreamManager.

(* ===================================================================== *)
(** ** app/services/search_service.py: the streaming variant *)
(* ===================================================================== *)

Section SearchStreaming.
Variable E : Env.
Context {C : Type}.

(** A callback is a closure: [C] is the state it captured and updates (when
    it raises, that state is not read again). *)
Definition callback_t : Type := SearchResult -> C -> M World C.

(** [for i, result in enumerate(results)], from index [i] on. *)
Fixpoint stream_results (callback : option callback_t) (i : nat)
    (results : list SearchResult) (s : C) : M World C :=
  match results with
  | [] => ret s
  | result :: rest =>
      s' <- (match callback with
             | Some cb => cb result s
             | None => ret s
             end) ;;
      (* Random delay to simulate real fetching time *)
      sleep i ;;;
      stream_results callback (S i) rest s'
  end.

(** [SearchService.search_streaming]; it returns the state its callback is
    left with. *)
Definition search_streaming (query search_type : string)
    (callback : option callback_t) (s : C) : M World C :=
  try_except
    (results <- lift_outcome (if Py.lower search_type =? "serper"
                              then search_serper E query
                              else search_tavily E query) ;;
     stream_results callback 0 results s)
    (fun e => raise e).

(** [SearchService.search_streaming] called with a [search_type] of any
    type: [search_type.lower()] is the first thing the [try] evaluates. *)
Definition search_streaming_any (query : string) (search_type : pyval)
    (callback : option callback_t) (s : C) : M World C :=
  match search_type with
  | PyStr t => search_streaming query t callback s
  | PyOther ty =>
      try_except (raise (AttributeError ty "lower")) (fun e => raise e)
  end.

End SearchStreaming.

(* ===================================================================== *)
(** ** app/routes/query_routes.py *)
(* ===================================================================== *)

Definition error_event (msg : string) : message :=
  [("event", JStr "error"); ("message", JStr msg)].

Definition status_event (msg : string) : message :=
  [("event", JStr "status"); ("message", JStr msg)].

Definition source_event (result : SearchResult) (source_id : string) : message :=
  [("event", JStr "source"); ("title", JStr (title result));
   ("url", JStr (url result)); ("snippet", JStr (content result));
   ("source_id", JStr source_id)].

Definition done_event (total_results : nat) : message :=
  [("event", JStr "done"); ("total_results", JInt (Z.of_nat total_results))].

(** The value under ["event"]. *)
Definition event_of (m : message) : option string :=
  match Dict.get m "event" with
  | Some (JStr s) => Some s
  | _ => None
  end.

Section Routes.
Variable E : Env.

(** [startup_event] *)
Definition startup_event : M World unit :=
  on_graph_service (connect E).

(** [result_callback], the closure of [websocket_stream_endpoint] over
    [websocket] and the list [results]. *)
Definition result_callback (websocket : nat) (result : SearchResult)
    (results : list SearchResult) : M World (list SearchResult) :=
  u <- new_uuid E ;;
  let source_data := source_event result (substring 0 8 u) in
  StreamManager.send_message websocket source_data ;;;
  ret (results ++ [result])%list.

(** The body of the outer [try] of [websocket_stream_endpoint]. *)
Definition session_body (websocket : nat) (session_id : string) : M World unit :=
  (* Receive the initial query from the client *)
  data <- receive_json websocket ;;
  let query_text := get_str (p_query data) "" in
  let search_type := get_val (p_search_type data) (PyStr "tavily") in
  if negb (Py.truthy query_text) then
    StreamManager.send_message websocket (error_event "Query text is required")
  else
    (* Send initial status *)
    StreamManager.send_message websocket (status_event "Searching sources...") ;;;
    fun w =>
      (* Perform streaming search *)
      match search_streaming_any E query_text search_type
              (Some (result_callback websocket)) [] w with
      | (Raise e, w1) =>
          StreamManager.send_message websocket
            (error_event ("Search failed: " ++ exn_str e)) w1
      | (Ret results, w1) =>
          ((* Save results to Neo4j *)
           try_except
             (record_call (SaveCall query_text results (Some session_id)) ;;;
              on_graph_service
                (save_query_and_sources E query_text results (Some session_id)))
             (fun _ => (* Still send completion even if Neo4j fails *) ret tt) ;;;
           (* Send completion message *)
           StreamManager.send_message websocket (done_event (length results))) w1
      end.

(** [websocket_stream_endpoint] *)
Definition websocket_stream_endpoint (websocket : nat) (session_id : string)
  : M World unit :=
  ConnectionManager.connect websocket session_id ;;;
  try_except (session_body websocket session_id)
    (fun e =>
       if is_WebSocketDisconnect e then
         ConnectionManager.disconnect session_id
       else
         try_except
           (StreamManager.send_message websocket
              (error_event ("WebSocket error: " ++ exn_str e)))
           (fun _ => ret tt) ;;;
         ConnectionManager.disconnect session_id).

End Routes.

(* ===================================================================== *)
(** ** app/routes/query_routes.py: the HTTP routes *)
(* ===================================================================== *)

(** [class QueryRequest(BaseModel)].  [search_type] is [Optional[str]] with
    default "tavily": a request that omits it holds [Some "tavily"], and
    [None] is an explicit null. *)
Record QueryRequest : Type := mk_QueryRequest {
  rq_query : string;
  rq_search_type : option string
}.

(** [class QueryResponse(BaseModel)] *)
Record QueryResponse : Type := mk_QueryResponse {
  rs_query : string;
  rs_results : list SearchResult;
  rs_timestamp : nat
}.

(** What a route hands to FastAPI: a value, or [HTTPException(status_code,
    detail)]. *)
Inductive http_result (A : Type) : Type :=
  | Respond (a : A)
  | HTTPException (status_code : Z) (detail : string).
Arguments Respond {A} a.
Arguments HTTPException {A} status_code detail.

Module QueryRoutes.
Section QueryRoutes.
Variable E : Env.

(** [search_service.search(request.query, request.search_type)]: on a null
    [search_type] the call [search_type.lower()] raises [AttributeError]. *)
Definition search_request (request : QueryRequest) : outcome (list SearchResult) :=
  match rq_search_type request with
  | Some search_type => search E (rq_query request) search_type
  | None => Raise (mk_exn OtherError "'NoneType' object has no attribute 'lower'")
  end.

(** [query_endpoint]; [now] is what [datetime.now()] returns. *)
Definition query_endpoint (now : nat) (request : QueryRequest)
  : World -> http_result QueryResponse * World :=
  fun w =>
    match
      ((* Perform the search *)
       results <- lift_outcome (search_request request) ;;
       (* Save query and results to Neo4j *)
       record_call (SaveCall (rq_query request) results None) ;;;
       on_graph_service (save_query_and_sources E (rq_query request) results None) ;;;
       (* Create and return response *)
       ret (mk_QueryResponse (rq_query request) results now)) w
    with
    | (Ret response, w') => (Respond response, w')
    | (Raise e, w') =>
        (HTTPException 500 ("Error processing query: " ++ exn_str e), w')
    end.

(** [get_query_history], the route: the value stands for the dict
    [{"history": history}]. *)
Definition get_query_history (limit : nat)
  : World -> http_result (list (string * nat)) * World :=
  fun w =>
    match on_graph_service (get_query_history E limit) w with
    | (Ret history, w') => (Respond history, w')
    | (Raise e, w') =>
        (HTTPException 500 ("Error retrieving query history: " ++ exn_str e), w')
    end.

End QueryRoutes.
End QueryRoutes.

(* ===================================================================== *)
(** ** Notions the properties are stated with *)
(* ===================================================================== *)

(** The capital of an ASCII letter. *)
Definition upper_ascii (c : ascii) : ascii :=
  let n := nat_of_ascii c in
  if ((97 <=? n) && (n <=? 122))%nat then ascii_of_nat (n - 32) else c.

(** [t] spells [target] up to the case of each letter. *)
Fixpoint case_variant (t target : string) : bool :=
  match t, target with
  | EmptyString, EmptyString => true
  | String a t', String b target' =>
      ((a =? b)%char || (a =? upper_ascii b)%char) && case_variant t' target'
  | _, _ => false
  end.

(** Every code point of [s] is whitespace (so is the empty string). *)
Fixpoint all_space (s : string) : bool :=
  match s with
  | EmptyString => true
  | String c rest => Py.isspace c && all_space rest
  end.

(** Every write to come on the socket is delivered. *)
Definition healthy (s : Socket) : Prop :=
  Forall (fun f => f = None) (sk_faults s).

(** A callback together with the list of the results it was invoked on. *)
Definition recording {C} (cb : @callback_t C) : @callback_t (C * list SearchResult) :=
  fun result st =>
    s' <- cb result (fst st) ;;
    ret (s', (snd st ++ [result])%list).

(** A callback that returns on every result, in every state. *)
Definition never_raises {C} (cb : @callback_t C) : Prop :=
  forall result s w, exists s' w', cb result s w = (Ret s', w').

(** The callback that only accumulates. *)
Definition accumulate : @callback_t (list SearchResult) :=
  fun result acc => ret (acc ++ [result])%list.

(** The [source] frames of a stream of [results], the first identifier being
    the [n]-th value of [uuid4]. *)
Fixpoint source_frames (E : Env) (n : nat) (results : list SearchResult)
  : list message :=
  match results with
  | [] => []
  | r :: rest => source_event r (substring 0 8 (uuid4 E n)) :: source_frames E (S n) rest
  end.

(** The frames of [l] whose event is [ev]. *)
Definition frames_of (ev : string) (l : list message) : list message :=
  filter (fun m => match event_of m with Some e => e =? ev | None => false end) l.


(** The world [ConnectionManager.connect] leaves. *)
Definition after_connect (w : World) (ws : nat) (sid : string) : World :=
  let s := socket_at w ws in
  set_active_connections
    (set_socket w ws (mk_Socket true (sk_inbox s) (sk_faults s) (sk_wire s)))
    (Dict.set (active_connections w) sid ws).

(** From [w] to [w'] the registry is untouched, the heap keeps its size and
    socket [ws] was delivered no done frame. *)
Definition no_done_step (ws : nat) (w w' : World) : Prop :=
  active_connections w' = active_connections w /\
  length (sockets w') = length (sockets w) /\
  exists new,
    sk_wire (socket_at w' ws) = (sk_wire (socket_at w ws) ++ new)%list /\
    frames_of "done" new = [].

(** The query texts and the source URLs on record, in store order. *)
Definition texts (d : Neo4j) : list string := map q_text (db_queries d).
Definition urls (d : Neo4j) : list string := map s_url (db_sources d).

(** The query records with text [t], the source records with URL [u]. *)
Definition query_records (d : Neo4j) (t : string) : list QueryNode :=
  filter (fun q => q_text q =? t) (db_queries d).
Definition source_records (d : Neo4j) (u : string) : list SourceNode :=
  filter (fun s => s_url s =? u) (db_sources d).

(** The keys after a [MERGE] on key [k]. *)
Definition add_key (k : string) (l : list string) : list string :=
  if existsb (fun x => x =? k) l then l else (l ++ [k])%list.

(** From [d] to [d'] no key is lost and no source record with a blank URL
    appears. *)
Definition grows (d d' : Neo4j) : Prop :=
  incl (texts d) (texts d') /\ incl (urls d) (urls d') /\
  (forall s, In s (db_sources d') -> all_space (s_url s) = true -> In s (db_sources d)).

(** Statements that do not merge a source under a blank URL. *)
Definition stmt_ok (stmt : cypher) : Prop :=
  match stmt with
  | MergeSource u _ _ _ => all_space u = false
  | _ => True
  end.

(** The key a statement has put on record once it has run. *)
Definition recorded (stmt : cypher) (d : Neo4j) : Prop :=
  match stmt with
  | MergeQuerySession t _ | MergeQuery t => In t (texts d)
  | MergeSource u _ _ _ => In u (urls d)
  | _ => True
  end.

(** A store in which records are unique by key and no source has a blank
    URL; the empty store is one. *)
Definition store_ok (d : Neo4j) : Prop :=
  NoDup (texts d) /\ NoDup (urls d) /\
  Forall (fun s => all_space (s_url s) = false) (db_sources d).

(** The calls a client makes on the graph service. *)
Inductive service_call : Type :=
  | CallConnect
  | CallSave (query_text : string) (results : list SearchResult)
             (session_id : option string)
  | CallHistory (limit : nat).

(** The state a call leaves, whether it returns or raises. *)
Definition run_call (E : Env) (c : service_call) (g : GraphState) : GraphState :=
  match c with
  | CallConnect => snd (connect E g)
  | CallSave q results sid => snd (save_query_and_sources E q results sid g)
  | CallHistory limit => snd (get_query_history E limit g)
  end.

Definition run_calls (E : Env) (cs : list service_call) (g : GraphState) : GraphState :=
  fold_left (fun g c => run_call E c g) cs g.

(* ===================================================================== *)
(** ** Sample environments and worlds *)
(* ===================================================================== *)

Module Sample.

Definition tavily_response : Response TavilyJson :=
  mk_Response 200%Z "ok"
    (Ret (mk_TavilyJson (Some "forty-two")
            (Some [mk_TavilyItem (Some "T1") (Some "http://a") (Some "c1");
                   mk_TavilyItem (Some "T2") (Some "   ") (Some "c2");
                   mk_TavilyItem (Some "T3") (Some "http://a") (Some "c3")]))).

Definition serper_response : Response SerperJson :=
  mk_Response 503%Z "down" (Raise (mk_exn OtherError "Expecting value")).

(** The Neo4j package is installed; Tavily answers, Serper is down. *)
Definition env : Env :=
  mk_Env true "tk" "sk"
         (fun _ _ => Ret tavily_response) (fun _ _ => Ret serper_response)
         (fun n => "0123456789abcdef0123456789abcdef0123").

(** The same without the Neo4j package. *)
Definition mock_env : Env :=
  mk_Env false "tk" "sk"
         (fun _ _ => Ret tavily_response) (fun _ _ => Ret serper_response)
         (fun n => "0123456789abcdef0123456789abcdef0123").

(** What [search env q "tavily"] returns. *)
Definition results : list SearchResult :=
  [mk_SearchResult "Summary Answer" "" "forty-two" "tavily";
   mk_SearchResult "T1" "http://a" "c1" "tavily";
   mk_SearchResult "T2" "   " "c2" "tavily";
   mk_SearchResult "T3" "http://a" "c3" "tavily"].

Definition empty_db : Neo4j := mk_Neo4j [] [] [] 0 0 [].

Definition service_unavailable : exn :=
  mk_exn OtherError "Couldn't connect to localhost:7687".

(** A store that cannot be reached: every statement fails. *)
Definition unreachable_db : Neo4j :=
  mk_Neo4j [] [] [] 0 0
           [Some service_unavailable; Some service_unavailable;
            Some service_unavailable; Some service_unavailable].

(** A fresh socket whose peer sends one payload. *)
Definition socket (q t : option string) : Socket :=
  mk_Socket false [Ret (mk_Payload q (option_map PyStr t))] [] [].

(** One session about to start on socket 0; [connect] was never called on
    the graph service, so that a save raises. *)
Definition world (q t : option string) : World :=
  mk_World [] [socket q t] (mk_GraphState false empty_db) 0 [].

Definition disconnected : exn := mk_exn WebSocketDisconnect "1006".

(** Two registered channels; the peer of the first one is gone. *)
Definition two_channels : World :=
  mk_World [("a", 0); ("b", 1)]
           [mk_Socket true [] [Some disconnected] []; mk_Socket true [] [] []]
           (mk_GraphState false empty_db) 0 [].

End Sample.

(* ===================================================================== *)
(** ** Further notions: the registry, the store, the session *)
(* ===================================================================== *)

(** The [source] tag of the provider that a [search_type] selects. *)
Definition provider_tag (search_type : string) : string :=
  if case_variant search_type "serper" then "serper" else "tavily".

(** What the selected provider answered to [query]: the class of the
    outcome, its status, its body, and what reading the body as JSON gives. *)
Definition provider_answer (E : Env) (query t : string)
  : outcome (Z * string * outcome unit) :=
  if case_variant t "serper" then
    match post_serper E (SERPER_API_KEY E) query with
    | Ret r => Ret (status_code r, text r,
                    match json r with Ret _ => Ret tt | Raise e => Raise e end)
    | Raise e => Raise e
    end
  else
    match post_tavily E (TAVILY_API_KEY E) query with
    | Ret r => Ret (status_code r, text r,
                    match json r with Ret _ => Ret tt | Raise e => Raise e end)
    | Raise e => Raise e
    end.

(** The name under which a provider appears in error messages. *)
Definition provider_name (search_type : string) : string :=
  if case_variant search_type "serper" then "Serper" else "Tavily".

(** How many entries of a registry hold socket [a]. *)
Definition registrations (d : list (string * nat)) (a : nat) : nat :=
  count_occ Nat.eq_dec (map snd d) a.

(** A registry whose keys are all different, as those of a [dict] are. *)
Definition unique_keys (d : list (string * nat)) : Prop := NoDup (map fst d).

(** The first statement of [save_query_and_sources]. *)
Definition merge_query_stmt (query_text : string) (session_id : option string) : cypher :=
  match session_id with
  | Some sid => if Py.truthy sid then MergeQuerySession query_text sid
                else MergeQuery query_text
  | None => MergeQuery query_text
  end.

(** The session-id that the first statement of a save writes, if any. *)
Definition written_session_id (session_id : option string) : option string :=
  match session_id with
  | Some sid => if Py.truthy sid then Some sid else None
  | None => None
  end.

(** A query record with text [t] references a source record with URL [u]. *)
Definition linked (d : Neo4j) (t u : string) : Prop :=
  exists qn sn,
    In qn (db_queries d) /\ q_text qn = t /\
    In sn (db_sources d) /\ s_url sn = u /\
    In (q_id qn, s_id sn) (db_refs d).

(** Every timestamp on record lies in the past of the store's clock. *)
Definition clock_ok (d : Neo4j) : Prop :=
  Forall (fun qn => q_timestamp qn < db_clock d) (db_queries d).

(** History rows from the newest to the oldest. *)
Definition newest_first (rows : list (string * nat)) : Prop :=
  StronglySorted (fun a b => snd b <= snd a) rows.

(** The world after [n] results were streamed to socket [s] of a session:
    [writes] writes were consumed, [frames] delivered. *)
Definition streamed (ac : list (string * nat)) (socks : list Socket) (ws : nat)
    (s : Socket) (gs : GraphState) (u : nat) (cs : list call)
    (writes : nat) (frames : list message) (uuids : nat) (sleeps : list call)
  : World :=
  mk_World ac
    (list_set socks ws
       (mk_Socket (sk_accepted s) (sk_inbox s) (skipn writes (sk_faults s))
                  (sk_wire s ++ frames)))
    gs (u + uuids) (cs ++ sleeps).


Module Demo.

(** A store that answers, with its driver in place. *)
Definition connected : GraphState := mk_GraphState true Sample.empty_db.

(** Socket 0 is fine, the peer of socket 1 is gone, socket 2 is fine. *)
Definition three_channels : World :=
  mk_World [("a", 0); ("b", 1); ("c", 2)]
           [mk_Socket true [] [] []; mk_Socket true [] [Some Sample.disconnected] [];
            mk_Socket true [] [] []]
           connected 0 [].



(** Socket 0 is registered under two session-ids, socket 1 under one. *)
Definition shared_channel : World :=
  mk_World [("a", 0); ("b", 1); ("c", 0)]
           [mk_Socket true [] [None] []; mk_Socket true [] [] []]
           connected 0 [].

(** A store in which "a" was saved, then "b" in session s1, then "a" again. *)
Definition history_store : GraphState :=
  run_calls Sample.env
    [CallSave "a" [] None; CallSave "b" [] (Some "s1"); CallSave "a" [] None]
    connected.

(** A process with that store and no connection. *)
Definition serving : World := mk_World [] [] history_store 0 [].

(** A store whose server runs one statement and fails the next. *)
Definition flaky_store : GraphState :=
  mk_GraphState true
    (mk_Neo4j [] [] [] 0 0 [None; Some Sample.service_unavailable]).

(** One session about to start on socket 0, with a store that answers. *)
Definition session : World :=
  mk_World [] [Sample.socket (Some "rocq") None] connected 0 [].


End Demo.

(* ===================================================================== *)
(** ** Properties: provider selection and streaming search *)
(* ===================================================================== *)

Example lower_ex : Py.lower "SerPer" = "serper".
Proof. reflexivity. Qed.

Example strip_ex : Py.strip "  a b  " = "a b".
Proof. reflexivity. Qed.

Example str_of_int_ex : Py.str_of_int 500 = "500".
Proof. reflexivity. Qed.

Lemma lower_char_s c : (Py.lower_char c =? "s")%char = ((c =? "s") || (c =? "S"))%char.
Proof. destruct c as [[] [] [] [] [] [] [] []]; reflexivity. Qed.

Lemma lower_char_e c : (Py.lower_char c =? "e")%char = ((c =? "e") || (c =? "E"))%char.
Proof. destruct c as [[] [] [] [] [] [] [] []]; reflexivity. Qed.

Lemma lower_char_r c : (Py.lower_char c =? "r")%char = ((c =? "r") || (c =? "R"))%char.
Proof. destruct c as [[] [] [] [] [] [] [] []]; reflexivity. Qed.

Lemma lower_char_p c : (Py.lower_char c =? "p")%char = ((c =? "p") || (c =? "P"))%char.
Proof. destruct c as [[] [] [] [] [] [] [] []]; reflexivity. Qed.

(** The test of [search] accepts exactly the spellings of "serper". *)
Lemma lower_is_serper t :
  (Py.lower t =? "serper") = case_variant t "serper".
Proof.
  do 7 (try destruct t as [|? t]);
    cbn [Py.lower case_variant String.eqb];
    change (upper_ascii "s") with "S"%char;
    change (upper_ascii "e") with "E"%char;
    change (upper_ascii "r") with "R"%char;
    change (upper_ascii "p") with "P"%char;
    rewrite ?lower_char_s, ?lower_char_e, ?lower_char_r, ?lower_char_p;
    try reflexivity;
    repeat match goal with
           | |- context [if ?b then _ else _] => destruct b
           end; reflexivity.
Qed.

(** *** The heap of sockets *)

Lemma length_list_set {A} (l : list A) i x : length (list_set l i x) = length l.
Proof.
  revert i; induction l as [|y l IH]; intros [|i]; simpl; auto.
Qed.

Lemma nth_list_set_same {A} (l : list A) i x d :
  i < length l -> nth i (list_set l i x) d = x.
Proof.
  revert i; induction l as [|y l IH]; intros [|i] Hi; simpl in *; try lia; auto.
  apply IH; lia.
Qed.

Lemma list_set_set {A} (l : list A) i x y :
  list_set (list_set l i x) i y = list_set l i y.
Proof.
  revert i; induction l as [|z l IH]; intros [|i]; simpl; auto.
  rewrite IH; reflexivity.
Qed.

(** A socket with something in its inbox, or with a fault to come, lives on
    the heap. *)
Lemma inbox_in_range w ws r rest :
  sk_inbox (socket_at w ws) = r :: rest -> ws < length (sockets w).
Proof.
  unfold socket_at; intros H.
  destruct (Nat.lt_ge_cases ws (length (sockets w))) as [|Hge]; auto.
  rewrite nth_overflow in H by exact Hge. discriminate.
Qed.

Lemma socket_at_set_socket w ws s :
  ws < length (sockets w) -> socket_at (set_socket w ws s) ws = s.
Proof. intros H. unfold socket_at, set_socket; simpl. apply nth_list_set_same, H. Qed.


(** *** Selection of the provider *)

(** The endpoint is its body run after [connect], under the two handlers. *)
Lemma endpoint_eq E ws sid w :
  websocket_stream_endpoint E ws sid w =
  match session_body E ws sid (after_connect w ws sid) with
  | (Ret a, w') => (Ret a, w')
  | (Raise e, w') =>
      (if is_WebSocketDisconnect e then ConnectionManager.disconnect sid
       else
         try_except
           (StreamManager.send_message ws (error_event ("WebSocket error: " ++ exn_str e)))
           (fun _ => ret tt) ;;;
         ConnectionManager.disconnect sid) w'
  end.
Proof. reflexivity. Qed.




Lemma get_val_str t :
  get_val (option_map PyStr t) (PyStr "tavily") = PyStr (get_str t "tavily").
Proof. destruct t; reflexivity. Qed.



(** *** Streaming search against full-fetch search *)

Lemma try_except_reraise {St A} (c : M St A) s :
  try_except c (fun e => raise e) s = c s.
Proof. unfold try_except, raise. destruct (c s) as [[a|e] s']; reflexivity. Qed.

(** [search_streaming] fetches what [search] fetches, then runs its loop. *)
Lemma search_streaming_eq E {C} query t (cb : option (@callback_t C)) s w :
  search_streaming E query t cb s w =
  match search E query t with
  | Ret results => stream_results cb 0 results s w
  | Raise e => (Raise e, w)
  end.
Proof.
  unfold search_streaming. rewrite try_except_reraise.
  unfold bind, lift_outcome, search.
  destruct (Py.lower t =? "serper").
  - destruct (search_serper E query); reflexivity.
  - destruct (search_tavily E query); reflexivity.
Qed.

Lemma search_streaming_any_eq E {C} query tag (cb : option (@callback_t C)) s w :
  search_streaming_any E query tag cb s w
  = match search_any E query tag with
    | Ret results => stream_results cb 0 results s w
    | Raise e => (Raise e, w)
    end.
Proof.
  destruct tag as [t|ty]; cbn [search_streaming_any search_any].
  - apply search_streaming_eq.
  - reflexivity.
Qed.

Lemma stream_results_recording {C} (cb : @callback_t C) :
  never_raises cb ->
  forall results i s seen w,
  exists s' w',
    stream_results (Some (recording cb)) i results (s, seen) w
    = (Ret (s', (seen ++ results)%list), w').
Proof.
  intros Hcb results. induction results as [|r rest IH]; intros i s seen w.
  - exists s, w. simpl. rewrite app_nil_r. reflexivity.
  - cbn [stream_results]. unfold bind at 1. unfold recording at 1.
    unfold bind at 1. cbn [fst snd].
    destruct (Hcb r s w) as (s1 & w1 & H1). rewrite H1.
    unfold ret at 1. unfold bind at 1. unfold sleep, record_call.
    destruct (IH (S i) s1 (seen ++ [r])%list
                 (mk_World (active_connections w1) (sockets w1) (graph_service w1)
                           (uuid_calls w1) (calls w1 ++ [Sleep i])))
      as (s' & w' & H').
    exists s', w'. rewrite H'. rewrite <- app_assoc. reflexivity.
Qed.

Lemma accumulate_never_raises : never_raises accumulate.
Proof. intros r s w. exists (s ++ [r])%list, w. reflexivity. Qed.

Lemma stream_results_accumulate results :
  forall i acc w,
  exists w',
    stream_results (Some accumulate) i results acc w = (Ret (acc ++ results)%list, w').
Proof.
  induction results as [|r rest IH]; intros i acc w.
  - exists w. simpl. rewrite app_nil_r. reflexivity.
  - destruct (IH (S i) (acc ++ [r])%list
                 (mk_World (active_connections w) (sockets w) (graph_service w)
                           (uuid_calls w) (calls w ++ [Sleep i])))
      as (w' & H').
    exists w'. rewrite <- app_assoc in H'. exact H'.
Qed.

(** C1 -- For every query and provider tag: when the full-fetch [search]
    returns a list of results, [search_streaming] invokes a callback that
    returns once per result, in the order of that list, and an accumulating
    callback ends with that very list; when [search] raises,
    [search_streaming] raises the same exception and invokes nothing. *)
Theorem C1_streaming_matches_search (E : Env) (query search_type : string) :
  (forall results,
      search E query search_type = Ret results ->
      (forall C (cb : @callback_t C),
          never_raises cb ->
          forall s w, exists s' w',
            search_streaming E query search_type (Some (recording cb)) (s, []) w
            = (Ret (s', results), w')) /\
      (forall w, exists w',
          search_streaming E query search_type (Some accumulate) [] w
          = (Ret results, w'))) /\
  (forall e,
      search E query search_type = Raise e ->
      forall C (cb : option (@callback_t C)) s w,
        search_streaming E query search_type cb s w = (Raise e, w)).
Proof.
  split.
  - intros results Hs. split.
    + intros C cb Hcb s w. rewrite search_streaming_eq, Hs.
      destruct (stream_results_recording cb Hcb results 0 s [] w) as (s' & w' & H).
      exists s', w'. exact H.
    + intros w. rewrite search_streaming_eq, Hs.
      destruct (stream_results_accumulate results 0 [] w) as (w' & H).
      exists w'. exact H.
  - intros e Hs C cb s w. rewrite search_streaming_eq, Hs. reflexivity.
Qed.

(* ===================================================================== *)
(** ** Properties: the streaming session *)
(* ===================================================================== *)

(** *** Single steps on a socket that lives on the heap *)

Section OnSocket.
Variables (ac : list (string * nat)) (socks : list Socket) (ws : nat).
Variables (gs : GraphState) (u : nat) (cs : list call).
Hypothesis in_range : ws < length socks.

Lemma socket_at_mk (s : Socket) :
  socket_at (mk_World ac (list_set socks ws s) gs u cs) ws = s.
Proof. unfold socket_at; simpl. apply nth_list_set_same, in_range. Qed.

Lemma send_text_delivered (s : Socket) (m : message) :
  hd None (sk_faults s) = None ->
  send_text ws m (mk_World ac (list_set socks ws s) gs u cs)
  = (Ret tt,
     mk_World ac
       (list_set socks ws
          (mk_Socket (sk_accepted s) (sk_inbox s) (tl (sk_faults s)) (sk_wire s ++ [m])))
       gs u cs).
Proof.
  intros Hhd. unfold send_text. rewrite socket_at_mk.
  unfold set_socket; simpl. rewrite list_set_set.
  destruct (sk_faults s) as [|[e|] fl]; simpl in *; try discriminate; reflexivity.
Qed.

Lemma send_text_refused (s : Socket) (m : message) e fl :
  sk_faults s = Some e :: fl ->
  send_text ws m (mk_World ac (list_set socks ws s) gs u cs)
  = (Raise e,
     mk_World ac
       (list_set socks ws (mk_Socket (sk_accepted s) (sk_inbox s) fl (sk_wire s)))
       gs u cs).
Proof.
  intros Hf. unfold send_text. rewrite socket_at_mk, Hf.
  unfold set_socket; simpl. rewrite list_set_set. reflexivity.
Qed.

Lemma receive_json_head (s : Socket) r rest :
  sk_inbox s = r :: rest ->
  receive_json ws (mk_World ac (list_set socks ws s) gs u cs)
  = (r,
     mk_World ac
       (list_set socks ws (mk_Socket (sk_accepted s) rest (sk_faults s) (sk_wire s)))
       gs u cs).
Proof.
  intros Hin. unfold receive_json. rewrite socket_at_mk, Hin.
  unfold set_socket; simpl. rewrite list_set_set. reflexivity.
Qed.

End OnSocket.

Lemma healthy_hd s : healthy s -> hd None (sk_faults s) = None.
Proof.
  unfold healthy. destruct (sk_faults s) as [|f fl]; simpl; auto.
  intros H; inversion H; auto.
Qed.

Lemma healthy_tl a i f wire :
  Forall (fun x : option exn => x = None) f ->
  healthy (mk_Socket a i (tl f) wire).
Proof.
  unfold healthy; simpl. intros H. destruct f; simpl; auto. inversion H; auto.
Qed.

Lemma skipn_S_tl {A} n (l : list A) : skipn (S n) l = skipn n (tl l).
Proof. destruct l; simpl; auto. destruct n; reflexivity. Qed.

(** *** The loop of [search_streaming] under [result_callback], all writes
    being delivered *)

Lemma stream_results_delivered E ws socks (Hr : ws < length socks) results :
  forall i acc ac s gs u cs,
    healthy s ->
    stream_results (Some (result_callback E ws)) i results acc
      (mk_World ac (list_set socks ws s) gs u cs)
    = (Ret (acc ++ results)%list,
       mk_World ac
         (list_set socks ws
            (mk_Socket (sk_accepted s) (sk_inbox s)
               (skipn (length results) (sk_faults s))
               (sk_wire s ++ source_frames E u results)))
         gs (u + length results)
         (cs ++ map Sleep (seq i (length results)))).
Proof.
  induction results as [|r rest IH]; intros i acc ac s gs u cs Hs.
  - simpl. unfold ret. rewrite !app_nil_r, Nat.add_0_r.
    destruct s; reflexivity.
  - cbn [stream_results]. unfold bind at 1. unfold result_callback at 1.
    unfold bind at 1. unfold new_uuid at 1.
    cbn [active_connections sockets graph_service uuid_calls calls].
    unfold bind at 1. unfold StreamManager.send_message, ConnectionManager.send_message.
    rewrite (send_text_delivered ac socks ws gs (S u) cs Hr s _ (healthy_hd s Hs)).
    unfold ret at 1. unfold bind at 1. unfold sleep, record_call.
    cbn [active_connections sockets graph_service uuid_calls calls].
    rewrite IH by (apply healthy_tl; exact Hs).
    cbn [sk_accepted sk_inbox sk_faults sk_wire length source_frames seq map].
    rewrite <- !app_assoc. cbn [app]. rewrite <- skipn_S_tl.
    replace (S u + length rest) with (u + S (length rest)) by lia.
    reflexivity.
Qed.

Lemma event_of_source_frames E n results :
  Forall (fun m => event_of m = Some "source") (source_frames E n results).
Proof.
  revert n; induction results as [|r rest IH]; intros n; simpl; constructor; auto.
Qed.


Lemma frames_of_all ev l :
  Forall (fun m => event_of m = Some ev) l -> frames_of ev l = l.
Proof.
  induction 1 as [|m l Hm _ IH]; simpl; auto.
  rewrite Hm, String.eqb_refl, IH. reflexivity.
Qed.

Lemma frames_of_app ev l1 l2 :
  frames_of ev (l1 ++ l2) = (frames_of ev l1 ++ frames_of ev l2)%list.
Proof. apply filter_app. Qed.


(** The session up to the search: the payload is read and the status frame
    delivered. *)
Lemma session_body_searching E ws sid ac socks gs u cs s q t rest :
  ws < length socks ->
  sk_inbox s = Ret (mk_Payload (Some q) t) :: rest ->
  Py.truthy q = true ->
  hd None (sk_faults s) = None ->
  session_body E ws sid (mk_World ac (list_set socks ws s) gs u cs)
  = (fun w =>
       match search_streaming_any E q (get_val t (PyStr "tavily"))
               (Some (result_callback E ws)) [] w with
       | (Raise e, w1) =>
           StreamManager.send_message ws (error_event ("Search failed: " ++ exn_str e)) w1
       | (Ret results, w1) =>
           (try_except
              (record_call (SaveCall q results (Some sid)) ;;;
               on_graph_service (save_query_and_sources E q results (Some sid)))
              (fun _ => ret tt) ;;;
            StreamManager.send_message ws (done_event (length results))) w1
       end)
      (mk_World ac
         (list_set socks ws
            (mk_Socket (sk_accepted s) rest (tl (sk_faults s))
               (sk_wire s ++ [status_event "Searching sources..."])))
         gs u cs).
Proof.
  intros Hr Hin Hq Hhd.
  unfold session_body. unfold bind at 1.
  rewrite (receive_json_head ac socks ws gs u cs Hr s _ _ Hin).
  cbn [p_query p_search_type get_str]. rewrite Hq. cbn [negb].
  unfold bind at 1. unfold StreamManager.send_message, ConnectionManager.send_message.
  rewrite send_text_delivered by (auto; exact Hhd).
  reflexivity.
Qed.


(** *** The default provider *)




Lemma tl_skipn {A} n (l : list A) : tl (skipn n l) = skipn (S n) l.
Proof.
  revert l; induction n as [|n IH]; intros [|x l]; try reflexivity.
  rewrite skipn_S_tl. cbn [tl]. change (skipn (S n) (x :: l)) with (skipn n l).
  rewrite IH. reflexivity.
Qed.

Lemma healthy_skipn_hd s n : healthy s -> hd None (skipn n (sk_faults s)) = None.
Proof.
  unfold healthy. generalize (sk_faults s). intros l; revert n.
  induction l as [|x l IH]; intros [|n] H; simpl; auto; inversion H; auto.
Qed.

(** The run of a session whose writes are delivered and whose search returns:
    the save operation is called once, and whatever its outcome the done
    frame follows. *)
Lemma endpoint_streams E w ws sid q t rest results :
  sk_inbox (socket_at w ws) = Ret (mk_Payload (Some q) (option_map PyStr t)) :: rest ->
  Py.truthy q = true ->
  healthy (socket_at w ws) ->
  search E q (get_str t "tavily") = Ret results ->
  websocket_stream_endpoint E ws sid w
  = (Ret tt,
     mk_World (Dict.set (active_connections w) sid ws)
       (list_set (sockets w) ws
          (mk_Socket true rest
             (skipn (S (S (length results))) (sk_faults (socket_at w ws)))
             (sk_wire (socket_at w ws)
              ++ status_event "Searching sources..."
                 :: source_frames E (uuid_calls w) results
                 ++ [done_event (length results)])))
       (snd (save_query_and_sources E q results (Some sid) (graph_service w)))
       (uuid_calls w + length results)
       (calls w ++ map Sleep (seq 0 (length results))
        ++ [SaveCall q results (Some sid)])).
Proof.
  intros Hin Hq Hh Hs.
  pose proof (inbox_in_range _ _ _ _ Hin) as Hr.
  rewrite endpoint_eq.
  unfold after_connect, set_active_connections, set_socket.
  cbn [active_connections sockets graph_service uuid_calls calls].
  rewrite (session_body_searching E ws sid _ _ _ _ _
             (mk_Socket true (sk_inbox (socket_at w ws)) (sk_faults (socket_at w ws))
                        (sk_wire (socket_at w ws)))
             q (option_map PyStr t) rest Hr Hin Hq (healthy_hd _ Hh)).
  cbv beta. cbn [sk_accepted sk_inbox sk_faults sk_wire].
  rewrite get_val_str. cbn [search_streaming_any].
  rewrite search_streaming_eq, Hs.
  rewrite (stream_results_delivered E ws _ Hr) by (apply healthy_tl; exact Hh).
  cbn [sk_accepted sk_inbox sk_faults sk_wire app].
  unfold bind at 1. unfold try_except at 1. unfold bind at 1.
  unfold record_call at 1.
  cbn [active_connections sockets graph_service uuid_calls calls].
  unfold on_graph_service at 1.
  cbn [active_connections sockets graph_service uuid_calls calls].
  assert (Hsend : forall g,
    StreamManager.send_message ws (done_event (length results))
      (mk_World (Dict.set (active_connections w) sid ws)
         (list_set (sockets w) ws
            (mk_Socket true rest
               (skipn (length results) (tl (sk_faults (socket_at w ws))))
               ((sk_wire (socket_at w ws) ++ [status_event "Searching sources..."])
                ++ source_frames E (uuid_calls w) results)))
         g (uuid_calls w + length results)
         ((calls w ++ map Sleep (seq 0 (length results)))
          ++ [SaveCall q results (Some sid)]))
    = (Ret tt,
       mk_World (Dict.set (active_connections w) sid ws)
         (list_set (sockets w) ws
            (mk_Socket true rest
               (skipn (S (S (length results))) (sk_faults (socket_at w ws)))
               (sk_wire (socket_at w ws)
                ++ status_event "Searching sources..."
                   :: source_frames E (uuid_calls w) results
                   ++ [done_event (length results)])))
         g (uuid_calls w + length results)
         (calls w ++ map Sleep (seq 0 (length results))
          ++ [SaveCall q results (Some sid)]))).
  { intros g.
    unfold StreamManager.send_message, ConnectionManager.send_message.
    rewrite send_text_delivered.
    - cbn [sk_accepted sk_inbox sk_faults sk_wire].
      rewrite <- skipn_S_tl, tl_skipn, <- !app_assoc. reflexivity.
    - exact Hr.
    - cbn [sk_faults]. rewrite <- skipn_S_tl. apply healthy_skipn_hd, Hh. }
  destruct (save_query_and_sources E q results (Some sid) (graph_service w))
    as [[[]|e'] g']; unfold ret, set_graph_service;
    cbn [active_connections sockets graph_service uuid_calls calls snd];
    rewrite Hsend; reflexivity.
Qed.


Lemma disconnect_frame sid w :
  let r := ConnectionManager.disconnect sid w in
  fst r = Ret tt /\
  sockets (snd r) = sockets w /\
  graph_service (snd r) = graph_service w /\
  calls (snd r) = calls w /\
  active_connections (snd r) = Dict.del (active_connections w) sid.
Proof.
  unfold ConnectionManager.disconnect, Dict.mem.
  destruct (Dict.get (active_connections w) sid) eqn:Hg; cbn; repeat split; auto.
  (* an absent key: nothing to delete *)
  clear -Hg. induction (active_connections w) as [|[k v] d IH]; simpl in *; auto.
  destruct (k =? sid); [discriminate|]. cbn. f_equal. auto.
Qed.



(** *** What a session does to the registry and to the wire, on every path *)

Lemma no_done_step_refl ws w : no_done_step ws w w.
Proof.
  repeat split; auto. exists []. rewrite app_nil_r. auto.
Qed.

Lemma no_done_step_trans ws w1 w2 w3 :
  no_done_step ws w1 w2 -> no_done_step ws w2 w3 -> no_done_step ws w1 w3.
Proof.
  intros (Ha & Hl & n1 & Hw1 & Hd1) (Ha' & Hl' & n2 & Hw2 & Hd2).
  repeat split; try congruence.
  exists (n1 ++ n2)%list. rewrite Hw2, Hw1, <- app_assoc, frames_of_app, Hd1, Hd2.
  auto.
Qed.

(** Steps that leave the registry and the sockets alone. *)
Lemma no_done_step_same_sockets ws w w' :
  active_connections w' = active_connections w ->
  sockets w' = sockets w ->
  no_done_step ws w w'.
Proof.
  intros Ha Hs. unfold no_done_step, socket_at. rewrite Ha, Hs.
  repeat split; auto. exists []. rewrite app_nil_r. auto.
Qed.

Lemma socket_at_set_socket_gen w ws s :
  socket_at (set_socket w ws s) ws
  = if (ws <? length (sockets w))%nat then s else no_socket.
Proof.
  unfold socket_at, set_socket; simpl.
  destruct (Nat.ltb_spec ws (length (sockets w))) as [H|H].
  - apply nth_list_set_same, H.
  - apply nth_overflow. rewrite length_list_set. exact H.
Qed.

Lemma socket_off_heap w ws :
  length (sockets w) <= ws -> socket_at w ws = no_socket.
Proof. intros H. unfold socket_at. apply nth_overflow, H. Qed.

(** A write delivers its frame or nothing; whatever it does, it is a step of
    the kind above unless it delivers a done frame. *)
Lemma send_text_step ws m w :
  let r := send_text ws m w in
  active_connections (snd r) = active_connections w /\
  length (sockets (snd r)) = length (sockets w) /\
  exists new,
    sk_wire (socket_at (snd r) ws) = (sk_wire (socket_at w ws) ++ new)%list /\
    (new = [] \/ (new = [m] /\ fst r = Ret tt)).
Proof.
  unfold send_text.
  destruct (Nat.lt_ge_cases ws (length (sockets w))) as [Hr|Hr].
  - destruct (sk_faults (socket_at w ws)) as [|[e|] fl]; cbn [fst snd];
      rewrite socket_at_set_socket by exact Hr;
      unfold set_socket; cbn [active_connections sockets sk_wire];
      rewrite length_list_set; repeat split; auto.
    + exists [m]. auto.
    + exists []. rewrite app_nil_r. auto.
    + exists [m]. auto.
  - destruct (sk_faults (socket_at w ws)) as [|[e|] fl]; cbn [fst snd];
      rewrite socket_at_set_socket_gen;
      (destruct (Nat.ltb_spec ws (length (sockets w))); [lia|]);
      rewrite (socket_off_heap w ws Hr);
      unfold set_socket; cbn [active_connections sockets sk_wire no_socket];
      rewrite length_list_set; repeat split; auto; exists []; auto.
Qed.

Lemma send_text_no_done ws m w :
  event_of m <> Some "done" ->
  no_done_step ws w (snd (send_text ws m w)).
Proof.
  intros Hm. destruct (send_text_step ws m w) as (Ha & Hl & new & Hw & Hn).
  repeat split; auto. exists new. split; auto.
  destruct Hn as [->|[-> _]]; auto.
  unfold frames_of; simpl. destruct (event_of m) as [ev|]; auto.
  destruct (String.eqb_spec ev "done") as [->|]; auto. congruence.
Qed.

Lemma send_text_raise_no_done ws m w e :
  fst (send_text ws m w) = Raise e ->
  no_done_step ws w (snd (send_text ws m w)).
Proof.
  intros He. destruct (send_text_step ws m w) as (Ha & Hl & new & Hw & Hn).
  repeat split; auto. exists new. split; auto.
  destruct Hn as [->|[_ Hr]]; auto. rewrite He in Hr; discriminate.
Qed.

Lemma receive_json_no_done ws w :
  no_done_step ws w (snd (receive_json ws w)).
Proof.
  unfold receive_json. destruct (sk_inbox (socket_at w ws)) as [|r rest] eqn:Hin.
  - apply no_done_step_refl.
  - pose proof (inbox_in_range _ _ _ _ Hin) as Hr. cbn [snd].
    unfold no_done_step. rewrite socket_at_set_socket by exact Hr.
    unfold set_socket; cbn [active_connections sockets sk_wire].
    rewrite length_list_set. repeat split; auto.
    exists []. rewrite app_nil_r. auto.
Qed.

Lemma result_callback_no_done E ws r acc w :
  no_done_step ws w (snd (result_callback E ws r acc w)).
Proof.
  unfold result_callback, bind, new_uuid.
  match goal with
  | |- context [StreamManager.send_message ws ?m ?w0] =>
      pose proof (send_text_no_done ws m w0) as Hs;
      change (StreamManager.send_message ws m w0) with (send_text ws m w0)
  end.
  destruct (send_text ws _ _) as [[[]|e] w1]; cbn [snd ret] in *;
    (eapply no_done_step_trans; [|apply Hs; discriminate]);
    apply no_done_step_same_sockets; reflexivity.
Qed.

Lemma stream_results_no_done E ws results :
  forall i acc w,
    no_done_step ws w (snd (stream_results (Some (result_callback E ws)) i results acc w)).
Proof.
  induction results as [|r rest IH]; intros i acc w.
  - apply no_done_step_refl.
  - cbn [stream_results]. unfold bind at 1.
    pose proof (result_callback_no_done E ws r acc w) as Hcb.
    destruct (result_callback E ws r acc w) as [[acc'|e] w1]; cbn [snd] in *; auto.
    unfold bind at 1. unfold sleep, record_call.
    eapply no_done_step_trans; [exact Hcb|].
    eapply no_done_step_trans; [|apply IH].
    apply no_done_step_same_sockets; reflexivity.
Qed.

Lemma search_streaming_no_done E ws q t w :
  no_done_step ws w
    (snd (search_streaming E q t (Some (result_callback E ws)) [] w)).
Proof.
  rewrite search_streaming_eq. destruct (search E q t).
  - apply stream_results_no_done.
  - apply no_done_step_refl.
Qed.

Lemma search_streaming_any_no_done E ws q tag w :
  no_done_step ws w
    (snd (search_streaming_any E q tag (Some (result_callback E ws)) [] w)).
Proof.
  destruct tag as [t|ty]; cbn [search_streaming_any].
  - apply search_streaming_no_done.
  - apply no_done_step_refl.
Qed.

Lemma save_step E ws q results sid w :
  no_done_step ws w
    (snd (try_except
            (record_call (SaveCall q results (Some sid)) ;;;
             on_graph_service (save_query_and_sources E q results (Some sid)))
            (fun _ => ret tt) w)).
Proof.
  unfold try_except, bind, record_call, on_graph_service.
  cbn [active_connections sockets graph_service uuid_calls calls].
  destruct (save_query_and_sources E q results (Some sid) (graph_service w))
    as [[[]|e] g]; cbn [snd ret]; apply no_done_step_same_sockets; reflexivity.
Qed.

(** The body of the session never touches the registry, and when it raises
    it has delivered no done frame. *)
Lemma session_body_paths E ws sid w :
  let r := session_body E ws sid w in
  active_connections (snd r) = active_connections w /\
  (forall e, fst r = Raise e -> no_done_step ws w (snd r)).
Proof.
  cbv zeta. destruct (session_body E ws sid w) as [o w'] eqn:Hrun. cbn [fst snd].
  assert (Hgoal : no_done_step ws w w' ->
            active_connections w' = active_connections w /\
            (forall e, o = Raise e -> no_done_step ws w w')).
  { intros H. split; [apply H | intros; exact H]. }
  unfold session_body in Hrun. unfold bind at 1 in Hrun.
  pose proof (receive_json_no_done ws w) as H0.
  destruct (receive_json ws w) as [[data|e0] w0]; cbn [fst snd] in *.
  2:{ injection Hrun as <- <-. auto. }
  unfold StreamManager.send_message, ConnectionManager.send_message in Hrun.
  destruct (negb (Py.truthy (get_str (p_query data) ""))).
  { pose proof (send_text_no_done ws (error_event "Query text is required") w0) as H1.
    rewrite Hrun in H1. apply Hgoal.
    eapply no_done_step_trans; [exact H0 | apply H1; discriminate]. }
  unfold bind at 1 in Hrun.
  pose proof (send_text_no_done ws (status_event "Searching sources...") w0) as H1.
  destruct (send_text ws (status_event "Searching sources...") w0) as [[[]|e1] w1];
    cbn [fst snd] in *.
  2:{ injection Hrun as <- <-. apply Hgoal.
      eapply no_done_step_trans; [exact H0 | apply H1; discriminate]. }
  assert (H01 : no_done_step ws w w1).
  { eapply no_done_step_trans; [exact H0 | apply H1; discriminate]. }
  pose proof (search_streaming_any_no_done E ws (get_str (p_query data) "")
                (get_val (p_search_type data) (PyStr "tavily")) w1) as H2.
  destruct (search_streaming_any E _ _ _ [] w1) as [[results|e2] w2]; cbn [snd] in H2.
  - (* the search returned: save, then the done frame *)
    unfold bind at 1 in Hrun.
    pose proof (save_step E ws (get_str (p_query data) "") results sid w2) as H3.
    destruct (try_except _ _ w2) as [[[]|e3] w3]; cbn [snd] in H3.
    + assert (H03 : no_done_step ws w w3).
      { eapply no_done_step_trans; [exact H01|].
        eapply no_done_step_trans; [exact H2 | exact H3]. }
      destruct (send_text_step ws (done_event (length results)) w3) as (Ha & _).
      pose proof (send_text_raise_no_done ws (done_event (length results)) w3) as Hd.
      rewrite Hrun in Ha, Hd. cbn [fst snd] in Ha, Hd.
      split.
      * rewrite Ha. apply H03.
      * intros e He. eapply no_done_step_trans; [exact H03|].
        eapply Hd, He.
    + injection Hrun as <- <-. apply Hgoal.
      eapply no_done_step_trans; [exact H01|].
      eapply no_done_step_trans; [exact H2 | exact H3].
  - (* the search raised: the error frame *)
    pose proof (send_text_no_done ws
                  (error_event ("Search failed: " ++ exn_str e2)) w2) as H3.
    rewrite Hrun in H3. apply Hgoal.
    eapply no_done_step_trans; [exact H01|].
    eapply no_done_step_trans; [exact H2 | apply H3; discriminate].
Qed.

Lemma dict_get_set {V} (d : list (string * V)) k v :
  Dict.get (Dict.set d k v) k = Some v.
Proof.
  induction d as [|[k' v'] d IH]; simpl.
  - rewrite String.eqb_refl. reflexivity.
  - destruct (k' =? k) eqn:Hk; simpl; rewrite Hk; auto.
Qed.

Lemma dict_get_del {V} (d : list (string * V)) k :
  Dict.get (Dict.del d k) k = None.
Proof.
  unfold Dict.del. induction d as [|[k' v'] d IH]; simpl; auto.
  destruct (k' =? k) eqn:Hk; simpl; auto. rewrite Hk. exact IH.
Qed.

Lemma after_connect_wire w ws sid :
  sk_wire (socket_at (after_connect w ws sid) ws) = sk_wire (socket_at w ws).
Proof.
  unfold after_connect.
  change (socket_at (set_active_connections ?x ?c) ws) with (socket_at x ws).
  rewrite socket_at_set_socket_gen.
  destruct (Nat.ltb_spec ws (length (sockets w))) as [H|H]; [reflexivity|].
  rewrite (socket_off_heap w ws H). reflexivity.
Qed.

(** C10 -- The handler always returns.  When the body of its [try] returns
    (as it does after the done frame), the registry still maps the session-id
    to the socket; the entry is gone exactly when the body raised (a
    disconnect or any other exception), and in that case no done frame was
    delivered: a session that delivered a done frame leaves its entry in the
    registry. *)
Theorem C10_registry_after_session (E : Env) (w : World) (ws : nat) (sid : string) :
  let r := websocket_stream_endpoint E ws sid w in
  let body := session_body E ws sid (after_connect w ws sid) in
  fst r = Ret tt /\
  (forall a, fst body = Ret a ->
             Dict.get (active_connections (snd r)) sid = Some ws) /\
  (forall e, fst body = Raise e ->
             Dict.get (active_connections (snd r)) sid = None) /\
  (forall new,
      sk_wire (socket_at (snd r) ws) = (sk_wire (socket_at w ws) ++ new)%list ->
      frames_of "done" new <> [] ->
      Dict.get (active_connections (snd r)) sid = Some ws).
Proof.
  cbv zeta.
  destruct (websocket_stream_endpoint E ws sid w) as [o w'] eqn:Hrun.
  rewrite endpoint_eq in Hrun.
  destruct (session_body_paths E ws sid (after_connect w ws sid)) as (Hac & Hraise).
  destruct (session_body E ws sid (after_connect w ws sid)) as [[[]|e] w1];
    cbn [fst snd] in *.
  - (* the body returned *)
    injection Hrun as <- <-.
    assert (Hreg : Dict.get (active_connections w1) sid = Some ws).
    { rewrite Hac. unfold after_connect; cbn [active_connections set_active_connections].
      apply dict_get_set. }
    repeat split; auto. intros; discriminate.
  - (* the body raised [e] *)
    specialize (Hraise e eq_refl).
    assert (Hfin : o = Ret tt /\
                   Dict.get (active_connections w') sid = None /\
                   no_done_step ws w1 (set_active_connections w' (active_connections w1))).
    { destruct (is_WebSocketDisconnect e).
      - destruct (disconnect_frame sid w1) as (Ho & Hs & _ & _ & Ha).
        rewrite Hrun in Ho, Hs, Ha. cbn [fst snd] in Ho, Hs, Ha.
        assert (Hnone : Dict.get (active_connections w') sid = None)
          by (rewrite Ha; apply dict_get_del).
        split; [exact Ho|]. split; [exact Hnone|].
        apply no_done_step_same_sockets; [reflexivity | exact Hs].
      - unfold bind at 1 in Hrun. unfold try_except at 1 in Hrun.
        unfold StreamManager.send_message, ConnectionManager.send_message in Hrun.
        pose proof (send_text_no_done ws
                      (error_event ("WebSocket error: " ++ exn_str e)) w1) as Hsend.
        assert (Hw2 : exists w2, no_done_step ws w1 w2 /\
                        ConnectionManager.disconnect sid w2 = (o, w')).
        { destruct (send_text ws _ w1) as [[[]|e2] w2]; cbn [snd ret] in *;
            exists w2; split; auto; apply Hsend; discriminate. }
        destruct Hw2 as (w2 & H12 & Hd).
        destruct (disconnect_frame sid w2) as (Ho & Hs & _ & _ & Ha).
        rewrite Hd in Ho, Hs, Ha. cbn [fst snd] in Ho, Hs, Ha.
        assert (Hnone : Dict.get (active_connections w') sid = None)
          by (rewrite Ha; apply dict_get_del).
        split; [exact Ho|]. split; [exact Hnone|].
        eapply no_done_step_trans; [exact H12|].
        destruct H12 as (H12a & _).
        apply no_done_step_same_sockets; [symmetry; exact H12a | exact Hs]. }
    destruct Hfin as (Ho & Hnone & Hstep).
    repeat split; auto; try (intros; discriminate).
    intros new Hw Hdone. exfalso. apply Hdone.
    destruct (no_done_step_trans ws _ _ _ Hraise Hstep) as (_ & _ & new' & Hw' & Hd').
    change (socket_at (set_active_connections w' (active_connections w1)) ws)
      with (socket_at w' ws) in Hw'.
    rewrite after_connect_wire, Hw in Hw'.
    apply app_inv_head in Hw'. subst new'. exact Hd'.
Qed.

(* ===================================================================== *)
(** ** Properties: the connection registry *)
(* ===================================================================== *)

Lemma broadcast_loop_size_changed used pending m w :
  length (active_connections w) <> used ->
  ConnectionManager.broadcast_loop used pending m w
  = (Raise (mk_exn RuntimeError "dictionary changed size during iteration"), w).
Proof.
  intros H. destruct pending as [|[cid ws] rest]; cbn [ConnectionManager.broadcast_loop];
    destruct (Nat.eqb_spec (length (active_connections w)) used); try contradiction;
    reflexivity.
Qed.

(** A disconnect reported by the first channel visited ends [broadcast] with
    a [RuntimeError], whatever the other channels are. *)
Lemma broadcast_first_disconnects m w cid ws rest e fl :
  active_connections w = (cid, ws) :: rest ->
  sk_faults (socket_at w ws) = Some e :: fl ->
  is_WebSocketDisconnect e = true ->
  fst (ConnectionManager.broadcast m w)
  = Raise (mk_exn RuntimeError "dictionary changed size during iteration").
Proof.
  intros Hac Hf He. unfold ConnectionManager.broadcast. rewrite Hac.
  cbn [ConnectionManager.broadcast_loop]. rewrite Hac, Nat.eqb_refl. cbn [negb].
  unfold bind at 1. unfold try_except at 1. unfold send_text at 1. rewrite Hf, He.
  unfold ConnectionManager.disconnect, Dict.mem.
  cbn [set_socket active_connections]. rewrite Hac. cbn [Dict.get].
  rewrite String.eqb_refl.
  rewrite broadcast_loop_size_changed; [reflexivity|].
  cbn [set_active_connections active_connections Dict.del filter fst].
  rewrite String.eqb_refl. cbn [negb length].
  pose proof (filter_length_le (fun kv : string * nat => negb (fst kv =? cid)) rest).
  lia.
Qed.

(** Two channels whose writes are delivered: both receive the frame. *)
Example broadcast_all_delivered :
  let w := mk_World [("a", 0); ("b", 1)]
                    [mk_Socket true [] [] []; mk_Socket true [] [None] []]
                    (mk_GraphState false Sample.empty_db) 0 [] in
  let r := ConnectionManager.broadcast (status_event "ping") w in
  fst r = Ret tt /\
  map sk_wire (sockets (snd r)) = [[status_event "ping"]; [status_event "ping"]] /\
  active_connections (snd r) = [("a", 0); ("b", 1)].
Proof. cbv zeta. repeat split; reflexivity. Qed.

(** C8 -- With two registered channels of which the first reports a
    disconnect during the write, [broadcast] removes that channel and then
    raises [RuntimeError]: the second channel is never written. *)
Theorem C8_broadcast_raises_after_disconnect :
  let r := ConnectionManager.broadcast (status_event "ping") Sample.two_channels in
  fst r = Raise (mk_exn RuntimeError "dictionary changed size during iteration") /\
  active_connections (snd r) = [("b", 1)] /\
  sk_wire (socket_at (snd r) 1) = [].
Proof. cbv zeta. repeat split; reflexivity. Qed.

(* ===================================================================== *)
(** ** Properties: the history/provenance store *)
(* ===================================================================== *)

(** *** Startup *)

(** C4 (as stated, refuted) -- The store cannot be reached at startup and
    the Neo4j package is there: [startup_event] raises, and afterwards [save_query_and_sources] and
    [get_query_history] raise too instead of doing nothing. *)
Lemma C4_unreachable_store_blocks_startup :
  let w0 := mk_World [] [] (mk_GraphState false Sample.unreachable_db) 0 [] in
  let r := startup_event Sample.env w0 in
  hd None (db_faults (db (graph_service w0))) = Some Sample.service_unavailable /\
  fst r = Raise Sample.service_unavailable /\
  fst (save_query_and_sources Sample.env "q" Sample.results None (graph_service (snd r)))
  = Raise Sample.service_unavailable /\
  fst (get_query_history Sample.env 10 (graph_service (snd r)))
  = Raise Sample.service_unavailable.
Proof. cbv zeta. repeat split; reflexivity. Qed.

(** C4 (amended) -- Without the Neo4j package the service runs in a no-op
    mode: [connect] and [startup_event] return at once, [save] does nothing
    and [recent] returns the empty sequence.  With the package, a store that
    cannot be reached at startup makes [connect] raise, and [startup_event]
    with it. *)
Theorem C4_degraded_mode (E : Env) :
  (NEO4J_AVAILABLE E = false ->
   forall g,
     connect E g = (Ret tt, g) /\
     (forall q results sid, save_query_and_sources E q results sid g = (Ret tt, g)) /\
     (forall limit, get_query_history E limit g = (Ret [], g)) /\
     (forall w, graph_service w = g ->
                fst (startup_event E w) = Ret tt /\
                graph_service (snd (startup_event E w)) = g)) /\
  (NEO4J_AVAILABLE E = true ->
   forall g e fl,
     db_faults (db g) = Some e :: fl ->
     fst (connect E g) = Raise e /\
     (forall w, graph_service w = g -> fst (startup_event E w) = Raise e)).
Proof.
  split.
  - intros Hna g. unfold connect, save_query_and_sources, get_query_history.
    rewrite Hna. cbn [negb]. repeat split; auto;
      unfold startup_event, on_graph_service, connect; rewrite Hna; subst g; reflexivity.
  - intros Ha g e fl Hf.
    assert (Hc : fst (connect E g) = Raise e).
    { unfold connect. rewrite Ha. cbn [negb].
      rewrite try_except_reraise. unfold bind, session_run.
      cbn [db]. rewrite Hf. reflexivity. }
    split; [exact Hc|].
    intros w Hw. unfold startup_event, on_graph_service. rewrite Hw.
    destruct (connect E g) as [o g']. exact Hc.
Qed.

Lemma C4_degraded_mode_witness :
  NEO4J_AVAILABLE Sample.mock_env = false /\
  connect Sample.mock_env (mk_GraphState false Sample.unreachable_db)
  = (Ret tt, mk_GraphState false Sample.unreachable_db) /\
  NEO4J_AVAILABLE Sample.env = true /\
  fst (connect Sample.env (mk_GraphState false Sample.unreachable_db))
  = Raise Sample.service_unavailable.
Proof.
  split; [reflexivity|]. split.
  - apply (proj1 (C4_degraded_mode Sample.mock_env) eq_refl).
  - split; [reflexivity|].
    apply (proj2 (C4_degraded_mode Sample.env) eq_refl
             (mk_GraphState false Sample.unreachable_db) Sample.service_unavailable
             _ eq_refl).
Defined.

(** Three queries saved one after the other: the two latest come back,
    the newest first. *)
Example recent_two_of_three :
  let g := run_calls Sample.env
             [CallConnect; CallSave "a" [] None; CallSave "b" Sample.results None;
              CallSave "c" [] (Some "s1")]
             (mk_GraphState false Sample.empty_db) in
  fst (get_query_history Sample.env 2 g) = Ret [("c", 7); ("b", 2)] /\
  map s_url (db_sources (db g)) = ["http://a"] /\
  db_refs (db g) = [(1, 2)].
Proof. cbv zeta. repeat split; reflexivity. Qed.

(** *** Blank URLs *)

Lemma lstrip_all_space s : all_space s = true -> Py.lstrip s = "".
Proof.
  induction s as [|c s IH]; simpl; auto.
  destruct (Py.isspace c); simpl; auto. discriminate.
Qed.

Lemma rstrip_nonempty c s : Py.isspace c = false -> Py.rstrip (String c s) <> "".
Proof.
  intros Hc. cbn [Py.rstrip]. destruct (Py.rstrip s); [rewrite Hc|]; discriminate.
Qed.

Lemma lstrip_not_all_space s :
  all_space s = false ->
  exists c rest, Py.lstrip s = String c rest /\ Py.isspace c = false.
Proof.
  induction s as [|c s IH]; simpl; [discriminate|].
  destruct (Py.isspace c) eqn:Hc; simpl; auto.
  intros _. exists c, s. auto.
Qed.

(** The test of [save_query_and_sources] skips exactly the URLs made of
    whitespace only. *)
Lemma strip_truthy s : Py.truthy (Py.strip s) = negb (all_space s).
Proof.
  unfold Py.strip. destruct (all_space s) eqn:Hs.
  - rewrite (lstrip_all_space s Hs). reflexivity.
  - destruct (lstrip_not_all_space s Hs) as (c & rest & -> & Hc).
    pose proof (rstrip_nonempty c rest Hc) as Hne.
    destruct (Py.rstrip (String c rest)); [contradiction|reflexivity].
Qed.

(** *** Keys on record *)

Lemma existsb_key k l : existsb (fun x => x =? k) l = true <-> In k l.
Proof.
  rewrite existsb_exists. split.
  - intros (x & Hx & He). apply String.eqb_eq in He. subst; auto.
  - intros H. exists k. split; auto. apply String.eqb_refl.
Qed.

Lemma add_key_in k l : In k (add_key k l).
Proof.
  unfold add_key. destruct (existsb _ l) eqn:He.
  - apply existsb_key, He.
  - apply in_or_app; right; apply in_eq.
Qed.

Lemma add_key_incl k l : incl l (add_key k l).
Proof.
  unfold add_key. destruct (existsb _ l); intros x Hx; auto.
  apply in_or_app; auto.
Qed.

Lemma add_key_NoDup k l : NoDup l -> NoDup (add_key k l).
Proof.
  intros H. unfold add_key. destruct (existsb _ l) eqn:He; auto.
  apply NoDup_app; auto.
  - repeat constructor; auto.
  - intros x Hx [<-|[]].
    apply existsb_key in Hx. congruence.
Qed.

Lemma existsb_map_key {A} (f : A -> string) k l :
  existsb (fun a => f a =? k) l = existsb (fun x => x =? k) (map f l).
Proof. induction l as [|a l IH]; simpl; auto. rewrite IH. reflexivity. Qed.

Lemma merge_query_texts t sid d :
  texts (Cypher.merge_query t sid d) = add_key t (texts d).
Proof.
  unfold Cypher.merge_query, add_key, texts.
  rewrite (existsb_map_key q_text). destruct (existsb _ (map q_text _)); cbn [db_queries].
  - rewrite map_map. apply map_ext. intros q. destruct (q_text q =? t); reflexivity.
  - rewrite map_app. reflexivity.
Qed.

Lemma merge_query_sources t sid d :
  db_sources (Cypher.merge_query t sid d) = db_sources d /\
  db_refs (Cypher.merge_query t sid d) = db_refs d.
Proof.
  unfold Cypher.merge_query. destruct (existsb _ _); split; reflexivity.
Qed.

Lemma merge_source_urls u ti sn so d :
  urls (Cypher.merge_source u ti sn so d) = add_key u (urls d).
Proof.
  unfold Cypher.merge_source, add_key, urls.
  rewrite (existsb_map_key s_url). destruct (existsb _ (map s_url _)); cbn [db_sources].
  - rewrite map_map. apply map_ext. intros s. destruct (s_url s =? u); reflexivity.
  - rewrite map_app. reflexivity.
Qed.

Lemma merge_source_queries u ti sn so d :
  db_queries (Cypher.merge_source u ti sn so d) = db_queries d.
Proof. unfold Cypher.merge_source. destruct (existsb _ _); reflexivity. Qed.

Lemma merge_source_not_blank u ti sn so d :
  all_space u = false ->
  Forall (fun s => all_space (s_url s) = false) (db_sources d) ->
  Forall (fun s => all_space (s_url s) = false)
         (db_sources (Cypher.merge_source u ti sn so d)).
Proof.
  intros Hu Hd. unfold Cypher.merge_source. destruct (existsb _ _); cbn [db_sources].
  - rewrite Forall_map. eapply Forall_impl; [|exact Hd].
    intros s Hs. destruct (s_url s =? u); exact Hs.
  - apply Forall_app. split; auto.
Qed.

(** A source record with a blank URL is out of reach of [MERGE (s:Source)]
    on any other URL. *)
Lemma merge_source_keeps_blank u ti sn so d s :
  all_space u = false ->
  In s (db_sources (Cypher.merge_source u ti sn so d)) ->
  all_space (s_url s) = true ->
  In s (db_sources d).
Proof.
  intros Hu Hin Hs. unfold Cypher.merge_source in Hin.
  destruct (existsb _ _); cbn [db_sources] in Hin.
  - apply in_map_iff in Hin. destruct Hin as (s0 & Heq & Hin0).
    destruct (s_url s0 =? u) eqn:He.
    + apply String.eqb_eq in He. subst s. cbn [s_url] in Hs. congruence.
    + subst; exact Hin0.
  - apply in_app_or in Hin. destruct Hin as [H|[H|[]]]; auto.
    subst s. cbn [s_url] in Hs. congruence.
Qed.

(** *** Statements, one at a time *)

Lemma grows_refl d : grows d d.
Proof. repeat split; auto using incl_refl. Qed.

Lemma grows_trans d1 d2 d3 : grows d1 d2 -> grows d2 d3 -> grows d1 d3.
Proof.
  intros (Ht & Hu & Hb) (Ht' & Hu' & Hb'). repeat split.
  - eapply incl_tran; eauto.
  - eapply incl_tran; eauto.
  - intros s Hs Hbl. auto.
Qed.

Lemma exec_spec stmt d :
  stmt_ok stmt ->
  (store_ok d -> store_ok (Cypher.exec stmt d)) /\
  grows d (Cypher.exec stmt d) /\
  recorded stmt (Cypher.exec stmt d).
Proof.
  intros Hok.
  assert (Hq : forall t sid,
            (store_ok d -> store_ok (Cypher.merge_query t sid d)) /\
            grows d (Cypher.merge_query t sid d) /\
            In t (texts (Cypher.merge_query t sid d))).
  { intros t sid.
    destruct (merge_query_sources t sid d) as (Hs & _).
    unfold store_ok, grows, urls. rewrite merge_query_texts, Hs.
    split; [|split; [split; [|split]|]].
    - intros (H1 & H2 & H3). split; [|split]; auto using add_key_NoDup.
    - apply add_key_incl.
    - apply incl_refl.
    - auto.
    - apply add_key_in. }
  destruct stmt as [|t sid|t|u ti sn so|t u|limit]; cbn [Cypher.exec recorded].
  - split; [auto|]. split; [apply grows_refl|exact I].
  - apply Hq.
  - apply Hq.
  - cbn [stmt_ok] in Hok. unfold store_ok, grows, texts.
    rewrite merge_source_urls, merge_source_queries.
    split; [|split; [split; [|split]|]].
    + intros (H1 & H2 & H3). split; [|split]; auto using add_key_NoDup.
      apply merge_source_not_blank; auto.
    + apply incl_refl.
    + apply add_key_incl.
    + intros s. apply merge_source_keeps_blank; auto.
    + apply add_key_in.
  - split; [|split; [|exact I]].
    + intros H; exact H.
    + exact (grows_refl d).
  - split; [auto|]. split; [apply grows_refl|exact I].
Qed.

(** A statement sent to the store: the store stays well-formed and only
    grows; when the statement returns, its key is on record. *)
Lemma session_run_spec stmt g :
  stmt_ok stmt ->
  let r := session_run stmt g in
  driver (snd r) = driver g /\
  (store_ok (db g) -> store_ok (db (snd r))) /\
  grows (db g) (db (snd r)) /\
  (forall rows, fst r = Ret rows -> recorded stmt (db (snd r))).
Proof.
  intros Hok. cbv zeta. unfold session_run.
  destruct (exec_spec stmt (db g) Hok) as (Hs & Hg & Hrec).
  assert (Hadv : forall d, (store_ok d -> store_ok (Cypher.advance d)) /\
                           grows d (Cypher.advance d)).
  { intros d. split; [intros H; exact H | exact (grows_refl d)]. }
  assert (Hrun : driver g = driver g /\
                 (store_ok (db g) ->
                  store_ok (Cypher.advance (Cypher.exec stmt (db g)))) /\
                 grows (db g) (Cypher.advance (Cypher.exec stmt (db g))) /\
                 (forall rows : list (string * nat),
                     Ret (Cypher.rows stmt (db g)) = Ret rows ->
                     recorded stmt (Cypher.advance (Cypher.exec stmt (db g))))).
  { split; [reflexivity|]. split; [|split].
    - intros H. apply Hadv, Hs, H.
    - eapply grows_trans; [exact Hg | apply Hadv].
    - intros _ _. destruct stmt; exact Hrec. }
  destruct (db_faults (db g)) as [|[e|] fl]; cbn [fst snd driver db]; auto.
  split; [reflexivity|]. split; [|split].
  - intros H. apply Hadv, H.
  - apply Hadv.
  - intros; discriminate.
Qed.

(** *** The save operation *)

Lemma save_sources_spec q results :
  forall g,
    let r := save_sources q results g in
    driver (snd r) = driver g /\
    (store_ok (db g) -> store_ok (db (snd r))) /\
    grows (db g) (db (snd r)) /\
    (fst r = Ret tt ->
     forall x, In x results -> all_space (url x) = false ->
               In (url x) (urls (db (snd r)))).
Proof.
  induction results as [|x rest IH]; intros g; cbv zeta.
  - cbn. split; [reflexivity|]. split; [auto|]. split; [apply grows_refl|].
    intros _ y [].
  - destruct (save_sources q (x :: rest) g) as [o g'] eqn:Hrun. cbn [fst snd].
    cbn [save_sources] in Hrun. rewrite strip_truthy, negb_involutive in Hrun.
    destruct (all_space (url x)) eqn:Hx.
    + destruct (IH g) as (Hd & Hok & Hg & Hin).
      rewrite Hrun in Hd, Hok, Hg, Hin. cbn [fst snd] in Hd, Hok, Hg, Hin.
      split; [exact Hd|]. split; [exact Hok|]. split; [exact Hg|].
      intros Hr y [<-|Hy] Hny; [congruence|]. auto.
    + unfold bind at 1 in Hrun.
      pose proof (session_run_spec
                    (MergeSource (url x) (title x) (content x) (source x)) g Hx)
        as (Hd1 & Hok1 & Hg1 & Hrec1).
      destruct (session_run (MergeSource _ _ _ _) g) as [[rows1|e1] g1];
        cbn [fst snd] in *.
      2:{ injection Hrun as <- <-.
          split; [exact Hd1|]. split; [exact Hok1|]. split; [exact Hg1|].
          intros; discriminate. }
      specialize (Hrec1 rows1 eq_refl). cbn [recorded] in Hrec1.
      unfold bind at 1 in Hrun.
      pose proof (session_run_spec (MergeReferences q (url x)) g1 I)
        as (Hd2 & Hok2 & Hg2 & _).
      destruct (session_run (MergeReferences _ _) g1) as [[rows2|e2] g2];
        cbn [fst snd] in *.
      2:{ injection Hrun as <- <-.
          split; [congruence|]. split; [auto|].
          split; [eapply grows_trans; eauto|]. intros; discriminate. }
      destruct (IH g2) as (Hd & Hok & Hg & Hin).
      rewrite Hrun in Hd, Hok, Hg, Hin. cbn [fst snd] in Hd, Hok, Hg, Hin.
      split; [congruence|]. split; [auto|].
      split; [eapply grows_trans; [exact Hg1|]; eapply grows_trans; eauto|].
      intros Hr y [<-|Hy] Hny; [|auto].
      apply Hg. apply Hg2. exact Hrec1.
Qed.

Lemma save_spec E q results sid g :
  let r := save_query_and_sources E q results sid g in
  driver (snd r) = driver g /\
  (store_ok (db g) -> store_ok (db (snd r))) /\
  grows (db g) (db (snd r)) /\
  (NEO4J_AVAILABLE E = true -> fst r = Ret tt ->
   In q (texts (db (snd r))) /\
   forall x, In x results -> all_space (url x) = false ->
             In (url x) (urls (db (snd r)))).
Proof.
  cbv zeta.
  destruct (save_query_and_sources E q results sid g) as [o g'] eqn:Hrun.
  cbn [fst snd]. unfold save_query_and_sources in Hrun.
  destruct (NEO4J_AVAILABLE E); cbn [negb] in Hrun.
  2:{ injection Hrun as <- <-.
      split; [reflexivity|]. split; [auto|]. split; [apply grows_refl|].
      intros; discriminate. }
  destruct (driver g) eqn:Hdrv; cbn [negb] in Hrun.
  2:{ injection Hrun as <- <-.
      split; [exact Hdrv|]. split; [auto|]. split; [apply grows_refl|].
      intros; discriminate. }
  rewrite try_except_reraise in Hrun. unfold bind at 1 in Hrun.
  set (stmt := match sid with
               | Some s => if Py.truthy s then MergeQuerySession q s else MergeQuery q
               | None => MergeQuery q
               end).
  assert (Hstmt : (match sid with
                   | Some s => if Py.truthy s then session_run (MergeQuerySession q s)
                               else session_run (MergeQuery q)
                   | None => session_run (MergeQuery q)
                   end) g = session_run stmt g).
  { subst stmt. destruct sid as [s|]; [destruct (Py.truthy s)|]; reflexivity. }
  rewrite Hstmt in Hrun.
  assert (Hok : stmt_ok stmt)
    by (subst stmt; destruct sid as [s|]; [destruct (Py.truthy s)|]; exact I).
  assert (Hrecd : forall d, recorded stmt d -> In q (texts d))
    by (subst stmt; destruct sid as [s|]; [destruct (Py.truthy s)|]; auto).
  pose proof (session_run_spec stmt g Hok) as (Hd1 & Hok1 & Hg1 & Hrec1).
  destruct (session_run stmt g) as [[rows1|e1] g1]; cbn [fst snd] in *.
  2:{ injection Hrun as <- <-.
      split; [congruence|]. split; [exact Hok1|]. split; [exact Hg1|].
      intros; discriminate. }
  destruct (save_sources_spec q results g1) as (Hd & Hk & Hg & Hin).
  rewrite Hrun in Hd, Hk, Hg, Hin. cbn [fst snd] in Hd, Hk, Hg, Hin.
  split; [congruence|]. split; [auto|].
  split; [eapply grows_trans; eauto|].
  intros _ Hr. split; [|auto].
  apply Hg. apply Hrecd. apply (Hrec1 rows1 eq_refl).
Qed.

Lemma run_call_spec E c g :
  (store_ok (db g) -> store_ok (db (run_call E c g))) /\
  grows (db g) (db (run_call E c g)).
Proof.
  destruct c as [|q results sid|limit]; cbn [run_call].
  - destruct (connect E g) as [o g'] eqn:Hrun. cbn [snd].
    unfold connect in Hrun. destruct (NEO4J_AVAILABLE E); cbn [negb] in Hrun.
    + rewrite try_except_reraise in Hrun. unfold bind at 1 in Hrun.
      pose proof (session_run_spec ReturnOne (mk_GraphState true (db g)) I)
        as (_ & Hok & Hg & _).
      unfold bind at 1 in Hrun.
      destruct (session_run ReturnOne _) as [[rows|e] g1]; cbn [fst snd db] in *;
        injection Hrun as <- <-; split; auto.
    + injection Hrun as <- <-. split; [auto | apply grows_refl].
  - destruct (save_spec E q results sid g) as (_ & Hok & Hg & _). split; auto.
  - destruct (get_query_history E limit g) as [o g'] eqn:Hrun. cbn [snd].
    unfold get_query_history in Hrun.
    destruct (NEO4J_AVAILABLE E); cbn [negb] in Hrun.
    + destruct (driver g); cbn [negb] in Hrun.
      * rewrite try_except_reraise in Hrun.
        pose proof (session_run_spec (RecentQueries limit) g I) as (_ & Hok & Hg & _).
        rewrite Hrun in Hok, Hg. split; auto.
      * injection Hrun as <- <-. split; [auto | apply grows_refl].
    + injection Hrun as <- <-. split; [auto | apply grows_refl].
Qed.

Lemma run_calls_spec E cs :
  forall g,
    (store_ok (db g) -> store_ok (db (run_calls E cs g))) /\
    grows (db g) (db (run_calls E cs g)).
Proof.
  induction cs as [|c cs IH]; intros g; cbn [run_calls fold_left].
  - split; [auto | apply grows_refl].
  - destruct (run_call_spec E c g) as (Hok & Hg).
    destruct (IH (run_call E c g)) as (Hok' & Hg').
    split; [auto | eapply grows_trans; eauto].
Qed.

(** *** Counting records *)

Lemma filter_key_none {A} (f : A -> string) k l :
  ~ In k (map f l) -> filter (fun a => f a =? k) l = [].
Proof.
  induction l as [|a l IH]; simpl; auto.
  intros H. destruct (String.eqb_spec (f a) k) as [He|He].
  - exfalso; auto.
  - apply IH. intros Hin; auto.
Qed.

Lemma filter_key_one {A} (f : A -> string) k l :
  NoDup (map f l) -> In k (map f l) ->
  length (filter (fun a => f a =? k) l) = 1.
Proof.
  induction l as [|a l IH]; simpl; [intros _ []|].
  intros Hnd Hin. inversion Hnd as [|? ? Hnotin Hnd']; subst.
  destruct (String.eqb_spec (f a) k) as [He|He].
  - subst k. rewrite filter_key_none by exact Hnotin. reflexivity.
  - destruct Hin as [Hin|Hin]; [contradiction|]. auto.
Qed.

(** C5 -- In a store whose records are unique by key (the empty store is
    one), whatever calls come before and between: after two save calls with
    the same query text the store is still of that kind and holds no source
    record with an empty URL; and when both calls return, in the presence of
    the Neo4j package, there is one query record with that text and, for
    every result URL that is not blank, one source record with that URL,
    however many results carried it. *)
Theorem C5_records_merge (E : Env) (g0 : GraphState)
    (before between : list service_call) (q : string)
    (rs1 rs2 : list SearchResult) (sid1 sid2 : option string) :
  store_ok (db g0) ->
  let r1 := save_query_and_sources E q rs1 sid1 (run_calls E before g0) in
  let r2 := save_query_and_sources E q rs2 sid2 (run_calls E between (snd r1)) in
  (store_ok (db (snd r2)) /\ source_records (db (snd r2)) "" = []) /\
  (NEO4J_AVAILABLE E = true -> fst r1 = Ret tt -> fst r2 = Ret tt ->
   length (query_records (db (snd r2)) q) = 1 /\
   forall x, In x (rs1 ++ rs2) -> all_space (url x) = false ->
             length (source_records (db (snd r2)) (url x)) = 1).
Proof.
  intros H0 r1 r2.
  destruct (run_calls_spec E before g0) as (Hok0 & _).
  destruct (save_spec E q rs1 sid1 (run_calls E before g0)) as (_ & Hok1 & _ & Hin1).
  fold r1 in Hok1, Hin1.
  destruct (run_calls_spec E between (snd r1)) as (Hok2 & Hg2).
  destruct (save_spec E q rs2 sid2 (run_calls E between (snd r1)))
    as (_ & Hok3 & Hg3 & Hin3).
  fold r2 in Hok3, Hg3, Hin3.
  assert (Hfinal : store_ok (db (snd r2))) by auto.
  destruct Hfinal as (Hnt & Hnu & Hnb).
  split.
  - split; [repeat split; assumption|].
    unfold source_records. apply filter_key_none.
    intros Hin. apply in_map_iff in Hin. destruct Hin as (s & Hs & Hin).
    rewrite Forall_forall in Hnb. specialize (Hnb s Hin). rewrite Hs in Hnb.
    discriminate.
  - intros Ha Hr1 Hr2.
    destruct (Hin1 Ha Hr1) as (_ & Hu1). destruct (Hin3 Ha Hr2) as (Hq3 & Hu3).
    split.
    + unfold query_records. apply (filter_key_one q_text); assumption.
    + intros x Hx Hnb'. unfold source_records. apply (filter_key_one s_url); auto.
      apply in_app_or in Hx. destruct Hx as [Hx|Hx]; [|auto].
      apply Hg3, Hg2. auto.
Qed.

Lemma save_sources_skips_blank q results g :
  save_sources q results g
  = save_sources q (filter (fun x => negb (all_space (url x))) results) g.
Proof.
  revert g. induction results as [|x rest IH]; intros g; [reflexivity|].
  cbn [save_sources filter]. rewrite strip_truthy.
  destruct (all_space (url x)) eqn:Hx; cbn [negb]; [apply IH|].
  cbn [save_sources]. rewrite strip_truthy, Hx. cbn [negb].
  unfold bind.
  destruct (session_run (MergeSource _ _ _ _) g) as [[rows1|e1] g1]; [|reflexivity].
  destruct (session_run (MergeReferences _ _) g1) as [[rows2|e2] g2]; [|reflexivity].
  apply IH.
Qed.

Lemma session_run_merge_query_frame stmt g :
  (stmt = ReturnOne \/ (exists t, stmt = MergeQuery t) \/
   exists t sid, stmt = MergeQuerySession t sid) ->
  db_sources (db (snd (session_run stmt g))) = db_sources (db g) /\
  db_refs (db (snd (session_run stmt g))) = db_refs (db g).
Proof.
  intros Hs. unfold session_run.
  assert (He : db_sources (Cypher.exec stmt (db g)) = db_sources (db g) /\
               db_refs (Cypher.exec stmt (db g)) = db_refs (db g)).
  { destruct Hs as [->|[(t & ->)|(t & sid & ->)]]; cbn [Cypher.exec];
      auto using merge_query_sources. }
  destruct (db_faults (db g)) as [|[e|] fl]; cbn [snd db]; auto.
Qed.

(** C9 -- The save operation has the same outcome and leaves the same store
    as if the results whose URL consists of whitespace only (the empty URL
    among them) had not been passed: no source record with such a URL is
    created or updated, and when every result is of that kind the source
    records and the references relationships are left as they were. *)
Theorem C9_blank_urls_skipped (E : Env) (q : string) (results : list SearchResult)
    (sid : option string) (g : GraphState) :
  let r := save_query_and_sources E q results sid g in
  r = save_query_and_sources E q
        (filter (fun x => negb (all_space (url x))) results) sid g /\
  (forall s, In s (db_sources (db (snd r))) -> all_space (s_url s) = true ->
             In s (db_sources (db g))) /\
  ((forall x, In x results -> all_space (url x) = true) ->
   db_sources (db (snd r)) = db_sources (db g) /\
   db_refs (db (snd r)) = db_refs (db g)).
Proof.
  cbv zeta.
  assert (Heq : save_query_and_sources E q results sid g
                = save_query_and_sources E q
                    (filter (fun x => negb (all_space (url x))) results) sid g).
  { unfold save_query_and_sources.
    destruct (NEO4J_AVAILABLE E); cbn [negb]; [|reflexivity].
    destruct (driver g); cbn [negb]; [|reflexivity].
    rewrite !try_except_reraise. unfold bind.
    destruct (match sid with
              | Some s => if Py.truthy s then session_run (MergeQuerySession q s)
                          else session_run (MergeQuery q)
              | None => session_run (MergeQuery q)
              end g) as [[rows|e] g1]; [|reflexivity].
    apply save_sources_skips_blank. }
  split; [exact Heq|]. split.
  - destruct (save_spec E q results sid g) as (_ & _ & (_ & _ & Hb) & _). exact Hb.
  - intros Hall. rewrite Heq.
    replace (filter (fun x => negb (all_space (url x))) results) with (@nil SearchResult).
    2:{ symmetry. clear -Hall. induction results as [|x rest IH]; [reflexivity|].
        cbn [filter]. rewrite (Hall x (in_eq _ _)). cbn [negb].
        apply IH. intros y Hy. apply Hall. right; exact Hy. }
    unfold save_query_and_sources.
    destruct (NEO4J_AVAILABLE E); cbn [negb]; [|auto].
    destruct (driver g); cbn [negb]; [|auto].
    rewrite try_except_reraise. unfold bind. cbn [save_sources].
    destruct sid as [s|]; [destruct (Py.truthy s)|].
    + pose proof (session_run_merge_query_frame (MergeQuerySession q s) g) as Hf.
      destruct (session_run (MergeQuerySession q s) g) as [[rows|e] g1];
        cbn [snd ret] in *; apply Hf; eauto.
    + pose proof (session_run_merge_query_frame (MergeQuery q) g) as Hf.
      destruct (session_run (MergeQuery q) g) as [[rows|e] g1];
        cbn [snd ret] in *; apply Hf; eauto.
    + pose proof (session_run_merge_query_frame (MergeQuery q) g) as Hf.
      destruct (session_run (MergeQuery q) g) as [[rows|e] g1];
        cbn [snd ret] in *; apply Hf; eauto.
Qed.

(* ===================================================================== *)
(** ** The properties at work on the sample worlds *)
(* ===================================================================== *)

Lemma C1_streaming_matches_search_witness :
  search Sample.env "rocq" "tavily" = Ret Sample.results /\
  never_raises accumulate /\
  (exists s' w',
      search_streaming Sample.env "rocq" "tavily" (Some (recording accumulate))
        ([], []) (Sample.world None None)
      = (Ret (s', Sample.results), w')) /\
  (exists w',
      search_streaming Sample.env "rocq" "tavily" (Some accumulate) []
        (Sample.world None None)
      = (Ret Sample.results, w')).
Proof.
  split; [reflexivity|]. split; [exact accumulate_never_raises|].
  destruct (C1_streaming_matches_search Sample.env "rocq" "tavily") as (Hret & _).
  destruct (Hret Sample.results eq_refl) as (Hrec & Hacc).
  split.
  - exact (Hrec _ accumulate accumulate_never_raises [] (Sample.world None None)).
  - exact (Hacc (Sample.world None None)).
Defined.



Lemma C5_records_merge_witness :
  store_ok Sample.empty_db /\
  let g0 := mk_GraphState false Sample.empty_db in
  let r1 := save_query_and_sources Sample.env "rocq" Sample.results (Some "s1")
              (run_calls Sample.env [CallConnect] g0) in
  let r2 := save_query_and_sources Sample.env "rocq" Sample.results None
              (run_calls Sample.env [CallHistory 5] (snd r1)) in
  fst r1 = Ret tt /\ fst r2 = Ret tt /\
  length (query_records (db (snd r2)) "rocq") = 1 /\
  length (source_records (db (snd r2)) "http://a") = 1 /\
  source_records (db (snd r2)) "" = [].
Proof.
  assert (H0 : store_ok Sample.empty_db).
  { split; [apply NoDup_nil|]. split; [apply NoDup_nil | apply Forall_nil]. }
  split; [exact H0|]. cbv zeta.
  split; [reflexivity|]. split; [reflexivity|].
  destruct (C5_records_merge Sample.env (mk_GraphState false Sample.empty_db)
              [CallConnect] [CallHistory 5] "rocq" Sample.results Sample.results
              (Some "s1") None H0) as ((_ & Hempty) & Hone).
  destruct (Hone eq_refl eq_refl eq_refl) as (Hq & Hu).
  split; [exact Hq|]. split; [|exact Hempty].
  exact (Hu (mk_SearchResult "T1" "http://a" "c1" "tavily")
            (or_intror (or_introl eq_refl)) eq_refl).
Defined.



Lemma C9_blank_urls_skipped_witness :
  let blank := [mk_SearchResult "Summary Answer" "" "forty-two" "tavily";
                mk_SearchResult "T2" "   " "c2" "tavily"] in
  let g := mk_GraphState true Sample.empty_db in
  (forall x, In x blank -> all_space (url x) = true) /\
  fst (save_query_and_sources Sample.env "rocq" blank None g) = Ret tt /\
  db_sources (db (snd (save_query_and_sources Sample.env "rocq" blank None g))) = [] /\
  db_refs (db (snd (save_query_and_sources Sample.env "rocq" blank None g))) = [].
Proof.
  cbv zeta.
  assert (Hall : forall x,
             In x [mk_SearchResult "Summary Answer" "" "forty-two" "tavily";
                   mk_SearchResult "T2" "   " "c2" "tavily"] ->
             all_space (url x) = true).
  { intros x [<-|[<-|[]]]; reflexivity. }
  split; [exact Hall|]. split; [reflexivity|].
  exact (proj2 (proj2 (C9_blank_urls_skipped Sample.env "rocq" _ None
                         (mk_GraphState true Sample.empty_db))) Hall).
Defined.

Lemma C10_registry_after_session_witness :
  let w := Sample.world (Some "rocq") None in
  fst (session_body Sample.env 0 "s1" (after_connect w 0 "s1")) = Ret tt /\
  Dict.get (active_connections (snd (websocket_stream_endpoint Sample.env 0 "s1" w)))
           "s1" = Some 0.
Proof.
  cbv zeta. split; [reflexivity|].
  exact (proj1 (proj2 (C10_registry_after_session Sample.env
                         (Sample.world (Some "rocq") None) 0 "s1")) tt eq_refl).
Defined.

(* ===================================================================== *)
(** ** Further properties: the search adapter *)
(* ===================================================================== *)

Lemma search_dispatch E query t :
  search E query t
  = if case_variant t "serper" then search_serper E query else search_tavily E query.
Proof. unfold search. rewrite lower_is_serper. reflexivity. Qed.

(** Every result that [search] returns carries the tag of the provider that
    the [search_type] selects: "serper" for a spelling of "serper", "tavily"
    for anything else; the summary answer and the related searches too. *)
Theorem search_results_tagged (E : Env) (query search_type : string)
    (results : list SearchResult) :
  search E query search_type = Ret results ->
  Forall (fun r => source r = provider_tag search_type) results.
Proof.
  rewrite search_dispatch. unfold provider_tag.
  destruct (case_variant search_type "serper").
  - unfold search_serper.
    destruct (post_serper E (SERPER_API_KEY E) query) as [resp|e]; [|discriminate].
    destruct (negb (status_code resp =? 200)%Z); [discriminate|].
    destruct (json resp) as [doc|e]; [|discriminate].
    intros H; injection H as <-.
    apply Forall_app; split; apply Forall_map, Forall_forall; reflexivity.
  - unfold search_tavily.
    destruct (post_tavily E (TAVILY_API_KEY E) query) as [resp|e]; [|discriminate].
    destruct (negb (status_code resp =? 200)%Z); [discriminate|].
    destruct (json resp) as [doc|e]; [|discriminate].
    intros H; injection H as <-.
    apply Forall_app; split; [|apply Forall_map, Forall_forall; reflexivity].
    destruct (tv_answer doc) as [a|]; [destruct (Py.truthy a)|]; repeat constructor.
Qed.

Lemma search_results_tagged_witness :
  search Sample.env "rocq" "Tavily" = Ret Sample.results /\
  Forall (fun r => source r = "tavily") Sample.results.
Proof.
  split; [reflexivity|].
  exact (search_results_tagged Sample.env "rocq" "Tavily" Sample.results eq_refl).
Defined.

(** Three ways in which [search] raises, and what it raises then: when the
    transport raises, the same exception; when the provider answers with a
    status other than 200, an [Exception] naming the provider, the status
    and the body, the body's JSON not being read; when the status is 200 and
    reading the JSON raises, that exception.  (What a document of another
    shape than the provider's does to the loop is not stated here.) *)
Theorem search_failures (E : Env) (query search_type : string) :
  match provider_answer E query search_type with
  | Raise e => search E query search_type = Raise e
  | Ret (status, body, parsed) =>
      if (status =? 200)%Z
      then forall e, parsed = Raise e -> search E query search_type = Raise e
      else search E query search_type
           = Raise (Exception (provider_name search_type ++ " API error: "
                               ++ Py.str_of_int status ++ " - " ++ body))
  end.
Proof.
  rewrite search_dispatch. unfold provider_answer, provider_name.
  destruct (case_variant search_type "serper").
  - unfold search_serper.
    destruct (post_serper E (SERPER_API_KEY E) query) as [resp|e0]; [|reflexivity].
    destruct (status_code resp =? 200)%Z; cbn [negb].
    + intros e He. destruct (json resp) as [doc|e1]; [discriminate|congruence].
    + unfold Exception. cbn [String.append]. reflexivity.
  - unfold search_tavily.
    destruct (post_tavily E (TAVILY_API_KEY E) query) as [resp|e0]; [|reflexivity].
    destruct (status_code resp =? 200)%Z; cbn [negb].
    + intros e He. destruct (json resp) as [doc|e1]; [discriminate|congruence].
    + unfold Exception. cbn [String.append]. reflexivity.
Qed.

(** A 503 from Serper, whose body is not even JSON; and a 200 from Tavily
    with a body that is not JSON. *)
Lemma search_failures_witness :
  search Sample.env "rocq" "serper" = Raise (Exception "Serper API error: 503 - down") /\
  search (mk_Env true "tk" "sk"
            (fun _ _ => Ret (mk_Response 200%Z "<html>"
                               (Raise (mk_exn OtherError "Expecting value"))))
            (fun _ _ => Ret Sample.serper_response)
            (fun _ => "0123456789abcdef0123456789abcdef0123"))
         "rocq" "tavily"
  = Raise (mk_exn OtherError "Expecting value").
Proof.
  split.
  - exact (search_failures Sample.env "rocq" "serper").
  - exact (search_failures
             (mk_Env true "tk" "sk"
                (fun _ _ => Ret (mk_Response 200%Z "<html>"
                                   (Raise (mk_exn OtherError "Expecting value"))))
                (fun _ _ => Ret Sample.serper_response)
                (fun _ => "0123456789abcdef0123456789abcdef0123"))
             "rocq" "tavily" (mk_exn OtherError "Expecting value") eq_refl).
Defined.

(** *** The loop of [search_streaming] *)

(** Streaming a list in two parts: the second part is streamed after the
    first, with the indices (and so the delays) going on; when the first part
    raises, nothing of the second part reaches the callback. *)
Theorem stream_results_app {C} (cb : option (@callback_t C))
    (l1 l2 : list SearchResult) :
  forall i s w,
    stream_results cb i (l1 ++ l2) s w
    = match stream_results cb i l1 s w with
      | (Ret s', w') => stream_results cb (i + length l1) l2 s' w'
      | (Raise e, w') => (Raise e, w')
      end.
Proof.
  induction l1 as [|r l1 IH]; intros i s w.
  - cbn. rewrite Nat.add_0_r. reflexivity.
  - cbn [app stream_results length]. unfold bind at 1 3.
    destruct (match cb with Some f => f r s | None => ret s end w) as [[s1|e] w1];
      [|reflexivity].
    unfold bind at 1 2. unfold sleep, record_call.
    rewrite IH. replace (i + S (length l1)) with (S i + length l1) by lia.
    reflexivity.
Qed.

(** Without a callback (the default) [search_streaming] only fetches and
    sleeps: once per result, with the indices 0, 1, 2, ... in this order;
    the closure state, the registry, the sockets and the store stay as they
    are. *)
Theorem search_streaming_no_callback (E : Env) {C} (query search_type : string)
    (results : list SearchResult) (s : C) (w : World) :
  search E query search_type = Ret results ->
  search_streaming E query search_type None s w
  = (Ret s,
     mk_World (active_connections w) (sockets w) (graph_service w) (uuid_calls w)
              (calls w ++ map Sleep (seq 0 (length results)))).
Proof.
  intros Hs. rewrite search_streaming_eq, Hs. clear Hs.
  generalize 0 as i. revert w.
  induction results as [|r rest IH]; intros w i.
  - cbn. rewrite app_nil_r. destruct w; reflexivity.
  - cbn [stream_results length seq map]. unfold bind, ret, sleep, record_call.
    rewrite IH. cbn [active_connections sockets graph_service uuid_calls calls].
    rewrite <- app_assoc. reflexivity.
Qed.

Lemma search_streaming_no_callback_witness :
  search Sample.env "rocq" "tavily" = Ret Sample.results /\
  search_streaming Sample.env "rocq" "tavily" None tt (Sample.world None None)
  = (Ret tt,
     mk_World [] [Sample.socket None None] (mk_GraphState false Sample.empty_db) 0
              [Sleep 0; Sleep 1; Sleep 2; Sleep 3]).
Proof.
  split; [reflexivity|].
  exact (search_streaming_no_callback Sample.env "rocq" "tavily" Sample.results tt
           (Sample.world None None) eq_refl).
Defined.

(* ===================================================================== *)
(** ** Further properties: the connection registry *)
(* ===================================================================== *)

Lemma dict_get_set_other {V} (d : list (string * V)) k k' v :
  k' <> k -> Dict.get (Dict.set d k v) k' = Dict.get d k'.
Proof.
  intros Hk. induction d as [|[k0 v0] d IH]; simpl.
  - destruct (String.eqb_spec k k'); [congruence|reflexivity].
  - destruct (String.eqb_spec k0 k) as [->|Hne]; simpl.
    + destruct (String.eqb_spec k k'); [congruence|reflexivity].
    + destruct (k0 =? k'); auto.
Qed.

Lemma dict_get_del_other {V} (d : list (string * V)) k k' :
  k' <> k -> Dict.get (Dict.del d k) k' = Dict.get d k'.
Proof.
  intros Hk. unfold Dict.del. induction d as [|[k0 v0] d IH]; simpl; auto.
  destruct (String.eqb_spec k0 k) as [->|Hne]; simpl.
  - destruct (String.eqb_spec k k'); [congruence|exact IH].
  - destruct (k0 =? k'); auto.
Qed.

Lemma dict_get_in_keys {V} (d : list (string * V)) k :
  Dict.get d k = None <-> ~ In k (map fst d).
Proof.
  induction d as [|[k0 v0] d IH]; simpl.
  - split; auto.
  - destruct (String.eqb_spec k0 k) as [->|Hne].
    + split; [discriminate | intros H; exfalso; auto].
    + rewrite IH. split; intros H; [intros [?|?]; auto | auto].
Qed.

Lemma dict_keys_set {V} (d : list (string * V)) k v :
  map fst (Dict.set d k v)
  = if Dict.mem d k then map fst d else (map fst d ++ [k])%list.
Proof.
  unfold Dict.mem. induction d as [|[k0 v0] d IH]; simpl; auto.
  destruct (String.eqb_spec k0 k) as [->|Hne]; simpl; auto.
  rewrite IH. destruct (Dict.get d k); reflexivity.
Qed.

Lemma dict_del_absent {V} (d : list (string * V)) k :
  Dict.get d k = None -> Dict.del d k = d.
Proof.
  unfold Dict.del. induction d as [|[k0 v0] d IH]; simpl; auto.
  destruct (String.eqb_spec k0 k) as [->|Hne]; [discriminate|].
  simpl. intros H. rewrite IH; auto.
Qed.

Lemma dict_keys_del {V} (d : list (string * V)) k :
  NoDup (map fst d) -> NoDup (map fst (Dict.del d k)).
Proof.
  unfold Dict.del. induction d as [|[k0 v0] d IH]; simpl; auto.
  intros H. inversion H as [|? ? Hn Hd]; subst.
  destruct (k0 =? k); simpl; auto.
  constructor; auto. intros Hin. apply Hn.
  apply in_map_iff in Hin. destruct Hin as (x & Hx & Hin).
  apply filter_In in Hin. apply in_map_iff. exists x. tauto.
Qed.

(** [connect] stores the channel under the session-id in place of any
    channel stored there before, leaves every other session-id with its
    channel, keeps the keys of the registry unique, lets the registry grow
    by one entry only when the session-id is new, and marks the socket as
    accepted. *)
Theorem connect_registers (ws : nat) (sid : string) (w : World) :
  let r := ConnectionManager.connect ws sid w in
  fst r = Ret tt /\
  Dict.get (active_connections (snd r)) sid = Some ws /\
  (forall sid', sid' <> sid ->
     Dict.get (active_connections (snd r)) sid' = Dict.get (active_connections w) sid') /\
  (unique_keys (active_connections w) -> unique_keys (active_connections (snd r))) /\
  length (active_connections (snd r))
  = (if Dict.mem (active_connections w) sid
     then length (active_connections w)
     else S (length (active_connections w))) /\
  (ws < length (sockets w) -> sk_accepted (socket_at (snd r) ws) = true).
Proof.
  cbv zeta.
  change (ConnectionManager.connect ws sid w) with (Ret tt, after_connect w ws sid).
  unfold after_connect, set_active_connections, set_socket.
  cbn [fst snd active_connections sockets].
  split; [reflexivity|]. split; [apply dict_get_set|].
  split; [intros; apply dict_get_set_other; assumption|].
  split; [|split].
  - unfold unique_keys. rewrite dict_keys_set. intros Hnd.
    destruct (Dict.mem (active_connections w) sid) eqn:Hm; auto.
    apply NoDup_app; auto.
    + repeat constructor; auto.
    + intros x Hx [Heq|[]]. subst x. unfold Dict.mem in Hm.
      destruct (Dict.get (active_connections w) sid) eqn:Hg; [discriminate|].
      apply dict_get_in_keys in Hg. contradiction.
  - rewrite <- (length_map fst (Dict.set _ _ _)), dict_keys_set.
    destruct (Dict.mem (active_connections w) sid);
      rewrite ?length_app, length_map; simpl; lia.
  - intros Hr. unfold socket_at at 1. cbn [sockets].
    rewrite nth_list_set_same by exact Hr. reflexivity.
Qed.

Lemma connect_registers_witness :
  7 < length (sockets (mk_World [("s1", 3)] (repeat no_socket 8)
                                Demo.connected 0 [])) /\
  let r := ConnectionManager.connect 7 "s1"
             (mk_World [("s1", 3)] (repeat no_socket 8) Demo.connected 0 []) in
  active_connections (snd r) = [("s1", 7)] /\
  sk_accepted (socket_at (snd r) 7) = true.
Proof.
  assert (Hr : 7 < length (sockets (mk_World [("s1", 3)] (repeat no_socket 8)
                                             Demo.connected 0 [])))
    by (cbn; lia).
  split; [exact Hr|]. cbv zeta. split; [reflexivity|].
  destruct (connect_registers 7 "s1"
              (mk_World [("s1", 3)] (repeat no_socket 8) Demo.connected 0 []))
    as (_ & _ & _ & _ & _ & Hacc).
  exact (Hacc Hr).
Defined.

(** [disconnect] removes the entry of the session-id and no other, keeps the
    keys unique, touches no socket (the channel is not closed), and is
    idempotent: on a session-id that is not registered it changes nothing. *)
Theorem disconnect_removes (sid : string) (w : World) :
  let r := ConnectionManager.disconnect sid w in
  fst r = Ret tt /\
  Dict.get (active_connections (snd r)) sid = None /\
  (forall sid', sid' <> sid ->
     Dict.get (active_connections (snd r)) sid' = Dict.get (active_connections w) sid') /\
  (unique_keys (active_connections w) -> unique_keys (active_connections (snd r))) /\
  sockets (snd r) = sockets w /\
  (Dict.get (active_connections w) sid = None -> r = (Ret tt, w)) /\
  ConnectionManager.disconnect sid (snd r) = (Ret tt, snd r).
Proof.
  cbv zeta.
  destruct (disconnect_frame sid w) as (Ho & Hs & _ & _ & Ha).
  split; [exact Ho|]. split; [rewrite Ha; apply dict_get_del|].
  split; [intros; rewrite Ha; apply dict_get_del_other; assumption|].
  split; [rewrite Ha; apply dict_keys_del|].
  split; [exact Hs|].
  assert (Habs : forall w0, Dict.get (active_connections w0) sid = None ->
                            ConnectionManager.disconnect sid w0 = (Ret tt, w0)).
  { intros w0 H. unfold ConnectionManager.disconnect, Dict.mem. rewrite H. reflexivity. }
  split; [apply Habs|].
  apply Habs. rewrite Ha. apply dict_get_del.
Qed.

Lemma disconnect_removes_witness :
  Dict.get (active_connections Demo.three_channels) "z" = None /\
  ConnectionManager.disconnect "z" Demo.three_channels = (Ret tt, Demo.three_channels) /\
  active_connections (snd (ConnectionManager.disconnect "b" Demo.three_channels))
  = [("a", 0); ("c", 2)].
Proof.
  split; [reflexivity|]. split; [|reflexivity].
  destruct (disconnect_removes "z" Demo.three_channels)
    as (_ & _ & _ & _ & _ & Habs & _).
  exact (Habs eq_refl).
Defined.

Lemma nth_list_set_diff {A} (l : list A) i j x d :
  i <> j -> nth j (list_set l i x) d = nth j l d.
Proof.
  revert i j; induction l as [|y l IH]; intros [|i] [|j] Hij; simpl; auto;
    try contradiction.
Qed.

Lemma socket_at_set_socket_diff w ws a s :
  ws <> a -> socket_at (set_socket w ws s) a = socket_at w a.
Proof. intros H. unfold socket_at, set_socket; simpl. apply nth_list_set_diff, H. Qed.

(** A message addressed to a session-id that is not registered is dropped
    without an attempt to write, whatever the sockets would do; this is so
    in particular once [disconnect] ran for that session-id. *)
Theorem send_personal_message_unregistered (m : message) (sid : string) (w : World) :
  (Dict.get (active_connections w) sid = None ->
   ConnectionManager.send_personal_message m sid w = (Ret tt, w)) /\
  ConnectionManager.send_personal_message m sid
    (snd (ConnectionManager.disconnect sid w))
  = (Ret tt, snd (ConnectionManager.disconnect sid w)).
Proof.
  assert (H : forall w0, Dict.get (active_connections w0) sid = None ->
                         ConnectionManager.send_personal_message m sid w0 = (Ret tt, w0)).
  { intros w0 Hg. unfold ConnectionManager.send_personal_message. rewrite Hg.
    reflexivity. }
  split; [apply H|]. apply H.
  destruct (disconnect_frame sid w) as (_ & _ & _ & _ & Ha).
  rewrite Ha. apply dict_get_del.
Qed.

Lemma send_personal_message_unregistered_witness :
  Dict.get (active_connections Demo.three_channels) "z" = None /\
  ConnectionManager.send_personal_message (status_event "ping") "z" Demo.three_channels
  = (Ret tt, Demo.three_channels) /\
  fst (ConnectionManager.send_personal_message (status_event "ping") "b"
         Demo.three_channels) = Raise Sample.disconnected.
Proof.
  split; [reflexivity|]. split; [|reflexivity].
  exact (proj1 (send_personal_message_unregistered (status_event "ping") "z"
                  Demo.three_channels) eq_refl).
Defined.

(** A session-id connected twice: a message addressed to it is written to
    the channel connected last, which receives it when its transport accepts
    the write, and the channel connected first receives nothing. *)
Theorem send_personal_message_latest_channel (m : message) (sid : string)
    (ws1 ws2 : nat) (w : World) :
  ws1 <> ws2 ->
  ws2 < length (sockets w) ->
  hd None (sk_faults (socket_at w ws2)) = None ->
  let w2 := snd ((ConnectionManager.connect ws1 sid ;;;
                  ConnectionManager.connect ws2 sid) w) in
  let r := ConnectionManager.send_personal_message m sid w2 in
  fst r = Ret tt /\
  sk_wire (socket_at (snd r) ws2) = (sk_wire (socket_at w ws2) ++ [m])%list /\
  sk_wire (socket_at (snd r) ws1) = sk_wire (socket_at w ws1) /\
  Dict.get (active_connections (snd r)) sid = Some ws2.
Proof.
  intros Hne Hr Hhd. cbv zeta.
  change (snd ((ConnectionManager.connect ws1 sid ;;;
                ConnectionManager.connect ws2 sid) w))
    with (after_connect (after_connect w ws1 sid) ws2 sid).
  set (w1 := after_connect w ws1 sid).
  assert (Hr1 : ws2 < length (sockets w1)).
  { unfold w1, after_connect. cbn [sockets set_active_connections set_socket].
    rewrite length_list_set. exact Hr. }
  assert (Hs2 : socket_at w1 ws2 = socket_at w ws2).
  { unfold w1, after_connect.
    change (socket_at (set_active_connections ?x ?c) ws2) with (socket_at x ws2).
    apply socket_at_set_socket_diff, Hne. }
  destruct (ConnectionManager.send_personal_message m sid (after_connect w1 ws2 sid))
    as [o w3] eqn:Hrun. cbn [fst snd].
  unfold ConnectionManager.send_personal_message in Hrun.
  unfold after_connect at 1 in Hrun.
  cbn [active_connections set_active_connections] in Hrun.
  rewrite dict_get_set in Hrun.
  unfold after_connect, set_active_connections, set_socket in Hrun.
  cbn [active_connections sockets graph_service uuid_calls calls] in Hrun.
  rewrite Hs2 in Hrun.
  rewrite send_text_delivered in Hrun by (auto; exact Hhd).
  injection Hrun as <- <-.
  cbn [sk_accepted sk_inbox sk_faults sk_wire active_connections].
  rewrite socket_at_mk by exact Hr1.
  split; [reflexivity|]. split; [reflexivity|]. split; [|apply dict_get_set].
  unfold socket_at at 1. cbn [sockets].
  rewrite nth_list_set_diff by (intros H; apply Hne; symmetry; exact H).
  change (nth ws1 (sockets w1) no_socket) with (socket_at w1 ws1).
  apply (after_connect_wire w ws1 sid).
Qed.

Lemma send_personal_message_latest_channel_witness :
  let w := mk_World [] [mk_Socket false [] [] []; mk_Socket false [] [] []]
                    Demo.connected 0 [] in
  let w2 := snd ((ConnectionManager.connect 0 "s1" ;;;
                  ConnectionManager.connect 1 "s1") w) in
  let r := ConnectionManager.send_personal_message (status_event "ping") "s1" w2 in
  0 <> 1 /\ 1 < length (sockets w) /\
  sk_wire (socket_at (snd r) 1) = [status_event "ping"] /\
  sk_wire (socket_at (snd r) 0) = [].
Proof.
  cbv zeta. split; [discriminate|]. split; [cbn; lia|].
  destruct (send_personal_message_latest_channel (status_event "ping") "s1" 0 1
              (mk_World [] [mk_Socket false [] [] []; mk_Socket false [] [] []]
                        Demo.connected 0 []))
    as (_ & H2 & H1 & _); [discriminate | cbn; lia | reflexivity |].
  split; [exact H2 | exact H1].
Defined.

(** *** Broadcast *)

Lemma send_text_healthy ws m w :
  healthy (socket_at w ws) ->
  send_text ws m w
  = (Ret tt,
     set_socket w ws
       (mk_Socket (sk_accepted (socket_at w ws)) (sk_inbox (socket_at w ws))
                  (tl (sk_faults (socket_at w ws)))
                  (sk_wire (socket_at w ws) ++ [m]))).
Proof.
  intros H. unfold send_text.
  pose proof (healthy_hd _ H) as Hhd.
  destruct (sk_faults (socket_at w ws)) as [|[e|] fl]; cbn [hd] in Hhd;
    try discriminate; reflexivity.
Qed.

Lemma registrations_cons cid ws pre a :
  registrations ((cid, ws) :: pre) a
  = if Nat.eq_dec ws a then S (registrations pre a) else registrations pre a.
Proof. unfold registrations. cbn [map snd count_occ]. reflexivity. Qed.

(** The entries visited while every write is delivered: each socket has
    received one frame per entry that holds it, and the loop goes on with the
    entries that are left. *)
Lemma broadcast_loop_prefix m pre :
  forall rest w used,
    length (active_connections w) = used ->
    (forall cid a, In (cid, a) pre ->
                   a < length (sockets w) /\ healthy (socket_at w a)) ->
    exists w',
      ConnectionManager.broadcast_loop used (pre ++ rest) m w
      = ConnectionManager.broadcast_loop used rest m w' /\
      active_connections w' = active_connections w /\
      graph_service w' = graph_service w /\
      calls w' = calls w /\
      length (sockets w') = length (sockets w) /\
      forall a,
        socket_at w' a
        = mk_Socket (sk_accepted (socket_at w a)) (sk_inbox (socket_at w a))
                    (skipn (registrations pre a) (sk_faults (socket_at w a)))
                    (sk_wire (socket_at w a) ++ repeat m (registrations pre a)).
Proof.
  induction pre as [|[cid ws] pre IH]; intros rest w used Hu Hpre.
  - exists w. repeat split; auto.
    intros a. cbn. rewrite app_nil_r. destruct (socket_at w a); reflexivity.
  - destruct (Hpre cid ws (in_eq _ _)) as (Hr & Hh).
    set (w1 := set_socket w ws
                 (mk_Socket (sk_accepted (socket_at w ws)) (sk_inbox (socket_at w ws))
                            (tl (sk_faults (socket_at w ws)))
                            (sk_wire (socket_at w ws) ++ [m]))).
    assert (Hstep : ConnectionManager.broadcast_loop used (((cid, ws) :: pre) ++ rest) m w
                    = ConnectionManager.broadcast_loop used (pre ++ rest) m w1).
    { cbn [app ConnectionManager.broadcast_loop].
      rewrite Hu, Nat.eqb_refl. cbn [negb].
      unfold bind at 1. unfold try_except at 1.
      rewrite (send_text_healthy ws m w Hh). reflexivity. }
    assert (Hat : forall a, socket_at w1 a
                            = if Nat.eq_dec ws a
                              then mk_Socket (sk_accepted (socket_at w a))
                                     (sk_inbox (socket_at w a))
                                     (tl (sk_faults (socket_at w a)))
                                     (sk_wire (socket_at w a) ++ [m])
                              else socket_at w a).
    { intros a. unfold w1. destruct (Nat.eq_dec ws a) as [<-|Hne].
      - apply socket_at_set_socket, Hr.
      - apply socket_at_set_socket_diff, Hne. }
    destruct (IH rest w1 used) as (w' & Hrun & Ha & Hg & Hc & Hl & Hsock).
    + exact Hu.
    + intros c a Hin. destruct (Hpre c a (or_intror Hin)) as (Hra & Hha).
      split.
      * unfold w1, set_socket. cbn [sockets]. rewrite length_list_set. exact Hra.
      * rewrite Hat. destruct (Nat.eq_dec ws a) as [<-|Hne]; [|exact Hha].
        apply healthy_tl. exact Hh.
    + exists w'. split; [rewrite Hstep; exact Hrun|].
      split; [exact Ha|]. split; [exact Hg|]. split; [exact Hc|].
      split; [rewrite Hl; unfold w1, set_socket; cbn [sockets];
              apply length_list_set|].
      intros a. rewrite Hsock, Hat, registrations_cons.
      destruct (Nat.eq_dec ws a) as [<-|Hne]; [|reflexivity].
      cbn [sk_accepted sk_inbox sk_faults sk_wire repeat].
      rewrite <- skipn_S_tl, <- app_assoc. reflexivity.
Qed.

(** When every registered channel lives on the heap and delivers its writes,
    [broadcast] returns, the registry is as it was, and each socket has
    received the message once per session-id it is registered under. *)
Theorem broadcast_delivers_to_all (m : message) (w : World) :
  (forall cid a, In (cid, a) (active_connections w) ->
                 a < length (sockets w) /\ healthy (socket_at w a)) ->
  let r := ConnectionManager.broadcast m w in
  fst r = Ret tt /\
  active_connections (snd r) = active_connections w /\
  forall a,
    sk_wire (socket_at (snd r) a)
    = (sk_wire (socket_at w a)
       ++ repeat m (registrations (active_connections w) a))%list.
Proof.
  intros Hall. cbv zeta. unfold ConnectionManager.broadcast.
  destruct (broadcast_loop_prefix m (active_connections w) [] w
              (length (active_connections w)) eq_refl Hall)
    as (w' & Hrun & Ha & _ & _ & _ & Hsock).
  rewrite app_nil_r in Hrun. rewrite Hrun.
  cbn [ConnectionManager.broadcast_loop]. rewrite Ha, Nat.eqb_refl. cbn [negb fst snd].
  split; [reflexivity|]. split; [exact Ha|].
  intros a. rewrite Hsock. reflexivity.
Qed.

Lemma broadcast_delivers_to_all_witness :
  (forall cid a, In (cid, a) (active_connections Demo.shared_channel) ->
                 a < length (sockets Demo.shared_channel) /\
                 healthy (socket_at Demo.shared_channel a)) /\
  fst (ConnectionManager.broadcast (status_event "ping") Demo.shared_channel) = Ret tt /\
  sk_wire (socket_at (snd (ConnectionManager.broadcast (status_event "ping")
                             Demo.shared_channel)) 0)
  = [status_event "ping"; status_event "ping"].
Proof.
  assert (Hall : forall cid a,
             In (cid, a) (active_connections Demo.shared_channel) ->
             a < length (sockets Demo.shared_channel) /\
             healthy (socket_at Demo.shared_channel a)).
  { intros cid a [H|[H|[H|[]]]]; injection H as <- <-;
      (split; [cbn; lia|]); unfold healthy; cbn; repeat constructor. }
  split; [exact Hall|].
  destruct (broadcast_delivers_to_all (status_event "ping") Demo.shared_channel Hall)
    as (Ho & _ & Hw).
  split; [exact Ho | exact (Hw 0)].
Defined.

Lemma dict_del_shorter {V} (d : list (string * V)) k :
  In k (map fst d) -> length (Dict.del d k) < length d.
Proof.
  unfold Dict.del. induction d as [|[k0 v0] d IH]; simpl; [intros []|].
  intros [Hk|Hin].
  - subst k0. rewrite String.eqb_refl. cbn [negb].
    pose proof (filter_length_le (fun kv : string * V => negb (fst kv =? k)) d). lia.
  - specialize (IH Hin). destruct (negb (k0 =? k)); simpl; lia.
Qed.

Lemma unhealthy_not_registered (w : World) pre ws e fl :
  (forall cid a, In (cid, a) pre ->
                 a < length (sockets w) /\ healthy (socket_at w a)) ->
  sk_faults (socket_at w ws) = Some e :: fl ->
  registrations pre ws = 0.
Proof.
  intros Hpre Hf. unfold registrations. apply count_occ_not_In.
  intros Hin. apply in_map_iff in Hin. destruct Hin as ([cid a] & Ha & Hin).
  cbn in Ha. subst a. destruct (Hpre cid ws Hin) as (_ & Hh).
  unfold healthy in Hh. rewrite Hf in Hh. inversion Hh; discriminate.
Qed.

(** The first channel whose write fails ends [broadcast]: the channels
    visited before it have received the message, no channel after it is
    written, and [broadcast] raises.  When the failure is a disconnect the
    entry is removed and the exception is the dict iterator's
    [RuntimeError]; any other exception is passed on and the registry is
    left as it was. *)
Theorem broadcast_stops_at_failure (m : message) (w : World)
    (pre post : list (string * nat)) (cid : string) (ws : nat)
    (e : exn) (fl : list (option exn)) :
  active_connections w = (pre ++ (cid, ws) :: post)%list ->
  (forall c a, In (c, a) pre ->
               a < length (sockets w) /\ healthy (socket_at w a)) ->
  sk_faults (socket_at w ws) = Some e :: fl ->
  let r := ConnectionManager.broadcast m w in
  fst r = Raise (if is_WebSocketDisconnect e
                 then mk_exn RuntimeError "dictionary changed size during iteration"
                 else e) /\
  active_connections (snd r)
  = (if is_WebSocketDisconnect e
     then Dict.del (active_connections w) cid
     else active_connections w) /\
  forall a,
    sk_wire (socket_at (snd r) a)
    = (sk_wire (socket_at w a) ++ repeat m (registrations pre a))%list.
Proof.
  intros Hac Hpre Hf. cbv zeta.
  destruct (ConnectionManager.broadcast m w) as [o wf] eqn:Hrun. cbn [fst snd].
  unfold ConnectionManager.broadcast in Hrun. rewrite Hac in Hrun at 2.
  destruct (broadcast_loop_prefix m pre ((cid, ws) :: post) w
              (length (active_connections w)) eq_refl Hpre)
    as (w' & Hloop & Ha & _ & _ & Hl & Hsock).
  rewrite Hloop in Hrun. clear Hloop.
  assert (Hws : socket_at w' ws
                = mk_Socket (sk_accepted (socket_at w ws)) (sk_inbox (socket_at w ws))
                            (Some e :: fl) (sk_wire (socket_at w ws))).
  { rewrite Hsock, (unhealthy_not_registered w pre ws e fl Hpre Hf).
    cbn. rewrite app_nil_r, Hf. reflexivity. }
  assert (Hr : ws < length (sockets w')).
  { destruct (Nat.lt_ge_cases ws (length (sockets w'))) as [|Hge]; auto.
    rewrite (socket_off_heap w' ws Hge) in Hws. discriminate. }
  cbn [ConnectionManager.broadcast_loop] in Hrun.
  rewrite Ha, Nat.eqb_refl in Hrun. cbn [negb] in Hrun.
  unfold bind at 1 in Hrun. unfold try_except at 1 in Hrun.
  unfold send_text at 1 in Hrun. rewrite Hws in Hrun.
  cbn [sk_accepted sk_inbox sk_faults sk_wire] in Hrun.
  set (w2 := set_socket w' ws
               (mk_Socket (sk_accepted (socket_at w ws)) (sk_inbox (socket_at w ws))
                          fl (sk_wire (socket_at w ws)))) in Hrun.
  assert (Hwire2 : forall a,
             sk_wire (socket_at w2 a)
             = (sk_wire (socket_at w a) ++ repeat m (registrations pre a))%list).
  { intros a. unfold w2. destruct (Nat.eq_dec ws a) as [<-|Hne].
    - rewrite socket_at_set_socket by exact Hr. cbn [sk_wire].
      rewrite (unhealthy_not_registered w pre ws e fl Hpre Hf). cbn.
      rewrite app_nil_r. reflexivity.
    - rewrite socket_at_set_socket_diff by exact Hne. rewrite Hsock. reflexivity. }
  destruct (is_WebSocketDisconnect e).
  - destruct (disconnect_frame cid w2) as (Ho & Hs & _ & _ & Hd).
    destruct (ConnectionManager.disconnect cid w2) as [o3 w3].
    cbn [fst snd] in Ho, Hs, Hd. subst o3.
    rewrite broadcast_loop_size_changed in Hrun.
    + injection Hrun as <- <-. split; [reflexivity|].
      split; [rewrite Hd; unfold w2; cbn [active_connections set_socket];
              rewrite Ha; reflexivity|].
      intros a. unfold socket_at. rewrite Hs. apply Hwire2.
    + rewrite Hd. unfold w2. cbn [active_connections set_socket]. rewrite Ha.
      assert (Hin : In cid (map fst (active_connections w))).
      { rewrite Hac, map_app. apply in_or_app. right. left. reflexivity. }
      pose proof (dict_del_shorter (active_connections w) cid Hin). lia.
  - unfold raise in Hrun. injection Hrun as <- <-.
    split; [reflexivity|].
    split; [unfold w2; cbn [active_connections set_socket]; exact Ha|].
    exact Hwire2.
Qed.

Lemma broadcast_stops_at_failure_witness :
  let r := ConnectionManager.broadcast (status_event "ping") Demo.three_channels in
  sk_faults (socket_at Demo.three_channels 1) = [Some Sample.disconnected] /\
  fst r = Raise (mk_exn RuntimeError "dictionary changed size during iteration") /\
  active_connections (snd r) = [("a", 0); ("c", 2)] /\
  sk_wire (socket_at (snd r) 0) = [status_event "ping"] /\
  sk_wire (socket_at (snd r) 2) = [].
Proof.
  cbv zeta. split; [reflexivity|].
  assert (Hpre : forall c a,
             In (c, a) [("a", 0)] ->
             a < length (sockets Demo.three_channels) /\
             healthy (socket_at Demo.three_channels a)).
  { intros c a [H|[]]; injection H as <- <-.
    split; [cbn; lia | unfold healthy; cbn; constructor]. }
  destruct (broadcast_stops_at_failure (status_event "ping") Demo.three_channels
              [("a", 0)] [("c", 2)] "b" 1 Sample.disconnected [] eq_refl Hpre eq_refl)
    as (Ho & Ha & Hw).
  split; [exact Ho|]. split; [exact Ha|].
  split; [exact (Hw 0) | exact (Hw 2)].
Defined.

(* ===================================================================== *)
(** ** Further properties: the streaming session on any transport *)
(* ===================================================================== *)

Lemma streamed_zero ac socks ws s gs u cs :
  streamed ac socks ws s gs u cs 0 [] 0 [] = mk_World ac (list_set socks ws s) gs u cs.
Proof.
  unfold streamed. cbn [skipn]. rewrite !app_nil_r, Nat.add_0_r.
  destruct s; reflexivity.
Qed.

Lemma streamed_step ac socks ws s gs u cs f c n fr k sl fl :
  fl = tl (sk_faults s) ->
  streamed ac socks ws
    (mk_Socket (sk_accepted s) (sk_inbox s) fl (sk_wire s ++ [f]))
    gs (S u) (cs ++ [c]) n fr k sl
  = streamed ac socks ws s gs u cs (S n) (f :: fr) (S k) (c :: sl).
Proof.
  intros ->. unfold streamed. cbn [sk_accepted sk_inbox sk_faults sk_wire].
  rewrite <- skipn_S_tl, <- !app_assoc. cbn [app].
  replace (S u + k) with (u + S k) by lia. reflexivity.
Qed.

(** The loop of [search_streaming] under [result_callback], whatever the
    transport does: either every frame is delivered, or the write of the
    frame of index [k] is the first to raise, after [k] frames and [k]
    sleeps. *)
Lemma stream_results_run E ws socks (Hr : ws < length socks) results :
  forall i acc ac s gs u cs,
    let r := stream_results (Some (result_callback E ws)) i results acc
               (mk_World ac (list_set socks ws s) gs u cs) in
    (Forall (fun f => f = None) (firstn (length results) (sk_faults s)) /\
     r = (Ret (acc ++ results)%list,
          streamed ac socks ws s gs u cs (length results)
                   (source_frames E u results) (length results)
                   (map Sleep (seq i (length results))))) \/
    (exists k e,
        k < length results /\
        Forall (fun f => f = None) (firstn k (sk_faults s)) /\
        nth_error (sk_faults s) k = Some (Some e) /\
        r = (Raise e,
             streamed ac socks ws s gs u cs (S k)
                      (source_frames E u (firstn k results)) (S k)
                      (map Sleep (seq i k)))).
Proof.
  induction results as [|x rest IH]; intros i acc ac s gs u cs; cbv zeta.
  - left. split; [constructor|]. cbn. rewrite app_nil_r, streamed_zero. reflexivity.
  - match goal with
    | |- context [stream_results ?cb i (x :: rest) acc ?w0] =>
        destruct (stream_results cb i (x :: rest) acc w0) as [o w'] eqn:Hrun
    end.
    cbn [stream_results] in Hrun. unfold bind at 1 in Hrun.
    unfold result_callback at 1 in Hrun.
    unfold bind at 1 in Hrun. unfold new_uuid at 1 in Hrun.
    cbn [active_connections sockets graph_service uuid_calls calls] in Hrun.
    unfold bind at 1 in Hrun.
    unfold StreamManager.send_message, ConnectionManager.send_message in Hrun.
    specialize (IH (S i) (acc ++ [x])%list ac
                   (mk_Socket (sk_accepted s) (sk_inbox s) (tl (sk_faults s))
                              (sk_wire s ++ [source_event x (substring 0 8 (uuid4 E u))]))
                   gs (S u) (cs ++ [Sleep i])%list).
    cbv zeta in IH. cbn [sk_faults] in IH.
    rewrite <- app_assoc in IH. cbn [app] in IH.
    destruct (sk_faults s) as [|[e|] fl] eqn:Hf.
    + (* no fault scripted *)
      rewrite send_text_delivered in Hrun by (auto; rewrite Hf; reflexivity).
      unfold ret at 1 in Hrun. unfold bind at 1 in Hrun.
      unfold sleep, record_call in Hrun.
      cbn [active_connections sockets graph_service uuid_calls calls] in Hrun.
      rewrite Hf in Hrun. rewrite Hrun in IH. cbn [tl] in IH.
      destruct IH as [(Hall & Hrun')|(k & e & Hk & Hall & Hnth & Hrun')].
      * left. split; [rewrite firstn_nil; apply Forall_nil|].
        rewrite streamed_step in Hrun' by (rewrite Hf; reflexivity). exact Hrun'.
      * rewrite firstn_nil in Hall. destruct k; discriminate.
    + (* the write raises *)
      rewrite (send_text_refused _ _ _ _ _ _ Hr _ _ e fl Hf) in Hrun.
      injection Hrun as <- <-.
      right. exists 0, e. split; [cbn; lia|]. split; [constructor|].
      split; [reflexivity|].
      unfold streamed. rewrite Hf. cbn [skipn firstn source_frames seq map].
      rewrite !app_nil_r. replace (u + 1) with (S u) by lia. reflexivity.
    + (* a scripted success *)
      rewrite send_text_delivered in Hrun by (auto; rewrite Hf; reflexivity).
      unfold ret at 1 in Hrun. unfold bind at 1 in Hrun.
      unfold sleep, record_call in Hrun.
      cbn [active_connections sockets graph_service uuid_calls calls] in Hrun.
      rewrite Hf in Hrun. rewrite Hrun in IH. cbn [tl] in IH.
      destruct IH as [(Hall & Hrun')|(k & e & Hk & Hall & Hnth & Hrun')].
      * left. split; [cbn [length firstn]; constructor; auto|].
        rewrite streamed_step in Hrun' by (rewrite Hf; reflexivity). exact Hrun'.
      * right. exists (S k), e. split; [cbn; lia|].
        split; [cbn [firstn]; constructor; auto|].
        split; [exact Hnth|].
        rewrite streamed_step in Hrun' by (rewrite Hf; reflexivity). exact Hrun'.
Qed.

Lemma send_text_frame ws m w :
  graph_service (snd (send_text ws m w)) = graph_service w /\
  calls (snd (send_text ws m w)) = calls w /\
  uuid_calls (snd (send_text ws m w)) = uuid_calls w.
Proof.
  unfold send_text. destruct (sk_faults (socket_at w ws)) as [|[e|] fl];
    repeat split; reflexivity.
Qed.








(** The handlers call neither the store nor [asyncio.sleep], whatever the
    socket is. *)
Lemma handlers_quiet ws sid e w :
  let r := (if is_WebSocketDisconnect e then ConnectionManager.disconnect sid
            else
              try_except
                (send_text ws (error_event ("WebSocket error: " ++ exn_str e)))
                (fun _ => ret tt) ;;;
              ConnectionManager.disconnect sid) w in
  fst r = Ret tt /\
  graph_service (snd r) = graph_service w /\
  calls (snd r) = calls w /\
  exists post, sk_wire (socket_at (snd r) ws) = (sk_wire (socket_at w ws) ++ post)%list.
Proof.
  cbv zeta. destruct (is_WebSocketDisconnect e).
  - destruct (disconnect_frame sid w) as (Ho & Hs & Hg & Hc & _).
    repeat split; auto. exists []. unfold socket_at. rewrite Hs, app_nil_r. reflexivity.
  - unfold bind, try_except.
    set (m := error_event ("WebSocket error: " ++ exn_str e)).
    destruct (send_text_frame ws m w) as (Hg1 & Hc1 & _).
    destruct (send_text_step ws m w) as (_ & _ & post & Hw1 & _).
    destruct (send_text ws m w) as [[[]|e1] w1]; cbn [fst snd ret] in *;
      destruct (disconnect_frame sid w1) as (Ho & Hs & Hg & Hc & _);
      (split; [exact Ho|]; split; [congruence|]; split; [congruence|];
       exists post; unfold socket_at in *; rewrite Hs; exact Hw1).
Qed.

(** The last write of a session, under the handlers of the endpoint. *)
Lemma last_write_run ws sid m w :
  let r := match send_text ws m w with
           | (Ret a, w') => (Ret a, w')
           | (Raise e, w') =>
               (if is_WebSocketDisconnect e then ConnectionManager.disconnect sid
                else
                  try_except
                    (send_text ws (error_event ("WebSocket error: " ++ exn_str e)))
                    (fun _ => ret tt) ;;;
                  ConnectionManager.disconnect sid) w'
           end in
  fst r = Ret tt /\
  graph_service (snd r) = graph_service w /\
  calls (snd r) = calls w /\
  exists post, sk_wire (socket_at (snd r) ws) = (sk_wire (socket_at w ws) ++ post)%list.
Proof.
  cbv zeta.
  destruct (send_text_frame ws m w) as (Hg1 & Hc1 & _).
  destruct (send_text_step ws m w) as (_ & _ & post & Hw1 & _).
  destruct (send_text ws m w) as [[[]|e1] w1]; cbn [fst snd] in *.
  - repeat split; auto. exists post. exact Hw1.
  - destruct (handlers_quiet ws sid e1 w1) as (Ho & Hg & Hc & post2 & Hw2).
    split; [exact Ho|]. split; [congruence|]. split; [congruence|].
    exists (post ++ post2)%list. rewrite Hw2, Hw1, app_assoc. reflexivity.
Qed.

(** On every path of a session, whatever the transport and the providers
    do, the store is written at most once, by one call of the save
    operation, and only after the search returned and every result was
    delivered to the client as a source frame: the call carries the query
    text, the complete list of results in the provider's order, and the
    session-id.  On every other path the store is not called and is left as
    it was. *)
Theorem session_saves_after_full_delivery (E : Env) (w : World) (ws : nat)
    (sid : string) :
  let r := websocket_stream_endpoint E ws sid w in
  fst r = Ret tt /\
  ((graph_service (snd r) = graph_service w /\
    exists k, calls (snd r) = (calls w ++ map Sleep (seq 0 k))%list) \/
   (exists data rest results post,
       sk_inbox (socket_at w ws) = Ret data :: rest /\
       Py.truthy (get_str (p_query data) "") = true /\
       search_any E (get_str (p_query data) "")
                  (get_val (p_search_type data) (PyStr "tavily"))
       = Ret results /\
       graph_service (snd r)
       = snd (save_query_and_sources E (get_str (p_query data) "") results (Some sid)
                (graph_service w)) /\
       calls (snd r)
       = (calls w ++ map Sleep (seq 0 (length results))
          ++ [SaveCall (get_str (p_query data) "") results (Some sid)])%list /\
       sk_wire (socket_at (snd r) ws)
       = (sk_wire (socket_at w ws)
          ++ status_event "Searching sources..."
             :: source_frames E (uuid_calls w) results ++ post)%list)).
Proof.
  cbv zeta.
  destruct (websocket_stream_endpoint E ws sid w) as [o wf] eqn:Hrun.
  cbn [fst snd]. rewrite endpoint_eq in Hrun.
  unfold StreamManager.send_message, ConnectionManager.send_message in Hrun.
  assert (Hleft : forall w0 k,
             graph_service w0 = graph_service w ->
             calls w0 = (calls w ++ map Sleep (seq 0 k))%list ->
             forall o' w',
               graph_service w' = graph_service w0 -> calls w' = calls w0 ->
               o' = Ret tt ->
               o' = Ret tt /\
               ((graph_service w' = graph_service w /\
                 exists k, calls w' = (calls w ++ map Sleep (seq 0 k))%list) \/
                (exists data rest results post,
                    sk_inbox (socket_at w ws) = Ret data :: rest /\
                    Py.truthy (get_str (p_query data) "") = true /\
                    search_any E (get_str (p_query data) "")
                               (get_val (p_search_type data) (PyStr "tavily"))
                    = Ret results /\
                    graph_service w'
                    = snd (save_query_and_sources E (get_str (p_query data) "")
                             results (Some sid) (graph_service w)) /\
                    calls w'
                    = (calls w ++ map Sleep (seq 0 (length results))
                       ++ [SaveCall (get_str (p_query data) "") results (Some sid)])%list /\
                    sk_wire (socket_at w' ws)
                    = (sk_wire (socket_at w ws)
                       ++ status_event "Searching sources..."
                          :: source_frames E (uuid_calls w) results ++ post)%list))).
  { intros w0 k Hg Hc o' w' Hg' Hc' ->. split; [reflexivity|]. left.
    split; [congruence|]. exists k. congruence. }
  unfold session_body in Hrun. unfold bind at 1 in Hrun.
  unfold StreamManager.send_message, ConnectionManager.send_message in Hrun.
  unfold receive_json at 1 in Hrun.
  destruct (sk_inbox (socket_at (after_connect w ws sid) ws)) as [|[data|e0] rest]
    eqn:Hin1.
  - (* the peer has closed *)
    match type of Hrun with
    | _ ?w0 = _ => destruct (handlers_quiet ws sid (mk_exn WebSocketDisconnect "1000") w0)
                     as (Ho & Hg & Hc & _)
    end.
    rewrite Hrun in Ho, Hg, Hc. cbn [fst snd] in Ho, Hg, Hc.
    apply (Hleft (after_connect w ws sid) 0); auto.
    cbn. rewrite app_nil_r. reflexivity.
  - (* a payload *)
    pose proof (inbox_in_range _ _ _ _ Hin1) as Hr1.
    assert (Hr : ws < length (sockets w)).
    { unfold after_connect in Hr1. cbn [sockets set_active_connections set_socket] in Hr1.
      rewrite length_list_set in Hr1. exact Hr1. }
    assert (Hs1 : socket_at (after_connect w ws sid) ws
                  = mk_Socket true (sk_inbox (socket_at w ws))
                      (sk_faults (socket_at w ws)) (sk_wire (socket_at w ws))).
    { unfold after_connect.
      change (socket_at (set_active_connections ?x ?c) ws) with (socket_at x ws).
      apply socket_at_set_socket, Hr. }
    assert (Hin : sk_inbox (socket_at w ws) = Ret data :: rest).
    { rewrite Hs1 in Hin1. exact Hin1. }
    rewrite Hs1 in Hrun. cbn [sk_accepted sk_inbox sk_faults sk_wire] in Hrun.
    unfold after_connect, set_active_connections, set_socket in Hrun.
    cbn [active_connections sockets graph_service uuid_calls calls] in Hrun.
    rewrite list_set_set in Hrun.
    destruct (Py.truthy (get_str (p_query data) "")) eqn:Hq; cbn [negb] in Hrun.
    2:{ (* no query text *)
        match type of Hrun with
        | context [send_text ws ?m ?w0] =>
            destruct (last_write_run ws sid m w0) as (Ho & Hg & Hc & _)
        end.
        rewrite Hrun in Ho, Hg, Hc.
        cbn [fst snd graph_service calls] in Ho, Hg, Hc.
        apply (Hleft w 0); auto. cbn. rewrite app_nil_r. reflexivity. }
    unfold bind at 1 in Hrun.
    destruct (hd None (sk_faults (socket_at w ws))) as [e1|] eqn:Hhd.
    { (* the status frame is refused *)
      destruct (sk_faults (socket_at w ws)) as [|[e1'|] fl] eqn:Hf;
        cbn [hd] in Hhd; try discriminate. injection Hhd as ->.
      rewrite (send_text_refused _ _ ws _ _ _ Hr _ _ e1 fl) in Hrun by reflexivity.
      match type of Hrun with
      | _ ?w0 = _ => destruct (handlers_quiet ws sid e1 w0) as (Ho & Hg & Hc & _)
      end.
      rewrite Hrun in Ho, Hg, Hc. cbn [fst snd graph_service calls] in Ho, Hg, Hc.
      apply (Hleft w 0); auto. cbn. rewrite app_nil_r. reflexivity. }
    rewrite send_text_delivered in Hrun by (auto; exact Hhd).
    cbn [sk_accepted sk_inbox sk_faults sk_wire] in Hrun.
    rewrite search_streaming_any_eq in Hrun.
    destruct (search_any E (get_str (p_query data) "")
                         (get_val (p_search_type data) (PyStr "tavily")))
      as [results|e2] eqn:Hs.
    2:{ (* the search raised *)
        match type of Hrun with
        | context [send_text ws ?m ?w0] =>
            destruct (last_write_run ws sid m w0) as (Ho & Hg & Hc & _)
        end.
        rewrite Hrun in Ho, Hg, Hc.
        cbn [fst snd graph_service calls] in Ho, Hg, Hc.
        apply (Hleft w 0); auto. cbn. rewrite app_nil_r. reflexivity. }
    match type of Hrun with
    | context [stream_results ?cb 0 results [] (mk_World ?ac (list_set _ _ ?s) ?gs ?u ?cs)] =>
        destruct (stream_results_run E ws (sockets w) Hr results 0 [] ac s gs u cs)
          as [(_ & Hst)|(k & e3 & _ & _ & _ & Hst)]
    end; rewrite Hst in Hrun; clear Hst; unfold streamed in Hrun;
      cbn [sk_accepted sk_inbox sk_faults sk_wire app] in Hrun.
    + (* every frame delivered: save, then the done frame *)
      unfold bind at 1 in Hrun. unfold try_except at 1 in Hrun.
      unfold bind at 1 in Hrun. unfold record_call at 1 in Hrun.
      cbn [active_connections sockets graph_service uuid_calls calls] in Hrun.
      unfold on_graph_service at 1 in Hrun.
      cbn [active_connections sockets graph_service uuid_calls calls] in Hrun.
      assert (Hlast : forall w3,
                 graph_service w3
                 = snd (save_query_and_sources E (get_str (p_query data) "") results
                          (Some sid) (graph_service w)) ->
                 calls w3
                 = ((calls w ++ map Sleep (seq 0 (length results)))
                    ++ [SaveCall (get_str (p_query data) "") results (Some sid)])%list ->
                 sk_wire (socket_at w3 ws)
                 = ((sk_wire (socket_at w ws) ++ [status_event "Searching sources..."])
                    ++ source_frames E (uuid_calls w) results)%list ->
                 match send_text ws (done_event (length results)) w3 with
                 | (Ret a, w') => (Ret a, w')
                 | (Raise e, w') =>
                     (if is_WebSocketDisconnect e then ConnectionManager.disconnect sid
                      else
                        try_except
                          (send_text ws (error_event ("WebSocket error: " ++ exn_str e)))
                          (fun _ => ret tt) ;;;
                        ConnectionManager.disconnect sid) w'
                 end = (o, wf) ->
                 o = Ret tt /\
                 ((graph_service wf = graph_service w /\
                   exists k, calls wf = (calls w ++ map Sleep (seq 0 k))%list) \/
                  (exists data0 rest0 results0 post,
                      sk_inbox (socket_at w ws) = Ret data0 :: rest0 /\
                      Py.truthy (get_str (p_query data0) "") = true /\
                      search_any E (get_str (p_query data0) "")
                                 (get_val (p_search_type data0) (PyStr "tavily"))
                      = Ret results0 /\
                      graph_service wf
                      = snd (save_query_and_sources E (get_str (p_query data0) "")
                               results0 (Some sid) (graph_service w)) /\
                      calls wf
                      = (calls w ++ map Sleep (seq 0 (length results0))
                         ++ [SaveCall (get_str (p_query data0) "") results0
                                      (Some sid)])%list /\
                      sk_wire (socket_at wf ws)
                      = (sk_wire (socket_at w ws)
                         ++ status_event "Searching sources..."
                            :: source_frames E (uuid_calls w) results0 ++ post)%list))).
      { intros w3 Hg3 Hc3 Hw3 Hrun3.
        destruct (last_write_run ws sid (done_event (length results)) w3)
          as (Ho & Hg & Hc & post & Hw).
        rewrite Hrun3 in Ho, Hg, Hc, Hw. cbn [fst snd] in Ho, Hg, Hc, Hw.
        split; [exact Ho|]. right. exists data, rest, results, post.
        split; [exact Hin|]. split; [exact Hq|]. split; [exact Hs|].
        split; [congruence|]. split; [rewrite Hc, Hc3, <- app_assoc; reflexivity|].
        rewrite Hw, Hw3, <- !app_assoc. reflexivity. }
      destruct (save_query_and_sources E (get_str (p_query data) "") results (Some sid)
                  (graph_service w)) as [[[]|e4] g4];
        unfold ret, set_graph_service in Hrun;
        cbn [active_connections sockets graph_service uuid_calls calls snd] in Hrun;
        (eapply Hlast; [| | |exact Hrun]);
        cbn [graph_service calls]; try reflexivity;
        rewrite socket_at_mk by exact Hr; reflexivity.
    + (* the write of a source frame raised: reported as a failed search *)
      match type of Hrun with
      | context [send_text ws ?m ?w0] =>
          destruct (last_write_run ws sid m w0) as (Ho & Hg & Hc & _)
      end.
      rewrite Hrun in Ho, Hg, Hc.
      cbn [fst snd graph_service calls] in Ho, Hg, Hc.
      apply (Hleft wf k); auto.
  - (* [receive_json] raised *)
    match type of Hrun with
    | _ ?w0 = _ => destruct (handlers_quiet ws sid e0 w0) as (Ho & Hg & Hc & _)
    end.
    rewrite Hrun in Ho, Hg, Hc. cbn [fst snd] in Ho, Hg, Hc.
    assert (Hg0 : graph_service wf = graph_service w).
    { rewrite Hg. destruct (sk_inbox _); reflexivity. }
    apply (Hleft wf 0); auto.
    rewrite Hc. cbn. rewrite app_nil_r. reflexivity.
Qed.

(* ===================================================================== *)
(** ** Further properties: the history/provenance store *)
(* ===================================================================== *)

(** *** From statements to calls *)

(** A relation between stores that every statement of a kind [P] respects,
    run or failed, is respected by the calls that send such statements. *)
Section StatementWise.
Variable R : Neo4j -> Neo4j -> Prop.
Variable P : cypher -> Prop.
Hypothesis R_refl : forall d, R d d.
Hypothesis R_trans : forall d1 d2 d3, R d1 d2 -> R d2 d3 -> R d1 d3.
Hypothesis R_run : forall stmt d, P stmt -> R d (Cypher.advance (Cypher.exec stmt d)).
Hypothesis R_fail : forall d, R d (Cypher.advance d).

Lemma session_run_lift stmt g :
  P stmt -> R (db g) (db (snd (session_run stmt g))).
Proof.
  intros HP. unfold session_run.
  destruct (db_faults (db g)) as [|[e|] fl]; cbn [snd db]; auto.
Qed.

Lemma save_sources_lift q results :
  (forall x, In x results -> all_space (url x) = false ->
             P (MergeSource (url x) (title x) (content x) (source x)) /\
             P (MergeReferences q (url x))) ->
  forall g, R (db g) (db (snd (save_sources q results g))).
Proof.
  induction results as [|x rest IH]; intros HP g.
  - apply R_refl.
  - destruct (save_sources q (x :: rest) g) as [o g'] eqn:Hrun. cbn [snd].
    cbn [save_sources] in Hrun. rewrite strip_truthy, negb_involutive in Hrun.
    assert (HP' : forall y, In y rest -> all_space (url y) = false ->
                            P (MergeSource (url y) (title y) (content y) (source y)) /\
                            P (MergeReferences q (url y)))
      by (intros y Hy; apply HP; right; exact Hy).
    destruct (all_space (url x)) eqn:Hx.
    + specialize (IH HP' g). rewrite Hrun in IH. exact IH.
    + destruct (HP x (in_eq _ _) Hx) as (HP1 & HP2).
      unfold bind at 1 in Hrun.
      pose proof (session_run_lift _ g HP1) as H1.
      destruct (session_run (MergeSource _ _ _ _) g) as [[rows1|e1] g1];
        cbn [snd] in H1; [|injection Hrun as <- <-; exact H1].
      unfold bind at 1 in Hrun.
      pose proof (session_run_lift _ g1 HP2) as H2.
      destruct (session_run (MergeReferences _ _) g1) as [[rows2|e2] g2];
        cbn [snd] in H2; [|injection Hrun as <- <-; eauto].
      specialize (IH HP' g2). rewrite Hrun in IH. cbn [snd] in IH. eauto.
Qed.

Lemma save_lift E q results sid g :
  P (merge_query_stmt q sid) ->
  (forall x, In x results -> all_space (url x) = false ->
             P (MergeSource (url x) (title x) (content x) (source x)) /\
             P (MergeReferences q (url x))) ->
  R (db g) (db (snd (save_query_and_sources E q results sid g))).
Proof.
  intros HPq HPs.
  destruct (save_query_and_sources E q results sid g) as [o g'] eqn:Hrun. cbn [snd].
  unfold save_query_and_sources in Hrun.
  destruct (NEO4J_AVAILABLE E); cbn [negb] in Hrun;
    [|injection Hrun as <- <-; apply R_refl].
  destruct (driver g); cbn [negb] in Hrun;
    [|injection Hrun as <- <-; apply R_refl].
  rewrite try_except_reraise in Hrun. unfold bind at 1 in Hrun.
  assert (Hstmt : (match sid with
                   | Some s => if Py.truthy s then session_run (MergeQuerySession q s)
                               else session_run (MergeQuery q)
                   | None => session_run (MergeQuery q)
                   end) g = session_run (merge_query_stmt q sid) g).
  { unfold merge_query_stmt. destruct sid as [s|]; [destruct (Py.truthy s)|];
      reflexivity. }
  rewrite Hstmt in Hrun.
  pose proof (session_run_lift _ g HPq) as H1.
  destruct (session_run (merge_query_stmt q sid) g) as [[rows1|e1] g1];
    cbn [snd] in H1; [|injection Hrun as <- <-; exact H1].
  pose proof (save_sources_lift q results HPs g1) as H2.
  rewrite Hrun in H2. cbn [snd] in H2. eauto.
Qed.

Lemma run_calls_lift E cs :
  (forall stmt, stmt_ok stmt -> P stmt) ->
  forall g, R (db g) (db (run_calls E cs g)).
Proof.
  intros HP. induction cs as [|c cs IH]; intros g; cbn [run_calls fold_left].
  - apply R_refl.
  - apply R_trans with (d2 := db (run_call E c g)); [|apply IH].
    destruct c as [|q results sid|limit]; cbn [run_call].
    + destruct (connect E g) as [o g'] eqn:Hrun. cbn [snd].
      unfold connect in Hrun. destruct (NEO4J_AVAILABLE E); cbn [negb] in Hrun;
        [|injection Hrun as <- <-; apply R_refl].
      rewrite try_except_reraise in Hrun. unfold bind at 1 in Hrun.
      unfold bind at 1 in Hrun.
      pose proof (session_run_lift ReturnOne (mk_GraphState true (db g)) (HP ReturnOne I)) as H1.
      destruct (session_run ReturnOne _) as [[rows|e] g1]; cbn [snd db] in H1;
        injection Hrun as <- <-; exact H1.
    + apply save_lift.
      * apply HP. unfold merge_query_stmt.
        destruct sid as [s|]; [destruct (Py.truthy s)|]; exact I.
      * intros x _ Hx. split.
        -- apply HP. exact Hx.
        -- apply (HP (MergeReferences q (url x))). exact I.
    + destruct (get_query_history E limit g) as [o g'] eqn:Hrun. cbn [snd].
      unfold get_query_history in Hrun.
      destruct (NEO4J_AVAILABLE E); cbn [negb] in Hrun;
        [|injection Hrun as <- <-; apply R_refl].
      destruct (driver g); cbn [negb] in Hrun;
        [|injection Hrun as <- <-; apply R_refl].
      rewrite try_except_reraise in Hrun.
      pose proof (session_run_lift (RecentQueries limit) g (HP (RecentQueries limit) I)) as H1.
      rewrite Hrun in H1. exact H1.
Qed.

End StatementWise.

(** *** Relationships *)

Lemma has_ref_in r refs : Cypher.has_ref r refs = true <-> In r refs.
Proof.
  unfold Cypher.has_ref. rewrite existsb_exists. split.
  - intros ([a b] & Hin & He). cbn in He. apply andb_prop in He.
    destruct He as (H1 & H2). apply Nat.eqb_eq in H1, H2.
    destruct r as [c d]; cbn in *. subst. exact Hin.
  - intros H. exists r. split; [exact H|]. rewrite !Nat.eqb_refl. reflexivity.
Qed.

Lemma merge_refs_spec l :
  forall refs,
    incl refs (fold_left Cypher.merge_ref l refs) /\
    incl l (fold_left Cypher.merge_ref l refs) /\
    (NoDup refs -> NoDup (fold_left Cypher.merge_ref l refs)).
Proof.
  induction l as [|r l IH]; intros refs; cbn [fold_left].
  - split; [apply incl_refl|]. split; [intros x []|auto].
  - destruct (IH (Cypher.merge_ref refs r)) as (Hi & Hl & Hn).
    assert (Hstep : incl refs (Cypher.merge_ref refs r) /\
                    In r (Cypher.merge_ref refs r) /\
                    (NoDup refs -> NoDup (Cypher.merge_ref refs r))).
    { unfold Cypher.merge_ref. destruct (Cypher.has_ref r refs) eqn:Hh.
      - apply has_ref_in in Hh. split; [apply incl_refl|]. split; auto.
      - split; [intros x Hx; apply in_or_app; auto|].
        split; [apply in_or_app; right; apply in_eq|].
        intros Hnd. apply NoDup_app; auto.
        + repeat constructor. intros [].
        + intros x Hx [Heq|[]]. subst x.
          apply has_ref_in in Hx. congruence. }
    destruct Hstep as (Hs1 & Hs2 & Hs3).
    split; [eapply incl_tran; eauto|].
    split; [|auto].
    intros x [<-|Hx]; auto.
Qed.

Lemma exec_refs stmt d :
  incl (db_refs d) (db_refs (Cypher.advance (Cypher.exec stmt d))) /\
  (NoDup (db_refs d) -> NoDup (db_refs (Cypher.advance (Cypher.exec stmt d)))).
Proof.
  destruct stmt as [|t sid|t|u ti sn so|t u|limit]; cbn [Cypher.exec Cypher.advance db_refs];
    try (split; [apply incl_refl|auto]).
  - destruct (merge_query_sources t (Some sid) d) as (_ & ->).
    split; [apply incl_refl|auto].
  - destruct (merge_query_sources t None d) as (_ & ->).
    split; [apply incl_refl|auto].
  - unfold Cypher.merge_source. destruct (existsb _ _); cbn [db_refs];
      (split; [apply incl_refl|auto]).
  - cbn [Cypher.merge_references db_refs].
    match goal with
    | |- context [fold_left Cypher.merge_ref ?l ?r] =>
        destruct (merge_refs_spec l r) as (Hi & _ & Hn)
    end.
    split; assumption.
Qed.

(** No call of the service, returning or raising, removes a query text, a
    source URL or a relationship from the store, and none records the same
    relationship twice. *)
Theorem service_calls_only_add (E : Env) (cs : list service_call) (g : GraphState) :
  let g' := run_calls E cs g in
  incl (texts (db g)) (texts (db g')) /\
  incl (urls (db g)) (urls (db g')) /\
  incl (db_refs (db g)) (db_refs (db g')) /\
  (NoDup (db_refs (db g)) -> NoDup (db_refs (db g'))).
Proof.
  cbv zeta.
  destruct (run_calls_spec E cs g) as (_ & Ht & Hu & _).
  split; [exact Ht|]. split; [exact Hu|].
  apply (run_calls_lift
           (fun d d' => incl (db_refs d) (db_refs d') /\
                        (NoDup (db_refs d) -> NoDup (db_refs d')))
           (fun _ => True)).
  - intros d. split; [apply incl_refl|auto].
  - intros d1 d2 d3 (H1 & H2) (H3 & H4). split; [eapply incl_tran; eauto|auto].
  - intros stmt d _. apply exec_refs.
  - intros d. split; [apply incl_refl|auto].
  - auto.
Qed.

Lemma service_calls_only_add_witness :
  let g := run_calls Sample.env
             [CallConnect; CallSave "rocq" Sample.results None] Demo.connected in
  let g' := run_calls Sample.env
              [CallSave "rocq" Sample.results (Some "s1"); CallHistory 3;
               CallSave "coq" Sample.results None] g in
  NoDup (db_refs (db g)) /\
  db_refs (db g) = [(0, 1)] /\
  NoDup (db_refs (db g')) /\
  db_refs (db g') = [(0, 1); (2, 1)].
Proof.
  cbv zeta.
  assert (Hnd : NoDup (db_refs (db (run_calls Sample.env
                   [CallConnect; CallSave "rocq" Sample.results None] Demo.connected)))).
  { repeat constructor; intros []. }
  split; [exact Hnd|]. split; [reflexivity|]. split; [|reflexivity].
  exact (proj2 (proj2 (proj2 (service_calls_only_add Sample.env
           [CallSave "rocq" Sample.results (Some "s1"); CallHistory 3;
            CallSave "coq" Sample.results None] _))) Hnd).
Defined.

Lemma session_run_ret stmt g rows g' :
  session_run stmt g = (Ret rows, g') ->
  g' = mk_GraphState (driver g) (Cypher.advance (Cypher.exec stmt (db g))) /\
  rows = Cypher.rows stmt (db g) /\
  hd None (db_faults (db g)) = None.
Proof.
  unfold session_run. destruct (db_faults (db g)) as [|[e|] fl]; intros H;
    try discriminate; injection H as <- <-; auto.
Qed.

Lemma session_run_raise stmt g e g' :
  session_run stmt g = (Raise e, g') ->
  g' = mk_GraphState (driver g) (Cypher.advance (db g)) /\
  hd None (db_faults (db g)) = Some e.
Proof.
  unfold session_run. destruct (db_faults (db g)) as [|[e0|] fl]; intros H;
    try discriminate; injection H as <- <-; auto.
Qed.

Lemma merge_query_keeps t sid d qn :
  In qn (db_queries d) ->
  exists qn', In qn' (db_queries (Cypher.merge_query t sid d)) /\
              q_id qn' = q_id qn /\ q_text qn' = q_text qn.
Proof.
  intros Hin. unfold Cypher.merge_query. destruct (existsb _ _); cbn [db_queries].
  - exists (if q_text qn =? t
            then mk_QueryNode (q_id qn) (q_text qn) (db_clock d)
                   (match sid with Some s => Some s | None => q_session_id qn end)
            else qn).
    split; [|destruct (q_text qn =? t); auto].
    apply in_map_iff. exists qn. auto.
  - exists qn. split; [apply in_or_app; auto|auto].
Qed.

Lemma merge_source_keeps u ti sn so d s :
  In s (db_sources d) ->
  exists s', In s' (db_sources (Cypher.merge_source u ti sn so d)) /\
             s_id s' = s_id s /\ s_url s' = s_url s.
Proof.
  intros Hin. unfold Cypher.merge_source. destruct (existsb _ _); cbn [db_sources].
  - exists (if s_url s =? u
            then mk_SourceNode (s_id s) (s_url s) ti sn so (db_clock d) else s).
    split; [|destruct (s_url s =? u); auto].
    apply in_map_iff. exists s. auto.
  - exists s. split; [apply in_or_app; auto|auto].
Qed.

Lemma exec_linked stmt d t u :
  linked d t u -> linked (Cypher.advance (Cypher.exec stmt d)) t u.
Proof.
  intros (qn & sn & Hq & Ht & Hs & Hu & Hr).
  destruct (exec_refs stmt d) as (Hincl & _).
  unfold linked. cbn [Cypher.advance db_queries db_sources].
  destruct stmt as [|t' sid|t'|u' ti sn' so|t' u'|limit]; cbn [Cypher.exec] in *.
  - exists qn, sn. auto 10.
  - destruct (merge_query_keeps t' (Some sid) d qn Hq) as (qn' & Hq' & Hid & Htx).
    destruct (merge_query_sources t' (Some sid) d) as (Hsrc & _).
    exists qn', sn. rewrite Hsrc, Hid, Htx. auto 10.
  - destruct (merge_query_keeps t' None d qn Hq) as (qn' & Hq' & Hid & Htx).
    destruct (merge_query_sources t' None d) as (Hsrc & _).
    exists qn', sn. rewrite Hsrc, Hid, Htx. auto 10.
  - destruct (merge_source_keeps u' ti sn' so d sn Hs) as (s' & Hs' & Hid & Hur).
    exists qn, s'. rewrite merge_source_queries, Hid, Hur. auto 10.
  - exists qn, sn. auto 10.
  - exists qn, sn. auto 10.
Qed.

Lemma merge_references_links t u d :
  In t (texts d) -> In u (urls d) ->
  linked (Cypher.merge_references t u d) t u.
Proof.
  intros Ht Hu. apply in_map_iff in Ht, Hu.
  destruct Ht as (qn & Hqt & Hq). destruct Hu as (sn & Hsu & Hs).
  exists qn, sn. cbn [Cypher.merge_references db_queries db_sources db_refs].
  repeat split; auto.
  match goal with
  | |- In _ (fold_left Cypher.merge_ref ?l ?r) =>
      destruct (merge_refs_spec l r) as (_ & Hl & _); apply Hl
  end.
  apply in_prod; apply in_map; apply filter_In; split; auto;
    [rewrite Hqt | rewrite Hsu]; apply String.eqb_refl.
Qed.

Lemma save_sources_links q results :
  forall g g',
    In q (texts (db g)) ->
    save_sources q results g = (Ret tt, g') ->
    forall x, In x results -> all_space (url x) = false -> linked (db g') q (url x).
Proof.
  induction results as [|x rest IH]; intros g g' Hq Hrun y Hy Hny; [destruct Hy|].
  cbn [save_sources] in Hrun. rewrite strip_truthy, negb_involutive in Hrun.
  destruct (all_space (url x)) eqn:Hx.
  - destruct Hy as [<-|Hy]; [congruence|]. eapply IH; eauto.
  - unfold bind at 1 in Hrun.
    destruct (session_run (MergeSource _ _ _ _) g) as [[rows1|e1] g1] eqn:H1;
      [|discriminate].
    pose proof (session_run_spec (MergeSource (url x) (title x) (content x) (source x))
                  g Hx) as (_ & _ & Hg1 & Hrec1).
    rewrite H1 in Hg1, Hrec1. cbn [fst snd] in Hg1, Hrec1.
    specialize (Hrec1 rows1 eq_refl). cbn [recorded] in Hrec1.
    unfold bind at 1 in Hrun.
    destruct (session_run (MergeReferences _ _) g1) as [[rows2|e2] g2] eqn:H2;
      [|discriminate].
    destruct (session_run_ret _ _ _ _ H2) as (Hg2 & _ & _).
    assert (Hq1 : In q (texts (db g1))) by (apply Hg1; exact Hq).
    assert (Hlink : linked (db g2) q (url x)).
    { rewrite Hg2. cbn [db Cypher.exec].
      destruct (merge_references_links q (url x) (db g1) Hq1 Hrec1)
        as (qn & sn & ?). exists qn, sn. assumption. }
    assert (Hq2 : In q (texts (db g2))).
    { rewrite Hg2. cbn [db Cypher.exec]. exact Hq1. }
    destruct Hy as [<-|Hy].
    + pose proof (save_sources_lift
                    (fun d d' => linked d q (url x) -> linked d' q (url x))
                    (fun _ => True)
                    (fun d H => H)
                    (fun d1 d2 d3 H12 H23 H => H23 (H12 H))
                    (fun stmt d _ => exec_linked stmt d q (url x))
                    (fun d H => H)
                    q rest (fun _ _ _ => conj I I) g2) as Hkeep.
      rewrite Hrun in Hkeep. cbn [snd] in Hkeep. auto.
    + eapply IH; eauto.
Qed.

Lemma save_links E q results sid g g' :
  NEO4J_AVAILABLE E = true ->
  save_query_and_sources E q results sid g = (Ret tt, g') ->
  forall x, In x results -> all_space (url x) = false -> linked (db g') q (url x).
Proof.
  intros Ha Hrun. unfold save_query_and_sources in Hrun.
  rewrite Ha in Hrun. cbn [negb] in Hrun.
  destruct (driver g); cbn [negb] in Hrun; [|discriminate].
  rewrite try_except_reraise in Hrun. unfold bind at 1 in Hrun.
  assert (Hstmt : (match sid with
                   | Some s => if Py.truthy s then session_run (MergeQuerySession q s)
                               else session_run (MergeQuery q)
                   | None => session_run (MergeQuery q)
                   end) g = session_run (merge_query_stmt q sid) g).
  { unfold merge_query_stmt. destruct sid as [s|]; [destruct (Py.truthy s)|];
      reflexivity. }
  rewrite Hstmt in Hrun.
  assert (Hok : stmt_ok (merge_query_stmt q sid))
    by (unfold merge_query_stmt; destruct sid as [s|]; [destruct (Py.truthy s)|];
        exact I).
  pose proof (session_run_spec _ g Hok) as (_ & _ & _ & Hrec).
  destruct (session_run (merge_query_stmt q sid) g) as [[rows|e] g1]; [|discriminate].
  specialize (Hrec rows eq_refl). cbn [snd] in Hrec.
  apply (save_sources_links q results g1 g'); [|exact Hrun].
  unfold merge_query_stmt in Hrec.
  destruct sid as [s|]; [destruct (Py.truthy s)|]; exact Hrec.
Qed.

(** When a save returns (the Neo4j package being there), the query record
    references the source record of every result whose URL is not blank. *)
Theorem save_links_query_to_sources (E : Env) (q : string)
    (results : list SearchResult) (sid : option string) (g g' : GraphState) :
  NEO4J_AVAILABLE E = true ->
  save_query_and_sources E q results sid g = (Ret tt, g') ->
  forall x, In x results -> all_space (url x) = false -> linked (db g') q (url x).
Proof.
  exact (save_links E q results sid g g').
Qed.

Lemma save_links_query_to_sources_witness :
  let r := save_query_and_sources Sample.env "rocq" Sample.results (Some "s1")
             Demo.connected in
  fst r = Ret tt /\
  linked (db (snd r)) "rocq" "http://a" /\
  db_refs (db (snd r)) = [(0, 1)].
Proof.
  cbv zeta. split; [reflexivity|]. split; [|reflexivity].
  exact (save_links_query_to_sources Sample.env "rocq" Sample.results (Some "s1")
           Demo.connected _ eq_refl eq_refl
           (mk_SearchResult "T1" "http://a" "c1" "tavily")
           (or_intror (or_introl eq_refl)) eq_refl).
Defined.

(** *** The history *)

Lemma insert_desc_perm q l : Permutation (q :: l) (Cypher.insert_desc q l).
Proof.
  induction l as [|x l IH]; cbn [Cypher.insert_desc]; [reflexivity|].
  destruct (q_timestamp x <? q_timestamp q)%nat; [reflexivity|].
  etransitivity; [apply perm_swap|]. apply perm_skip, IH.
Qed.

Lemma order_desc_perm l : Permutation l (Cypher.order_desc l).
Proof.
  induction l as [|x l IH]; cbn [Cypher.order_desc fold_right]; [constructor|].
  etransitivity; [apply perm_skip, IH|]. apply insert_desc_perm.
Qed.

Lemma insert_desc_sorted q l :
  StronglySorted (fun a b => q_timestamp b <= q_timestamp a) l ->
  StronglySorted (fun a b => q_timestamp b <= q_timestamp a) (Cypher.insert_desc q l).
Proof.
  induction 1 as [|x l Hs IH Hx]; cbn [Cypher.insert_desc].
  - repeat constructor.
  - destruct (Nat.ltb_spec (q_timestamp x) (q_timestamp q)) as [Hlt|Hge].
    + constructor; [constructor; assumption|].
      constructor; [lia|]. eapply Forall_impl; [|exact Hx].
      cbv beta. intros a Ha. lia.
    + constructor; [exact IH|].
      eapply Permutation_Forall; [apply insert_desc_perm|].
      constructor; [exact Hge | exact Hx].
Qed.

Lemma order_desc_sorted l :
  StronglySorted (fun a b => q_timestamp b <= q_timestamp a) (Cypher.order_desc l).
Proof.
  induction l as [|x l IH]; cbn [Cypher.order_desc fold_right]; [constructor|].
  apply insert_desc_sorted, IH.
Qed.

Lemma in_firstn {A} n (l : list A) x : In x (firstn n l) -> In x l.
Proof.
  intros H. rewrite <- (firstn_skipn n l). apply in_or_app; left; exact H.
Qed.

Lemma firstn_sorted {A} (R : A -> A -> Prop) l :
  StronglySorted R l -> forall n, StronglySorted R (firstn n l).
Proof.
  induction 1 as [|x l Hs IH Hx]; intros [|n]; cbn [firstn]; try constructor.
  - apply IH.
  - apply Forall_forall. intros y Hy.
    apply (proj1 (Forall_forall _ _) Hx). eapply in_firstn; exact Hy.
Qed.

Lemma sorted_app {A} (R : A -> A -> Prop) l1 :
  forall l2, StronglySorted R (l1 ++ l2) ->
             forall a b, In a l1 -> In b l2 -> R a b.
Proof.
  induction l1 as [|x l1 IH]; intros l2 Hs a b Ha Hb; [destruct Ha|].
  cbn [app] in Hs. inversion Hs as [|? ? Hs' Hx]; subst.
  destruct Ha as [<-|Ha].
  - apply (proj1 (Forall_forall _ _) Hx). apply in_or_app; right; exact Hb.
  - eapply IH; eauto.
Qed.

Lemma map_sorted {A B} (R : A -> A -> Prop) (R' : B -> B -> Prop) (f : A -> B) l :
  (forall a b, R a b -> R' (f a) (f b)) ->
  StronglySorted R l -> StronglySorted R' (map f l).
Proof.
  intros HR. induction 1 as [|x l Hs IH Hx]; cbn [map]; constructor; auto.
  apply Forall_forall. intros y Hy. apply in_map_iff in Hy.
  destruct Hy as (a & <- & Ha). apply HR.
  apply (proj1 (Forall_forall _ _) Hx). exact Ha.
Qed.

(** What [RecentQueries] returns. *)
Lemma recent_rows limit d :
  let rows := Cypher.rows (RecentQueries limit) d in
  newest_first rows /\
  length rows = Nat.min limit (length (db_queries d)) /\
  (forall row, In row rows ->
     exists qn, In qn (db_queries d) /\ row = (q_text qn, q_timestamp qn)) /\
  (forall qn, In qn (db_queries d) -> ~ In (q_text qn, q_timestamp qn) rows ->
     forall row, In row rows -> q_timestamp qn <= snd row).
Proof.
  cbv zeta. cbn [Cypher.rows].
  pose proof (order_desc_sorted (db_queries d)) as Hs.
  pose proof (order_desc_perm (db_queries d)) as Hp.
  split; [|split; [|split]].
  - unfold newest_first.
    apply (map_sorted (fun a b => q_timestamp b <= q_timestamp a)); [auto|].
    apply firstn_sorted, Hs.
  - rewrite length_map, length_firstn, (Permutation_length Hp). reflexivity.
  - intros row Hr. apply in_map_iff in Hr. destruct Hr as (qn & <- & Hq).
    exists qn. split; [|reflexivity].
    eapply Permutation_in; [symmetry; exact Hp|]. eapply in_firstn; exact Hq.
  - intros qn Hq Hout row Hr. apply in_map_iff in Hr.
    destruct Hr as (qr & <- & Hqr). cbn [snd].
    assert (Hq' : In qn (Cypher.order_desc (db_queries d)))
      by (eapply Permutation_in; eauto).
    rewrite <- (firstn_skipn limit (Cypher.order_desc (db_queries d))) in Hq', Hs.
    apply in_app_or in Hq'. destruct Hq' as [Hq'|Hq'].
    + exfalso. apply Hout. apply in_map_iff. exists qn. auto.
    + exact (sorted_app _ _ _ Hs qr qn Hqr Hq').
Qed.

(** [get_query_history] when it returns. *)
Lemma get_query_history_ret E limit g rows g' :
  get_query_history E limit g = (Ret rows, g') ->
  (NEO4J_AVAILABLE E = false /\ rows = [] /\ g' = g) \/
  (NEO4J_AVAILABLE E = true /\ driver g = true /\
   rows = Cypher.rows (RecentQueries limit) (db g) /\
   g' = mk_GraphState (driver g) (Cypher.advance (db g))).
Proof.
  unfold get_query_history. destruct (NEO4J_AVAILABLE E); cbn [negb].
  - destruct (driver g) eqn:Hd; cbn [negb]; [|discriminate].
    rewrite try_except_reraise. intros H.
    destruct (session_run_ret _ _ _ _ H) as (-> & -> & _).
    right. rewrite Hd. auto.
  - intros H. injection H as <- <-. left. auto.
Qed.

(** GET /history answers with at most [limit] rows, the newest first, each
    the text and the timestamp of a query on record; with the Neo4j package
    there, as many rows as the limit and the store allow, and a query left
    out is no newer than any row.  The route changes no record, no
    relationship, no connection. *)
Theorem history_route_newest_first (E : Env) (limit : nat) (w w' : World)
    (rows : list (string * nat)) :
  QueryRoutes.get_query_history E limit w = (Respond rows, w') ->
  newest_first rows /\
  length rows <= limit /\
  (forall row, In row rows ->
     exists qn, In qn (db_queries (db (graph_service w))) /\
                row = (q_text qn, q_timestamp qn)) /\
  (NEO4J_AVAILABLE E = true ->
   length rows = Nat.min limit (length (db_queries (db (graph_service w)))) /\
   forall qn, In qn (db_queries (db (graph_service w))) ->
              ~ In (q_text qn, q_timestamp qn) rows ->
              forall row, In row rows -> q_timestamp qn <= snd row) /\
  db_queries (db (graph_service w')) = db_queries (db (graph_service w)) /\
  db_sources (db (graph_service w')) = db_sources (db (graph_service w)) /\
  db_refs (db (graph_service w')) = db_refs (db (graph_service w)) /\
  active_connections w' = active_connections w /\
  sockets w' = sockets w /\
  calls w' = calls w.
Proof.
  unfold QueryRoutes.get_query_history, on_graph_service. intros Hrun.
  destruct (get_query_history E limit (graph_service w)) as [[history|e] g'] eqn:Hh;
    [|discriminate].
  injection Hrun as -> <-.
  unfold set_graph_service. cbn [graph_service active_connections sockets calls].
  destruct (get_query_history_ret _ _ _ _ _ Hh)
    as [(Ha & -> & ->)|(Ha & Hd & -> & ->)].
  - split; [constructor|]. split; [cbn; lia|]. split; [intros row []|].
    split; [congruence|]. auto 10.
  - destruct (recent_rows limit (db (graph_service w))) as (H1 & H2 & H3 & H4).
    split; [exact H1|]. split; [rewrite H2; lia|]. split; [exact H3|].
    split; [intros _; split; [exact H2 | exact H4]|].
    cbn [db Cypher.advance db_queries db_sources db_refs]. auto 10.
Qed.

Lemma history_route_newest_first_witness :
  let r := QueryRoutes.get_query_history Sample.env 1 Demo.serving in
  fst r = Respond [("a", 2)] /\
  newest_first [("a", 2)] /\
  length [("a", 2)] <= 1.
Proof.
  cbv zeta. split; [reflexivity|].
  destruct (history_route_newest_first Sample.env 1 Demo.serving
              (snd (QueryRoutes.get_query_history Sample.env 1 Demo.serving))
              [("a", 2)] eq_refl) as (H1 & H2 & _).
  split; assumption.
Defined.

(** *** What a save writes on the query record *)

Lemma merge_query_records t sid d :
  In t (texts (Cypher.merge_query t sid d)) /\
  (forall qn, In qn (db_queries d) -> q_text qn <> t ->
              In qn (db_queries (Cypher.merge_query t sid d))) /\
  (forall qn, In qn (db_queries (Cypher.merge_query t sid d)) -> q_text qn <> t ->
              In qn (db_queries d)) /\
  (forall qn, In qn (db_queries (Cypher.merge_query t sid d)) -> q_text qn = t ->
     q_timestamp qn = db_clock d /\
     match sid with
     | Some s => q_session_id qn = Some s
     | None =>
         (exists old, In old (db_queries d) /\ q_id old = q_id qn /\
                      q_text old = t /\ q_session_id old = q_session_id qn) \/
         (~ In t (texts d) /\ q_session_id qn = None)
     end).
Proof.
  split; [rewrite merge_query_texts; apply add_key_in|].
  unfold Cypher.merge_query.
  destruct (existsb (fun q => q_text q =? t) (db_queries d)) eqn:Hex; cbn [db_queries].
  - split; [|split].
    + intros qn Hin Hne. apply in_map_iff. exists qn. split; [|exact Hin].
      destruct (String.eqb_spec (q_text qn) t); [contradiction|reflexivity].
    + intros qn Hin Hne. apply in_map_iff in Hin. destruct Hin as (old & Heq & Hold).
      destruct (String.eqb_spec (q_text old) t) as [He|He].
      * exfalso. apply Hne. rewrite <- Heq. exact He.
      * rewrite <- Heq. exact Hold.
    + intros qn Hin Ht. apply in_map_iff in Hin. destruct Hin as (old & Heq & Hold).
      destruct (String.eqb_spec (q_text old) t) as [He|He].
      * rewrite <- Heq. cbn [q_timestamp q_session_id q_id]. split; [reflexivity|].
        destruct sid as [s|]; [reflexivity|]. left. exists old. auto.
      * exfalso. apply He. rewrite Heq. exact Ht.
  - assert (Hnot : ~ In t (texts d)).
    { intros Hin. unfold texts in Hin. apply existsb_key in Hin.
      rewrite <- (existsb_map_key q_text) in Hin. congruence. }
    split; [|split].
    + intros qn Hin _. apply in_or_app; left; exact Hin.
    + intros qn Hin Hne. apply in_app_or in Hin. destruct Hin as [Hin|[Heq|[]]];
        [exact Hin|]. exfalso. apply Hne. rewrite <- Heq. reflexivity.
    + intros qn Hin Ht. apply in_app_or in Hin. destruct Hin as [Hin|[Heq|[]]].
      * exfalso. apply Hnot. rewrite <- Ht. unfold texts. apply in_map. exact Hin.
      * rewrite <- Heq. cbn [q_timestamp q_session_id]. split; [reflexivity|].
        destruct sid as [s|]; [reflexivity|]. right. auto.
Qed.

Lemma exec_merge_query_stmt q sid d :
  Cypher.exec (merge_query_stmt q sid) d
  = Cypher.merge_query q (written_session_id sid) d.
Proof.
  unfold merge_query_stmt, written_session_id.
  destruct sid as [s|]; [destruct (Py.truthy s)|]; reflexivity.
Qed.

(** The statements of the loop of a save leave the query records alone. *)
Lemma save_sources_queries q results g :
  db_queries (db (snd (save_sources q results g))) = db_queries (db g) /\
  db_clock (db g) <= db_clock (db (snd (save_sources q results g))).
Proof.
  apply (save_sources_lift
           (fun d d' => db_queries d' = db_queries d /\ db_clock d <= db_clock d')
           (fun stmt => match stmt with
                        | MergeSource _ _ _ _ | MergeReferences _ _ => True
                        | _ => False
                        end)).
  - intros d. split; [reflexivity|lia].
  - intros d1 d2 d3 (H1 & H1') (H2 & H2'). split; [congruence|lia].
  - intros stmt d HP. destruct stmt; try contradiction;
      cbn [Cypher.exec Cypher.advance db_queries db_clock].
    + rewrite merge_source_queries. split; [reflexivity|].
      unfold Cypher.merge_source. destruct (existsb _ _); cbn [db_clock]; lia.
    + cbn [Cypher.merge_references db_queries db_clock]. split; [reflexivity|lia].
  - intros d. cbn [Cypher.advance db_queries db_clock]. split; [reflexivity|lia].
  - intros x _ _. split; exact I.
Qed.

(** A save that returns: its first statement ran, and the query records are
    those that statement left. *)
Lemma save_ret E q results sid g g' :
  NEO4J_AVAILABLE E = true ->
  save_query_and_sources E q results sid g = (Ret tt, g') ->
  driver g = true /\
  hd None (db_faults (db g)) = None /\
  db_queries (db g')
  = db_queries (Cypher.merge_query q (written_session_id sid) (db g)) /\
  db_clock (db g) < db_clock (db g').
Proof.
  intros Ha Hrun. unfold save_query_and_sources in Hrun.
  rewrite Ha in Hrun. cbn [negb] in Hrun.
  destruct (driver g); cbn [negb] in Hrun; [|discriminate].
  rewrite try_except_reraise in Hrun. unfold bind at 1 in Hrun.
  assert (Hstmt : (match sid with
                   | Some s => if Py.truthy s then session_run (MergeQuerySession q s)
                               else session_run (MergeQuery q)
                   | None => session_run (MergeQuery q)
                   end) g = session_run (merge_query_stmt q sid) g).
  { unfold merge_query_stmt. destruct sid as [s|]; [destruct (Py.truthy s)|];
      reflexivity. }
  rewrite Hstmt in Hrun.
  destruct (session_run (merge_query_stmt q sid) g) as [[rows|e] g1] eqn:H1;
    [|discriminate].
  destruct (session_run_ret _ _ _ _ H1) as (Hg1 & _ & Hf).
  destruct (save_sources_queries q results g1) as (Hq & Hc).
  rewrite Hrun in Hq, Hc. cbn [snd] in Hq, Hc.
  split; [reflexivity|]. split; [exact Hf|].
  rewrite Hg1 in Hq, Hc. cbn [db Cypher.advance db_queries db_clock] in Hq, Hc.
  rewrite exec_merge_query_stmt in Hq, Hc. split; [exact Hq|].
  assert (Hck : db_clock (Cypher.merge_query q (written_session_id sid) (db g))
                = db_clock (db g))
    by (unfold Cypher.merge_query; destruct (existsb _ _); reflexivity).
  rewrite Hck in Hc. lia.
Qed.

(** A save that returns stamps the records of its query with the time of
    the save and leaves the records of every other query as they were.  A
    save with a session-id writes it on the record; a save without one, or
    with an empty one, keeps the session-id the record had, and a record it
    creates has none. *)
Theorem save_session_id (E : Env) (q : string) (results : list SearchResult)
    (sid : option string) (g g' : GraphState) :
  NEO4J_AVAILABLE E = true ->
  save_query_and_sources E q results sid g = (Ret tt, g') ->
  In q (texts (db g')) /\
  (forall qn, q_text qn <> q ->
     (In qn (db_queries (db g')) <-> In qn (db_queries (db g)))) /\
  (forall qn, In qn (db_queries (db g')) -> q_text qn = q ->
     q_timestamp qn = db_clock (db g) /\
     match written_session_id sid with
     | Some s => q_session_id qn = Some s
     | None =>
         (exists old, In old (db_queries (db g)) /\ q_id old = q_id qn /\
                      q_text old = q /\ q_session_id old = q_session_id qn) \/
         (~ In q (texts (db g)) /\ q_session_id qn = None)
     end).
Proof.
  intros Ha Hrun. destruct (save_ret E q results sid g g' Ha Hrun) as (_ & _ & Hq & _).
  destruct (merge_query_records q (written_session_id sid) (db g))
    as (H1 & H2 & H3 & H4).
  unfold texts. rewrite Hq. split; [exact H1|]. split.
  - intros qn Hne. split; intros Hin; auto.
  - exact H4.
Qed.

Lemma save_session_id_witness :
  let r := save_query_and_sources Sample.env "b" [] None Demo.history_store in
  fst r = Ret tt /\
  db_queries (db (snd r))
  = [mk_QueryNode 0 "a" 2 None; mk_QueryNode 1 "b" 3 (Some "s1")] /\
  In "b" (texts (db (snd r))).
Proof.
  cbv zeta. split; [reflexivity|]. split; [reflexivity|].
  exact (proj1 (save_session_id Sample.env "b" [] None Demo.history_store _
                  eq_refl eq_refl)).
Defined.

(** *** The HTTP routes *)

Lemma order_desc_head l :
  l <> [] ->
  exists h t, Cypher.order_desc l = h :: t /\ In h l /\
              forall x, In x l -> q_timestamp x <= q_timestamp h.
Proof.
  intros Hne.
  pose proof (order_desc_sorted l) as Hs. pose proof (order_desc_perm l) as Hp.
  destruct (Cypher.order_desc l) as [|h t].
  - apply Permutation_sym, Permutation_nil in Hp. contradiction.
  - exists h, t. split; [reflexivity|]. split.
    + eapply Permutation_in; [symmetry; exact Hp | apply in_eq].
    + intros x Hx. apply (Permutation_in _ Hp) in Hx.
      inversion Hs as [|? ? _ Hall]; subst. destruct Hx as [<-|Hx]; [lia|].
      apply (proj1 (Forall_forall _ _) Hall). exact Hx.
Qed.

(** A query whose records carry the newest timestamp heads the history. *)
Lemma newest_on_top limit d t c :
  0 < limit -> In t (texts d) ->
  (forall qn, In qn (db_queries d) -> q_text qn = t -> q_timestamp qn = c) ->
  (forall qn, In qn (db_queries d) -> q_text qn <> t -> q_timestamp qn < c) ->
  exists rest, Cypher.rows (RecentQueries limit) d = (t, c) :: rest.
Proof.
  intros Hl Ht Hsame Hother. unfold texts in Ht. apply in_map_iff in Ht.
  destruct Ht as (qn0 & Ht0 & Hin0).
  assert (Hne : db_queries d <> []) by (intros He; rewrite He in Hin0; destruct Hin0).
  destruct (order_desc_head _ Hne) as (h & tl' & Ho & Hh & Hmax).
  cbn [Cypher.rows]. rewrite Ho. destruct limit as [|n]; [lia|]. cbn [firstn map].
  pose proof (Hmax qn0 Hin0) as Hle.
  rewrite (Hsame qn0 Hin0 Ht0) in Hle.
  destruct (String.eqb_spec (q_text h) t) as [He|He].
  - rewrite He, (Hsame h Hh He). eexists; reflexivity.
  - pose proof (Hother h Hh He). lia.
Qed.

(** The history read right after a save that returned. *)
Lemma save_then_history E q results sid g g1 limit rows g2 :
  NEO4J_AVAILABLE E = true -> clock_ok (db g) -> 0 < limit ->
  save_query_and_sources E q results sid g = (Ret tt, g1) ->
  get_query_history E limit g1 = (Ret rows, g2) ->
  exists rest, rows = (q, db_clock (db g)) :: rest.
Proof.
  intros Ha Hck Hl Hsave Hhist.
  destruct (save_ret E q results sid g g1 Ha Hsave) as (_ & _ & Hq & _).
  destruct (merge_query_records q (written_session_id sid) (db g))
    as (H1 & _ & H3 & H4).
  destruct (get_query_history_ret _ _ _ _ _ Hhist)
    as [(Ha' & _)|(_ & _ & -> & _)]; [congruence|].
  apply newest_on_top; [exact Hl| | |].
  - unfold texts. rewrite Hq. exact H1.
  - rewrite Hq. intros qn Hin Ht. apply (H4 qn Hin Ht).
  - rewrite Hq. intros qn Hin Hne.
    apply (proj1 (Forall_forall _ _) Hck). apply H3; assumption.
Qed.

(** [query_endpoint] when it responds. *)
Lemma query_endpoint_respond E now rq w resp w' :
  QueryRoutes.query_endpoint E now rq w = (Respond resp, w') ->
  exists results g',
    QueryRoutes.search_request E rq = Ret results /\
    save_query_and_sources E (rq_query rq) results None (graph_service w)
    = (Ret tt, g') /\
    resp = mk_QueryResponse (rq_query rq) results now /\
    w' = mk_World (active_connections w) (sockets w) g' (uuid_calls w)
                  (calls w ++ [SaveCall (rq_query rq) results None]).
Proof.
  unfold QueryRoutes.query_endpoint. intros Hrun.
  unfold bind at 1 in Hrun. unfold lift_outcome in Hrun.
  destruct (QueryRoutes.search_request E rq) as [results|e]; [|discriminate].
  unfold bind at 1 in Hrun. unfold record_call at 1 in Hrun.
  unfold bind at 1 in Hrun. unfold on_graph_service at 1 in Hrun.
  cbn [graph_service] in Hrun.
  destruct (save_query_and_sources E (rq_query rq) results None (graph_service w))
    as [[[]|e] g'] eqn:Hsave; [|discriminate].
  unfold ret, set_graph_service in Hrun.
  cbn [active_connections sockets uuid_calls calls] in Hrun.
  injection Hrun as <- <-. exists results, g'. auto.
Qed.

(** When POST /query answers (the Neo4j package being there), the response
    carries the request's query and the results of the provider, the query
    is on record, and its record references the source record of every
    result whose URL is not blank.  No connection is touched. *)
Theorem query_endpoint_response_on_record (E : Env) (now : nat) (rq : QueryRequest)
    (w w' : World) (resp : QueryResponse) :
  NEO4J_AVAILABLE E = true ->
  QueryRoutes.query_endpoint E now rq w = (Respond resp, w') ->
  rs_query resp = rq_query rq /\
  rs_timestamp resp = now /\
  QueryRoutes.search_request E rq = Ret (rs_results resp) /\
  In (rq_query rq) (texts (db (graph_service w'))) /\
  (forall x, In x (rs_results resp) -> all_space (url x) = false ->
             linked (db (graph_service w')) (rq_query rq) (url x)) /\
  active_connections w' = active_connections w /\
  sockets w' = sockets w.
Proof.
  intros Ha Hrun.
  destruct (query_endpoint_respond _ _ _ _ _ _ Hrun)
    as (results & g' & Hs & Hsave & -> & ->).
  cbn [rs_query rs_timestamp rs_results graph_service active_connections sockets].
  split; [reflexivity|]. split; [reflexivity|]. split; [exact Hs|].
  pose proof (save_spec E (rq_query rq) results None (graph_service w))
    as (_ & _ & _ & Hrec).
  rewrite Hsave in Hrec. cbn [fst snd] in Hrec.
  destruct (Hrec Ha eq_refl) as (Hq & _).
  split; [exact Hq|]. split; [|auto].
  exact (save_links E (rq_query rq) results None (graph_service w) g' Ha Hsave).
Qed.

Lemma query_endpoint_response_on_record_witness :
  let rq := mk_QueryRequest "rocq" (Some "tavily") in
  let r := QueryRoutes.query_endpoint Sample.env 7 rq Demo.serving in
  fst r = Respond (mk_QueryResponse "rocq" Sample.results 7) /\
  In "rocq" (texts (db (graph_service (snd r)))) /\
  sockets (snd r) = [].
Proof.
  cbv zeta.
  assert (Hrun : QueryRoutes.query_endpoint Sample.env 7
                   (mk_QueryRequest "rocq" (Some "tavily")) Demo.serving
                 = (Respond (mk_QueryResponse "rocq" Sample.results 7),
                    snd (QueryRoutes.query_endpoint Sample.env 7
                           (mk_QueryRequest "rocq" (Some "tavily")) Demo.serving)))
    by (vm_compute; reflexivity).
  destruct (query_endpoint_response_on_record Sample.env 7
              (mk_QueryRequest "rocq" (Some "tavily")) Demo.serving _ _ eq_refl Hrun)
    as (_ & _ & _ & Hrec & _ & _ & Hsock).
  split; [vm_compute; reflexivity|]. split; [exact Hrec | exact Hsock].
Defined.

Lemma exec_clock_ok stmt d :
  clock_ok d -> clock_ok (Cypher.advance (Cypher.exec stmt d)).
Proof.
  unfold clock_ok. cbn [Cypher.advance db_queries db_clock]. intros H.
  assert (Hq : forall t sid,
            Forall (fun qn => q_timestamp qn < S (db_clock (Cypher.merge_query t sid d)))
                   (db_queries (Cypher.merge_query t sid d))).
  { intros t sid. apply Forall_forall. intros qn Hin.
    destruct (merge_query_records t sid d) as (_ & _ & H3 & H4).
    assert (Hck : db_clock (Cypher.merge_query t sid d) = db_clock d)
      by (unfold Cypher.merge_query; destruct (existsb _ _); reflexivity).
    rewrite Hck. destruct (String.eqb_spec (q_text qn) t) as [He|He].
    - destruct (H4 qn Hin He) as (-> & _). lia.
    - pose proof (proj1 (Forall_forall _ _) H qn (H3 qn Hin He)). cbv beta in *. lia. }
  assert (Hkeep : Forall (fun qn => q_timestamp qn < S (db_clock d)) (db_queries d))
    by (eapply Forall_impl; [|exact H]; cbv beta; intros; lia).
  destruct stmt as [|t sid|t|u ti sn so|t u|limit]; cbn [Cypher.exec]; auto.
  - rewrite merge_source_queries.
    assert (Hck : db_clock (Cypher.merge_source u ti sn so d) = db_clock d)
      by (unfold Cypher.merge_source; destruct (existsb _ _); reflexivity).
    rewrite Hck. exact Hkeep.
Qed.

Lemma advance_clock_ok d : clock_ok d -> clock_ok (Cypher.advance d).
Proof.
  unfold clock_ok. cbn [Cypher.advance db_queries db_clock]. intros H.
  eapply Forall_impl; [|exact H]. cbv beta. intros; lia.
Qed.

(** With the timestamps on record in the past of the store's clock, a
    POST /query that answers puts its query on top of the history: a
    GET /history with a positive limit that follows and answers has the query
    as its first row, stamped with the time of the save; and the timestamps
    on record are in the past of the clock again. *)
Theorem history_after_query (E : Env) (now : nat) (rq : QueryRequest)
    (w w1 w2 : World) (resp : QueryResponse) (limit : nat)
    (rows : list (string * nat)) :
  NEO4J_AVAILABLE E = true ->
  clock_ok (db (graph_service w)) ->
  0 < limit ->
  QueryRoutes.query_endpoint E now rq w = (Respond resp, w1) ->
  QueryRoutes.get_query_history E limit w1 = (Respond rows, w2) ->
  (exists rest, rows = (rq_query rq, db_clock (db (graph_service w))) :: rest) /\
  clock_ok (db (graph_service w2)).
Proof.
  intros Ha Hck Hl Hq Hh.
  destruct (query_endpoint_respond _ _ _ _ _ _ Hq)
    as (results & g1 & _ & Hsave & _ & ->).
  unfold QueryRoutes.get_query_history, on_graph_service in Hh.
  cbn [graph_service] in Hh.
  destruct (get_query_history E limit g1) as [[history|e] g2] eqn:Hhist;
    [|discriminate].
  injection Hh as -> <-. unfold set_graph_service. cbn [graph_service].
  split.
  - exact (save_then_history E (rq_query rq) results None (graph_service w) g1
             limit rows g2 Ha Hck Hl Hsave Hhist).
  - assert (Hck1 : clock_ok (db g1)).
    { pose proof (save_lift (fun d d' => clock_ok d -> clock_ok d') (fun _ => True)
                    (fun d H => H) (fun d1 d2 d3 H12 H23 H => H23 (H12 H))
                    (fun stmt d _ => exec_clock_ok stmt d) advance_clock_ok
                    E (rq_query rq) results None (graph_service w) I
                    (fun _ _ _ => conj I I)) as Hk.
      rewrite Hsave in Hk. exact (Hk Hck). }
    destruct (get_query_history_ret _ _ _ _ _ Hhist)
      as [(_ & _ & ->)|(_ & _ & _ & ->)]; [exact Hck1|].
    cbn [db]. apply advance_clock_ok, Hck1.
Qed.

(** Until [connect] has stored a driver (the Neo4j package being there),
    POST /query answers no request: when the search fails the route raises
    HTTP 500 with the error of the search, and when the search returns it
    raises HTTP 500 because the driver is missing; the results are not
    handed out and the store stays as it is. *)
Theorem query_endpoint_needs_startup (E : Env) (now : nat) (rq : QueryRequest)
    (w : World) :
  NEO4J_AVAILABLE E = true ->
  driver (graph_service w) = false ->
  let r := QueryRoutes.query_endpoint E now rq w in
  graph_service (snd r) = graph_service w /\
  fst r = HTTPException 500
            ("Error processing query: "
             ++ match QueryRoutes.search_request E rq with
                | Ret _ => "Neo4j driver not initialized. Call connect() first."
                | Raise e => exn_str e
                end).
Proof.
  intros Ha Hd. cbv zeta.
  destruct (QueryRoutes.query_endpoint E now rq w) as [o w'] eqn:Hrun.
  cbn [fst snd]. unfold QueryRoutes.query_endpoint in Hrun.
  unfold bind at 1 in Hrun. unfold lift_outcome in Hrun.
  destruct (QueryRoutes.search_request E rq) as [results|e].
  - unfold bind at 1 in Hrun. unfold record_call at 1 in Hrun.
    unfold bind at 1 in Hrun. unfold on_graph_service at 1 in Hrun.
    cbn [graph_service] in Hrun.
    unfold save_query_and_sources in Hrun. rewrite Ha in Hrun.
    cbn [negb] in Hrun. cbv beta in Hrun. rewrite Hd in Hrun.
    cbn [negb] in Hrun. unfold raise, set_graph_service in Hrun.
    cbn [active_connections sockets uuid_calls calls graph_service] in Hrun.
    injection Hrun as <- <-. cbn [graph_service]. split; reflexivity.
  - injection Hrun as <- <-. split; reflexivity.
Qed.

Lemma query_endpoint_needs_startup_witness :
  let r := QueryRoutes.query_endpoint Sample.env 7
             (mk_QueryRequest "rocq" (Some "tavily")) (Sample.world None None) in
  fst r = HTTPException 500
            "Error processing query: Neo4j driver not initialized. Call connect() first." /\
  graph_service (snd r) = mk_GraphState false Sample.empty_db.
Proof.
  cbv zeta.
  destruct (query_endpoint_needs_startup Sample.env 7
              (mk_QueryRequest "rocq" (Some "tavily")) (Sample.world None None)
              eq_refl eq_refl) as (Hg & Hr).
  split; [exact Hr | exact Hg].
Defined.

Lemma history_after_query_witness :
  let rq := mk_QueryRequest "b" (Some "tavily") in
  let w1 := snd (QueryRoutes.query_endpoint Sample.env 7 rq Demo.serving) in
  clock_ok (db (graph_service Demo.serving)) /\
  fst (QueryRoutes.get_query_history Sample.env 2 w1) = Respond [("b", 3); ("a", 2)] /\
  exists rest,
    [("b", 3); ("a", 2)] = ("b", db_clock (db (graph_service Demo.serving))) :: rest.
Proof.
  cbv zeta.
  assert (Hck : clock_ok (db (graph_service Demo.serving))).
  { unfold clock_ok. vm_compute. repeat constructor. }
  assert (Hq : QueryRoutes.query_endpoint Sample.env 7
                 (mk_QueryRequest "b" (Some "tavily")) Demo.serving
               = (Respond (mk_QueryResponse "b" Sample.results 7),
                  snd (QueryRoutes.query_endpoint Sample.env 7
                         (mk_QueryRequest "b" (Some "tavily")) Demo.serving)))
    by (vm_compute; reflexivity).
  assert (Hh : QueryRoutes.get_query_history Sample.env 2
                 (snd (QueryRoutes.query_endpoint Sample.env 7
                         (mk_QueryRequest "b" (Some "tavily")) Demo.serving))
               = (Respond [("b", 3); ("a", 2)],
                  snd (QueryRoutes.get_query_history Sample.env 2
                         (snd (QueryRoutes.query_endpoint Sample.env 7
                                 (mk_QueryRequest "b" (Some "tavily")) Demo.serving)))))
    by (vm_compute; reflexivity).
  split; [exact Hck|]. split; [vm_compute; reflexivity|].
  exact (proj1 (history_after_query Sample.env 7 _ _ _ _ _ 2 _ eq_refl Hck
                  (Nat.lt_0_succ 1) Hq Hh)).
Defined.

(** *** Failed saves *)

(** A save is not undone when it fails: with the Neo4j package and the
    driver there, once the server has run the first statement the query is
    on record, whether the save then returns or a later statement makes it
    raise. *)
Theorem save_failure_keeps_query (E : Env) (q : string) (results : list SearchResult)
    (sid : option string) (g : GraphState) :
  NEO4J_AVAILABLE E = true ->
  driver g = true ->
  hd None (db_faults (db g)) = None ->
  In q (texts (db (snd (save_query_and_sources E q results sid g)))).
Proof.
  intros Ha Hd Hf.
  destruct (save_query_and_sources E q results sid g) as [o g'] eqn:Hrun. cbn [snd].
  unfold save_query_and_sources in Hrun. rewrite Ha in Hrun.
  cbn [negb] in Hrun. cbv beta in Hrun. rewrite Hd in Hrun. cbn [negb] in Hrun.
  rewrite try_except_reraise in Hrun. unfold bind at 1 in Hrun.
  assert (Hstmt : (match sid with
                   | Some s => if Py.truthy s then session_run (MergeQuerySession q s)
                               else session_run (MergeQuery q)
                   | None => session_run (MergeQuery q)
                   end) g = session_run (merge_query_stmt q sid) g).
  { unfold merge_query_stmt. destruct sid as [s|]; [destruct (Py.truthy s)|];
      reflexivity. }
  rewrite Hstmt in Hrun.
  destruct (session_run (merge_query_stmt q sid) g) as [[rows|e] g1] eqn:H1.
  - destruct (session_run_ret _ _ _ _ H1) as (Hg1 & _ & _).
    destruct (save_sources_spec q results g1) as (_ & _ & (Hgrow & _) & _).
    rewrite Hrun in Hgrow. cbn [snd] in Hgrow. apply Hgrow.
    rewrite Hg1. cbn [db]. unfold texts. cbn [Cypher.advance db_queries].
    rewrite exec_merge_query_stmt.
    exact (proj1 (merge_query_records q (written_session_id sid) (db g))).
  - destruct (session_run_raise _ _ _ _ H1) as (_ & Hf'). congruence.
Qed.

(** *** The session and the store *)

(** A session whose writes are delivered, whose search returns and whose
    save returns (the Neo4j package being there) leaves on record what it
    streamed: the query, stamped with the session-id of the connection, and
    a reference from it to the source record of every result whose URL is
    not blank. *)
Theorem session_results_on_record (E : Env) (w : World) (ws : nat)
    (sid q : string) (t : option string) (rest : list (outcome Payload))
    (results : list SearchResult) :
  NEO4J_AVAILABLE E = true ->
  sk_inbox (socket_at w ws) = Ret (mk_Payload (Some q) (option_map PyStr t)) :: rest ->
  Py.truthy q = true ->
  Py.truthy sid = true ->
  healthy (socket_at w ws) ->
  search E q (get_str t "tavily") = Ret results ->
  fst (save_query_and_sources E q results (Some sid) (graph_service w)) = Ret tt ->
  let r := websocket_stream_endpoint E ws sid w in
  fst r = Ret tt /\
  frames_of "source" (skipn (length (sk_wire (socket_at w ws)))
                            (sk_wire (socket_at (snd r) ws)))
  = source_frames E (uuid_calls w) results /\
  In q (texts (db (graph_service (snd r)))) /\
  (forall qn, In qn (db_queries (db (graph_service (snd r)))) -> q_text qn = q ->
              q_session_id qn = Some sid) /\
  (forall x, In x results -> all_space (url x) = false ->
             linked (db (graph_service (snd r))) q (url x)).
Proof.
  intros Ha Hin Hq Hsid Hh Hs Hsave r. subst r.
  pose proof (inbox_in_range _ _ _ _ Hin) as Hr.
  rewrite (endpoint_streams E w ws sid q t rest results Hin Hq Hh Hs).
  cbn [fst snd graph_service]. rewrite socket_at_mk by exact Hr. cbn [sk_wire].
  destruct (save_query_and_sources E q results (Some sid) (graph_service w))
    as [o g'] eqn:Hrun.
  cbn [fst snd] in *. subst o.
  split; [reflexivity|]. split.
  - rewrite skipn_app, skipn_all, Nat.sub_diag. cbn [skipn app].
    change (frames_of "source"
              ([status_event "Searching sources..."]
               ++ source_frames E (uuid_calls w) results
               ++ [done_event (length results)])
            = source_frames E (uuid_calls w) results).
    rewrite !frames_of_app, (frames_of_all "source" (source_frames _ _ _))
      by apply event_of_source_frames.
    cbn. apply app_nil_r.
  - destruct (save_ret E q results (Some sid) (graph_service w) g' Ha Hrun)
      as (_ & _ & Hrec & _).
    destruct (merge_query_records q (written_session_id (Some sid))
                (db (graph_service w))) as (H1 & _ & _ & H4).
    unfold texts. rewrite Hrec. split; [exact H1|]. split.
    + intros qn Hqn Ht. destruct (H4 qn Hqn Ht) as (_ & Hs4).
      unfold written_session_id in Hs4. rewrite Hsid in Hs4. exact Hs4.
    + exact (save_links E q results (Some sid) (graph_service w) g' Ha Hrun).
Qed.

Lemma session_results_on_record_witness :
  let r := websocket_stream_endpoint Sample.env 0 "s1" Demo.session in
  fst r = Ret tt /\
  db_queries (db (graph_service (snd r))) = [mk_QueryNode 0 "rocq" 0 (Some "s1")] /\
  linked (db (graph_service (snd r))) "rocq" "http://a".
Proof.
  cbv zeta.
  destruct (session_results_on_record Sample.env Demo.session 0 "s1" "rocq" None []
              Sample.results eq_refl eq_refl eq_refl eq_refl (Forall_nil _)
              eq_refl eq_refl) as (Hret & _ & _ & _ & Hlink).
  split; [exact Hret|]. split; [vm_compute; reflexivity|].
  exact (Hlink (mk_SearchResult "T1" "http://a" "c1" "tavily")
           (or_intror (or_introl eq_refl)) eq_refl).
Defined.

Lemma save_failure_keeps_query_witness :
  let r := save_query_and_sources Sample.env "rocq" Sample.results None
             Demo.flaky_store in
  fst r = Raise Sample.service_unavailable /\
  urls (db (snd r)) = [] /\
  In "rocq" (texts (db (snd r))).
Proof.
  cbv zeta. split; [reflexivity|]. split; [reflexivity|].
  exact (save_failure_keeps_query Sample.env "rocq" Sample.results None
           Demo.flaky_store eq_refl eq_refl eq_refl).
Defined.
